(** * syncall: TaskWarrior <-> Google Calendar reconciliation

    A shallow embedding of [taskw_gcal_sync]: the item converters of
    [TWGCalAggregator], the registration loop over the [bidict] of
    identifiers, [TaskWarriorSide] and the command line entry point,
    followed by the properties of the specification that were checked
    against them.

    Conventions of the embedding
    - Python [str] is [string]: a sequence of the code points 0 to 255.
      Blanks, letter case and printable characters are classified as
      Python classifies these code points; strings that hold a code point
      above 255 are outside the embedding.
    - A [datetime] is an absolute instant, counted in microseconds ([Z]);
      [timedelta(days=1)] is [day].  The range limits of [datetime] are not
      modelled.
    - A [uuid.UUID] is its 128-bit integer ([N]).
    - A [dict] with string keys is a [gmap string pyval]; dicts nested in
      values keep their insertion order as association lists.
    - An exception is a value of [exn]; a call that can raise returns a
      [result].  Log records are collected in a list. *)

From Stdlib Require Import ZArith NArith Ascii String DecimalString DecimalPos DecimalZ.
From stdpp Require Import base gmap list strings fin_maps.

Local Open Scope Z_scope.
Set Warnings "-register-all".
Set Default Proof Using "Type*".

(* ===================================================================== *)
(** * Python strings *)
(* ===================================================================== *)

Module PyStr.

Definition LF : ascii := "010"%char.

(** The double quote. *)
Definition DQ : ascii := "034"%char.

(** [str.isspace] on one character: the control characters 9 to 13 and
    28 to 31, the space, and the code points 133 (next line) and 160
    (no-break space). *)
Definition isspace (c : ascii) : bool :=
  let n := N_of_ascii c in
  ((9 <=? n) && (n <=? 13) || (28 <=? n) && (n <=? 32)
   || (n =? 133) || (n =? 160))%N.

(** [str.lower] on one character: the letters A to Z, and the capital
    letters 192 to 222 of the Latin-1 range but for the sign 215. *)
Definition lower_char (c : ascii) : ascii :=
  let n := N_of_ascii c in
  if ((65 <=? n) && (n <=? 90)
      || (192 <=? n) && (n <=? 222) && negb (n =? 215))%N
  then ascii_of_N (n + 32) else c.

Fixpoint lower (s : string) : string :=
  match s with
  | EmptyString => EmptyString
  | String c s' => String (lower_char c) (lower s')
  end.

Definition is_empty (s : string) : bool :=
  match s with EmptyString => true | _ => false end.

(** [s.lstrip(chars)], [s.rstrip(chars)], [s.strip(chars)] for a set of
    characters given as a predicate. *)
Fixpoint lstrip_by (p : ascii -> bool) (s : string) : string :=
  match s with
  | EmptyString => EmptyString
  | String c s' => if p c then lstrip_by p s' else s
  end.

Fixpoint rstrip_by (p : ascii -> bool) (s : string) : string :=
  match s with
  | EmptyString => EmptyString
  | String c s' =>
      let r := rstrip_by p s' in
      if p c && is_empty r then EmptyString else String c r
  end.

Definition strip_by (p : ascii -> bool) (s : string) : string :=
  rstrip_by p (lstrip_by p s).

(** [s.strip()] *)
Definition strip (s : string) : string := strip_by isspace s.

(** [s.split(sep)] for a one-character separator. *)
Fixpoint split (sep : ascii) (s : string) : list string :=
  match s with
  | EmptyString => [EmptyString]
  | String c s' =>
      if Ascii.eqb c sep then EmptyString :: split sep s'
      else match split sep s' with
           | cur :: rest => String c cur :: rest
           | [] => [String c EmptyString]
           end
  end.

(** [s.split(sep, maxsplit=1)] for a one-character separator. *)
Fixpoint split1 (sep : ascii) (s : string) : list string :=
  match s with
  | EmptyString => [EmptyString]
  | String c s' =>
      if Ascii.eqb c sep then [EmptyString; s']
      else match split1 sep s' with
           | cur :: rest => String c cur :: rest
           | [] => [String c EmptyString]
           end
  end.

(** [s.startswith(p)] *)
Definition startswith (s p : string) : bool := String.prefix p s.

(** [s.replace(pat, "")]: every non-overlapping occurrence of [pat],
    scanning from the left, is removed.  [skip] counts the characters of
    an occurrence that are still to be dropped. *)
Fixpoint remove_from (pat : string) (skip : nat) (s : string) : string :=
  match s with
  | EmptyString => EmptyString
  | String c s' =>
      match skip with
      | S k => remove_from pat k s'
      | O =>
          if is_empty pat then String c (remove_from pat O s')
          else if String.prefix pat s
               then remove_from pat (Nat.pred (String.length pat)) s'
               else String c (remove_from pat O s')
      end
  end.

Definition remove_all (pat s : string) : string := remove_from pat O s.

Fixpoint take (n : nat) (s : string) : string :=
  match n, s with
  | S k, String c s' => String c (take k s')
  | _, _ => EmptyString
  end.

Fixpoint drop (n : nat) (s : string) : string :=
  match n, s with
  | S k, String _ s' => drop k s'
  | _, _ => s
  end.

(** [s[a:b]] for [0 <= a <= b]. *)
Definition slice (a b : nat) (s : string) : string := take (b - a) (drop a s).

Fixpoint chars (s : string) : list ascii :=
  match s with
  | EmptyString => []
  | String c s' => c :: chars s'
  end.

(** [str(n)] for a Python [int]. *)
Definition of_Z (n : Z) : string := NilZero.string_of_int (Z.to_int n).

(** [str.isprintable] on one character. *)
Definition isprintable (c : ascii) : bool :=
  let n := N_of_ascii c in
  ((32 <=? n) && (n <=? 126) || (161 <=? n) && negb (n =? 173))%N.

Definition hex_char (d : N) : ascii :=
  if (d <? 10)%N then ascii_of_N (48 + d) else ascii_of_N (87 + d).

(** The backslash. *)
Definition BS : ascii := "092"%char.

(** One character of [repr(s)], [q] being the quote that encloses it. *)
Definition repr_char (q c : ascii) : string :=
  let n := N_of_ascii c in
  if Ascii.eqb c q || Ascii.eqb c BS then String BS (String c "")
  else if Ascii.eqb c "009" then String BS "t"
  else if Ascii.eqb c "010" then String BS "n"
  else if Ascii.eqb c "013" then String BS "r"
  else if isprintable c then String c ""
  else String BS (String "x" (String (hex_char (n / 16))
                                     (String (hex_char (n mod 16)) ""))).

Fixpoint repr_chars (q : ascii) (s : string) : string :=
  match s with
  | EmptyString => EmptyString
  | String c s' => repr_char q c +:+ repr_chars q s'
  end.

Fixpoint has_char (c : ascii) (s : string) : bool :=
  match s with
  | EmptyString => false
  | String x s' => Ascii.eqb x c || has_char c s'
  end.

(** [repr(s)]: single quotes, unless the string holds a single quote and
    no double quote. *)
Definition repr (s : string) : string :=
  let q := if has_char "'" s && negb (has_char DQ s) then DQ else "'"%char in
  String q (repr_chars q s +:+ String q "").

End PyStr.

(* ===================================================================== *)
(** * The standard [uuid] module *)
(* ===================================================================== *)

Module Uuid.

Definition hex_digit (d : N) : ascii :=
  if (d <? 10)%N then ascii_of_N (48 + d) else ascii_of_N (87 + d).

(** ['%0wx' % u], most significant digit first. *)
Fixpoint hex_fixed (w : nat) (u : N) : string :=
  match w with
  | O => EmptyString
  | S k => String (hex_digit (N.shiftr u (4 * N.of_nat k) mod 16)) (hex_fixed k u)
  end.

(** [str(UUID(int=u))]: 8-4-4-4-12 lower-case hexadecimal digits. *)
Definition to_string (u : N) : string :=
  let h := hex_fixed 32 u in
  PyStr.slice 0 8 h +:+ "-" +:+ PyStr.slice 8 12 h +:+ "-" +:+
  PyStr.slice 12 16 h +:+ "-" +:+ PyStr.slice 16 20 h +:+ "-" +:+
  PyStr.slice 20 32 h.

Definition hex_value (c : ascii) : option N :=
  let n := N_of_ascii c in
  if ((48 <=? n) && (n <=? 57))%N then Some (n - 48)%N
  else if ((97 <=? n) && (n <=? 102))%N then Some (n - 87)%N
  else if ((65 <=? n) && (n <=? 70))%N then Some (n - 55)%N
  else None.

(** The digits of [int(s, 16)]: hexadecimal digits with single
    underscores between them.  [sep] tells that a digit must come next. *)
Fixpoint digits16 (sep : bool) (acc : N) (s : string) : option N :=
  match s with
  | EmptyString => if sep then None else Some acc
  | String c s' =>
      if Ascii.eqb c "_" then (if sep then None else digits16 true acc s')
      else match hex_value c with
           | Some d => digits16 false (acc * 16 + d) s'
           | None => None
           end
  end.

Definition drop_sign (s : string) : bool * string :=
  match s with
  | String c s' =>
      if Ascii.eqb c "+" then (false, s')
      else if Ascii.eqb c "-" then (true, s')
      else (false, s)
  | EmptyString => (false, s)
  end.

(** The prefix [0x] or [0X], and one underscore after it. *)
Definition drop_0x (s : string) : string :=
  match s with
  | String c1 (String c2 s') =>
      if Ascii.eqb c1 "0" && (Ascii.eqb c2 "x" || Ascii.eqb c2 "X")
      then match s' with
           | String c3 s'' => if Ascii.eqb c3 "_" then s'' else s'
           | EmptyString => s'
           end
      else s
  | _ => s
  end.

(** The blanks that [int] skips at both ends of its argument: those of
    [str.isspace] but for the control characters 28 to 31. *)
Definition int_space (c : ascii) : bool :=
  let n := N_of_ascii c in
  ((9 <=? n) && (n <=? 13) || (n =? 32) || (n =? 133) || (n =? 160))%N.

(** [int(s, 16)]; [None] stands for [ValueError]. *)
Definition int16 (s : string) : option Z :=
  let '(neg, s1) := drop_sign (PyStr.strip_by int_space s) in
  match digits16 true 0 (drop_0x s1) with
  | Some n => Some (if neg then - Z.of_N n else Z.of_N n)
  | None => None
  end.

Definition is_brace (c : ascii) : bool := Ascii.eqb c "{" || Ascii.eqb c "}".

(** [UUID(s)]; [None] stands for [ValueError]. *)
Definition parse (s : string) : option N :=
  let hex := PyStr.remove_all "uuid:" (PyStr.remove_all "urn:" s) in
  let hex := PyStr.remove_all "-" (PyStr.strip_by is_brace hex) in
  if negb (String.length hex =? 32)%nat then None
  else match int16 hex with
       | Some n => if (0 <=? n) && (n <? 2 ^ 128) then Some (Z.to_N n) else None
       | None => None
       end.

(** [str(err)] for the [ValueError] that [UUID(s)] raises. *)
Definition error_text (s : string) : string :=
  let hex := PyStr.remove_all "uuid:" (PyStr.remove_all "urn:" s) in
  let hex := PyStr.remove_all "-" (PyStr.strip_by is_brace hex) in
  if negb (String.length hex =? 32)%nat
  then "badly formed hexadecimal UUID string"
  else match int16 hex with
       | None => "invalid literal for int() with base 16: " +:+ PyStr.repr hex
       | Some _ => "int is out of range (need a 128-bit value)"
       end.

(** The sixteen digits of a rendered UUID, and its characters. *)
Definition hexdigits : list ascii := PyStr.chars "0123456789abcdef".

Definition uuid_char (c : ascii) : Prop := c ∈ hexdigits \/ c = "-"%char.

End Uuid.

(* ===================================================================== *)
(** * Values, exceptions, log records *)
(* ===================================================================== *)

(** The Python objects that occur in task and calendar items. *)
Inductive pyval : Type :=
| PStr (s : string)                    (* str *)
| PInt (n : Z)                         (* int *)
| PUuid (u : N)                        (* uuid.UUID *)
| PTime (t : Z)                        (* datetime.datetime *)
| PList (l : list pyval)               (* list *)
| PDict (d : list (string * pyval)).   (* dict, in insertion order *)

(** A task or a calendar event: a [dict] keyed by field name. *)
Abbreviation item := (gmap string pyval).

Inductive exn : Type :=
| AssertionError
| KeyError (k : string)
| TypeError
| AttributeError
| ValueError
| RuntimeError
| NotImplementedError
| ValueDuplicationError          (* bidict *)
| StoreError (msg : string).     (* raised by an external store *)

Inductive result (A : Type) : Type :=
| Ok (a : A)
| Raise (e : exn).
Arguments Ok {A} a.
Arguments Raise {A} e.

Inductive level := INFO | WARNING | ERROR | FATAL.

(** One call of the logger: level and formatted message. *)
Inductive logrec : Type := Log (lv : level) (msg : string).

(** [timedelta(days=1)] *)
Definition day : Z := 86400000000.

(** [d[k]] on a nested dict kept as an association list. *)
Fixpoint assoc (k : string) (d : list (string * pyval)) : option pyval :=
  match d with
  | [] => None
  | (k', v) :: d' => if String.eqb k k' then Some v else assoc k d'
  end.

(** [m[k]]: [KeyError] when the key is missing. *)
Definition getitem (m : item) (k : string) : result pyval :=
  match m !! k with
  | Some v => Ok v
  | None => Raise (KeyError k)
  end.

(** [v[k]] on an arbitrary value with a string key. *)
Definition subscript (v : pyval) (k : string) : result pyval :=
  match v with
  | PDict d => match assoc k d with
               | Some x => Ok x
               | None => Raise (KeyError k)
               end
  | _ => Raise TypeError
  end.

(** The elements a [for] loop draws from a value. *)
Definition iter (v : pyval) : result (list pyval) :=
  match v with
  | PList l => Ok l
  | PStr s => Ok ((fun c => PStr (String c EmptyString)) <$> PyStr.chars s)
  | PDict d => Ok ((fun kv => PStr (fst kv)) <$> d)
  | _ => Raise TypeError
  end.

(** What the converters call outside of the sources: the two date helpers
    of the [GCalSide] module, and [str()] of the objects whose rendering
    is left open here. *)
Class Host := {
  (** [GCalSide.format_datetime(dt)] for a [datetime] *)
  format_datetime : Z -> string;
  (** [GCalSide.parse_datetime(v)]; [None] when it raises *)
  parse_datetime : pyval -> option Z;
  (** [str(v)] for a [datetime], [list] or [dict] *)
  str_object : pyval -> string;
}.

(* ===================================================================== *)
(** * TWGCalAggregator: the item converters *)
(* ===================================================================== *)

Section Converter.
Context `{Host}.

(** [str(v)], as ["{}".format(v)] renders it. *)
Definition py_str (v : pyval) : string :=
  match v with
  | PStr s => s
  | PInt n => PyStr.of_Z n
  | PUuid u => Uuid.to_string u
  | _ => str_object v
  end.

Definition format_time (v : pyval) : result string :=
  match v with
  | PTime t => Ok (format_datetime t)
  | _ => Raise TypeError
  end.

(** [v + timedelta(days=1)] *)
Definition add_day (v : pyval) : result pyval :=
  match v with
  | PTime t => Ok (PTime (t + day))
  | _ => Raise TypeError
  end.

(** The loop over [enumerate(tw_item['annotations'])]; [i] is the index
    of the head of [l]. *)
Fixpoint annotation_lines (i : nat) (l : list pyval) : string :=
  match l with
  | [] => ""
  | a :: l' =>
      String PyStr.LF ("* Annotation " +:+ PyStr.of_Z (Z.of_nat i + 1) +:+ ": " +:+ py_str a)
      +:+ annotation_lines (S i) l'
  end.

Definition meta_line (k : string) (v : pyval) : string :=
  String PyStr.LF ("* " +:+ k +:+ ": " +:+ py_str v).

Definition convert_tw_to_gcal (tw_item : item) : result item :=
  if negb (forallb (fun i => bool_decide (is_Some (tw_item !! i)))
                   ["description"; "status"; "uuid"])
  then Raise AssertionError
  else
    match getitem tw_item "description" with Raise e => Raise e | Ok summary =>
    let desc := "IMPORTED FROM TASKWARRIOR" +:+ String PyStr.LF "" in
    match (match tw_item !! "annotations" with
           | Some anns =>
               match iter anns with
               | Ok l => Ok (desc +:+ annotation_lines 0 l)
               | Raise e => Raise e
               end
           | None => Ok desc
           end) with Raise e => Raise e | Ok desc =>
    let desc := desc +:+ String PyStr.LF "" in
    match getitem tw_item "status" with Raise e => Raise e | Ok status =>
    let desc := desc +:+ meta_line "status" status in
    match getitem tw_item "uuid" with Raise e => Raise e | Ok uuid =>
    let desc := desc +:+ meta_line "uuid" uuid in
    match getitem tw_item "entry" with Raise e => Raise e | Ok entry =>
    match format_time entry with Raise e => Raise e | Ok entry_dt =>
    match (match tw_item !! "due" with
           | Some due => format_time due
           | None =>
               match add_day entry with
               | Ok next => format_time next
               | Raise e => Raise e
               end
           end) with Raise e => Raise e | Ok end_dt =>
    Ok (<["end" := PDict [("dateTime", PStr end_dt)]]>
        (<["start" := PDict [("dateTime", PStr entry_dt)]]>
        (<["description" := PStr desc]>
        (<["summary" := summary]> ∅))))
    end end end end end end end.

(** [is_annotation l]: the test of the first loop of
    [_parse_gcal_item_desc]; gives the annotation text when it holds. *)
Definition annotation_of (l : string) : option string :=
  match PyStr.split1 ":" l with
  | [k; v] =>
      if PyStr.startswith (PyStr.lower k) "* annotation"
      then Some (PyStr.strip v) else None
  | _ => None
  end.

(** The first loop: [idx] is the index of the head of [lines], [i] the
    loop variable as last assigned.  Returns the final [i] and the
    annotations. *)
Fixpoint annotation_run (idx i : nat) (lines : list string)
    (annotations : list string) : nat * list string :=
  match lines with
  | [] => (i, annotations)
  | l :: rest =>
      match annotation_of l with
      | Some a => annotation_run (S idx) idx rest (annotations ++ [a])
      | None => (idx, annotations)
      end
  end.

(** One round of the second loop. *)
Definition scan_line (st : string * option N * list logrec) (l : string)
    : string * option N * list logrec :=
  let '(status, uuid, logs) := st in
  match PyStr.split1 ":" l with
  | [k; v] =>
      let start := PyStr.lower k in
      if PyStr.startswith start "* status"
      then (PyStr.lower (PyStr.strip v), uuid, logs)
      else if PyStr.startswith start "* uuid"
      then match Uuid.parse (PyStr.strip v) with
           | Some u => (status, Some u, logs)
           | None =>
               (status, uuid,
                logs ++ [Log ERROR
                  ("Invalid UUID " +:+ Uuid.error_text (PyStr.strip v) +:+
                   " provided during GCal -> TW conversion, Using None...")])
           end
      else st
  | _ => st
  end.

(** [[l.strip() for l in gcal_desc.split('\n') if l][1:]] *)
Definition desc_lines (gcal_desc : string) : list string :=
  tail (PyStr.strip <$> filter (fun l => PyStr.is_empty l = false)
                               (PyStr.split PyStr.LF gcal_desc)).

Definition _parse_gcal_item_desc (gcal_item : item)
    : result (list string * string * option N) * list logrec :=
  match gcal_item !! "description" with
  | None => (Ok ([], "pending", None), [])
  | Some (PStr gcal_desc) =>
      let lines := desc_lines gcal_desc in
      let '(i, annotations) := annotation_run 0 0 lines [] in
      if (Z.of_nat i =? Z.of_nat (length lines) - 1)
      then (Ok (annotations, "pending", None), [])
      else
        let '(status, uuid, logs) :=
          foldl scan_line ("pending", None, []) (drop i lines) in
        (Ok (annotations, status, uuid), logs)
  | Some _ => (Raise AttributeError, [])
  end.

Definition valid_statuses : list string :=
  ["pending"; "completed"; "deleted"; "waiting"; "recurring"].

Definition parse_time (v : pyval) : result pyval :=
  match parse_datetime v with
  | Some t => Ok (PTime t)
  | None => Raise ValueError
  end.

(** [gcal_item[k]['dateTime']] parsed. *)
Definition read_time (gcal_item : item) (k : string) : result pyval :=
  match getitem gcal_item k with Raise e => Raise e | Ok d =>
  match subscript d "dateTime" with Raise e => Raise e | Ok v =>
  parse_time v end end.

Definition convert_gcal_to_tw (gcal_item : item) : result item * list logrec :=
  match _parse_gcal_item_desc gcal_item with
  | (Raise e, logs) => (Raise e, logs)
  | (Ok (annotations, status, uuid), logs) =>
      let tw_item : item := <["annotations" := PList (PStr <$> annotations)]> ∅ in
      let '(tw_item, logs) :=
        if negb (bool_decide (status ∈ valid_statuses))
        then (tw_item,
              logs ++ [Log WARNING ("Invalid status " +:+ status +:+
                " in GCal->TW conversion of item. Skipping status:")])
        else (<["status" := PStr status]> tw_item, logs) in
      let tw_item :=
        match uuid with
        | Some u => <["uuid" := PUuid u]> tw_item
        | None => tw_item
        end in
      match getitem gcal_item "summary" with Raise e => (Raise e, logs) | Ok summary =>
      let tw_item := <["description" := summary]> tw_item in
      match read_time gcal_item "start" with Raise e => (Raise e, logs) | Ok entry =>
      let tw_item := <["entry" := entry]> tw_item in
      match read_time gcal_item "end" with Raise e => (Raise e, logs) | Ok due =>
      (Ok (<["due" := due]> tw_item), logs)
      end end end
  end.

(** [compare_tw_gcal_items]: the keys held by one item only, and the
    shared keys whose values differ. *)
Definition diff_keys (tw_item tw_item_out : item) : gset string :=
  (dom tw_item ∖ dom tw_item_out) ∪ (dom tw_item_out ∖ dom tw_item).


End Converter.

(* ===================================================================== *)
(** * Equality of values; the [bidict] of identifiers *)
(* ===================================================================== *)

Definition pyval_eq_dec : forall a b : pyval, {a = b} + {a <> b}.
Proof.
  fix go 1.
  intros [s|n|u|t|l|d] [s'|n'|u'|t'|l'|d']; try (right; discriminate).
  - destruct (string_dec s s'); [left; congruence | right; congruence].
  - destruct (Z.eq_dec n n'); [left; congruence | right; congruence].
  - destruct (N.eq_dec u u'); [left; congruence | right; congruence].
  - destruct (Z.eq_dec t t'); [left; congruence | right; congruence].
  - destruct (List.list_eq_dec go l l'); [left; congruence | right; congruence].
  - assert (forall x y : string * pyval, {x = y} + {x <> y}) as pair_dec.
    { intros [k v] [k' v'].
      destruct (string_dec k k'); [|right; congruence].
      destruct (go v v'); [left; congruence | right; congruence]. }
    destruct (List.list_eq_dec pair_dec d d'); [left; congruence | right; congruence].
Defined.

#[global] Instance pyval_eq : EqDecision pyval := pyval_eq_dec.

(** The mutable [bidict] of the [bidict] package, as the list of its
    (key, value) items in insertion order.  Item assignment follows the
    package's default policy on duplicates: a key that is already bound is
    rebound (its old item is dropped), a value that is already bound to
    another key raises. *)
Module Bidict.

Definition t : Type := list (pyval * pyval).

Definition hashable (v : pyval) : bool :=
  match v with PList _ | PDict _ => false | _ => true end.

Definition swap (kv : pyval * pyval) : pyval * pyval := (kv.2, kv.1).

(** [b.inverse]: a view on the same items, read value-to-key. *)
Definition inverse (b : t) : t := swap <$> b.

(** [k in b.keys()] *)
Definition has_key (k : pyval) (b : t) : bool := bool_decide (k ∈ b.*1).

Definition has_value (v : pyval) (b : t) : bool := bool_decide (v ∈ b.*2).

Fixpoint get (k : pyval) (b : t) : option pyval :=
  match b with
  | [] => None
  | (k', v) :: b' => if bool_decide (k = k') then Some v else get k b'
  end.

Definition rebind (k v : pyval) (b : t) : t :=
  (fun kv => if bool_decide (kv.1 = k) then (k, v) else kv) <$> b.

(** [b[k] = v] *)
Definition setitem (k v : pyval) (b : t) : result t :=
  if negb (hashable k && hashable v) then Raise TypeError
  else if bool_decide ((k, v) ∈ b) then Ok b
  else if has_value v b then Raise ValueDuplicationError
  else if has_key k b then Ok (rebind k v b)
  else Ok (b ++ [(k, v)]).

(** No key and no value occurs twice. *)
Definition bijective (b : t) : Prop := NoDup b.*1 /\ NoDup b.*2.

End Bidict.

(* ===================================================================== *)
(** * State and exceptions *)
(* ===================================================================== *)

(** A computation over a state [S] that returns or raises. *)
Definition M (S A : Type) : Type := S -> result A * S.

Definition ret {S A} (a : A) : M S A := fun s => (Ok a, s).
Definition raise {S A} (e : exn) : M S A := fun s => (Raise e, s).
Definition bind {S A B} (m : M S A) (k : A -> M S B) : M S B :=
  fun s => match m s with
           | (Ok a, s') => k a s'
           | (Raise e, s') => (Raise e, s')
           end.
Definition lift {S A} (r : result A) : M S A := fun s => (r, s).
Definition gets {S A} (f : S -> A) : M S A := fun s => (Ok (f s), s).
Definition modify {S} (f : S -> S) : M S unit := fun s => (Ok tt, f s).

Notation "'do' x <- m ; k" := (bind m (fun x => k))
  (at level 10, x name, m at level 100, k at level 200).
Notation "m ;; k" := (bind m (fun _ => k))
  (at level 100, k at level 200, right associativity).

(* ===================================================================== *)
(** * The two sides *)
(* ===================================================================== *)

(** The external stores.  [task_add] is [TaskWarrior.task_add] of the
    [taskw] package; the calendar side is the [GCalSide] class, which is
    consumed through its [add_item] only. *)
Class Stores := {
  tw_client : Type;
  gcal_side_t : Type;
  (** [TaskWarrior(marshal=True)] *)
  TaskWarrior : tw_client;
  (** [tw.task_add] applied to the description and the other fields *)
  task_add : pyval -> item -> tw_client -> result item * tw_client;
  (** the constructor of [GCalSide], applied to its keyword arguments *)
  GCalSide : gmap string pyval -> result gcal_side_t;
  (** [gcal_side.add_item(item)] *)
  gcal_add_item : item -> gcal_side_t -> result item * gcal_side_t;
}.

Inductive side_ref := TwSide | GcalSide.

(** A call that reached a store. *)
Inductive event : Type :=
| EvAdd (side : side_ref) (it : item)
| EvStart
| EvList (side : side_ref)
| EvSyncDeleted (side : side_ref).

Section Sides.
Context `{Host} `{Stores}.

(** ** TaskWarriorSide *)

Record TaskWarriorSide := {
  tws_config : gmap string pyval;
  tw : tw_client;
}.

Definition TaskWarriorSide_init (kargs : gmap string pyval)
    : result TaskWarriorSide * list logrec :=
  let config := kargs ∪ {["tags" := PStr ""]} in
  match config !! "tags" with
  | Some (PStr _) => (Ok {| tws_config := config; tw := TaskWarrior |}, [])
  | Some _ =>
      (Raise RuntimeError,
       [Log FATAL (String PyStr.LF
                     ("Please provide only a single tag in string form." +:+
                      " No other form is currently supported" +:+
                      String PyStr.LF ""))])
  | None => (Raise (KeyError "tags"), [])
  end.

(** [len(v)] *)
Definition py_len (v : pyval) : result nat :=
  match v with
  | PStr s => Ok (String.length s)
  | PList l => Ok (length l)
  | PDict d => Ok (length d)
  | _ => Raise TypeError
  end.

(** [str(v[0:n])] *)
Definition py_head (n : nat) (v : pyval) : result string :=
  match v with
  | PStr s => Ok (PyStr.take n s)
  | PList l => Ok (py_str (PList (take n l)))
  | _ => Raise TypeError
  end.

Definition TaskWarriorSide_add_item (it : item)
    : M (TaskWarriorSide * list logrec * list event) item :=
  if negb (bool_decide (is_Some (it !! "description"))) then raise AssertionError
  else
    do d <- lift (getitem it "desscription");
    do n <- lift (py_len d);
    let len_print := Nat.min 10 n in
    do description <- lift (getitem it "description");
    do shown <- lift (py_head len_print description);
    modify (fun '(s, logs, evs) =>
              (s, logs ++ [Log INFO ("Adding item - " +:+
                                     String PyStr.DQ (shown +:+
                                     String PyStr.DQ "..."))], evs)) ;;
    let rest := delete "description" it in
    fun '(s, logs, evs) =>
      let '(r, tw') := task_add description rest (tw s) in
      (r, ({| tws_config := tws_config s; tw := tw' |}, logs,
           evs ++ [EvAdd TwSide it])).

(** ** TWGCalAggregator *)

Record aggregator := {
  config : gmap string string;
  tw_side : TaskWarriorSide;
  gcal_side : gcal_side_t;
  tw_gcal_ids : Bidict.t;
  logs : list logrec;
  journal : list event;
}.

Definition log (lv : level) (msg : string) : M aggregator unit :=
  modify (fun a => {| config := config a; tw_side := tw_side a;
                      gcal_side := gcal_side a; tw_gcal_ids := tw_gcal_ids a;
                      logs := logs a ++ [Log lv msg]; journal := journal a |}).

Definition log_all (l : list logrec) : M aggregator unit :=
  modify (fun a => {| config := config a; tw_side := tw_side a;
                      gcal_side := gcal_side a; tw_gcal_ids := tw_gcal_ids a;
                      logs := logs a ++ l; journal := journal a |}).

Definition set_ids (b : Bidict.t) : M aggregator unit :=
  modify (fun a => {| config := config a; tw_side := tw_side a;
                      gcal_side := gcal_side a; tw_gcal_ids := b;
                      logs := logs a; journal := journal a |}).

(** [side.add_item(item)] on the side that [side] refers to. *)
Definition add_item_on (side : side_ref) (it : item) : M aggregator item :=
  fun a =>
    match side with
    | TwSide =>
        let '(r, (s, l, j)) :=
          TaskWarriorSide_add_item it (tw_side a, logs a, journal a) in
        (r, {| config := config a; tw_side := s; gcal_side := gcal_side a;
               tw_gcal_ids := tw_gcal_ids a; logs := l; journal := j |})
    | GcalSide =>
        let '(r, g) := gcal_add_item it (gcal_side a) in
        (r, {| config := config a; tw_side := tw_side a; gcal_side := g;
               tw_gcal_ids := tw_gcal_ids a; logs := logs a;
               journal := journal a ++ [EvAdd GcalSide it] |})
    end.

(** The view [registered_ids] of the table: the bidict itself for "tw",
    its inverse for "gcal".  Both share the items of [tw_gcal_ids]. *)
Definition view (item_type : string) (b : Bidict.t) : Bidict.t :=
  if String.eqb item_type "tw" then b else Bidict.inverse b.

Definition registered_ids (item_type : string) : M aggregator Bidict.t :=
  gets (fun a => view item_type (tw_gcal_ids a)).

(** [registered_ids[k] = v] *)
Definition registered_ids_set (item_type : string) (k v : pyval)
    : M aggregator unit :=
  do ids <- registered_ids item_type;
  do ids' <- lift (Bidict.setitem k v ids);
  set_ids (view item_type ids').

(** [convert_fun(item)] with the records it logs. *)
Definition convert_fun (item_type : string) (it : item)
    : result item * list logrec :=
  if String.eqb item_type "tw" then (convert_tw_to_gcal it, [])
  else convert_gcal_to_tw it.

Definition convert (item_type : string) (it : item) : M aggregator item :=
  let '(r, l) := convert_fun item_type it in
  log_all l ;; lift r.

Definition config_get (k : string) : M aggregator string :=
  fun a => match config a !! k with
           | Some v => (Ok v, a)
           | None => (Raise (KeyError k), a)
           end.

(** The body of the loop of [register_items]. *)
Definition register_item (item_type : string) (side : side_ref)
    (type_key opposite_type_key : string) (it : item) : M aggregator unit :=
  do v <- lift (getitem it type_key);
  let _id := py_str v in
  do ids <- registered_ids item_type;
  if negb (Bidict.has_key (PStr _id) ids) then
    log INFO ("Inserting item, [" +:+ item_type +:+ "] id: " +:+ _id +:+ "...") ;;
    do item_converted <- convert item_type it;
    do item_registered <- add_item_on side item_converted;
    do new_id <- lift (getitem item_registered opposite_type_key);
    registered_ids_set item_type (PStr _id) new_id
  else ret tt.

Fixpoint register_loop (item_type : string) (side : side_ref)
    (type_key opposite_type_key : string) (items : list item)
    : M aggregator unit :=
  match items with
  | [] => ret tt
  | it :: rest =>
      register_item item_type side type_key opposite_type_key it ;;
      register_loop item_type side type_key opposite_type_key rest
  end.

Definition register_items (items : list item) (item_type : string)
    : M aggregator unit :=
  if negb (bool_decide (item_type ∈ ["tw"; "gcal"])) then raise AssertionError
  else
    let side := if String.eqb item_type "tw" then GcalSide else GcalSide in
    do type_key <- config_get (item_type +:+ "_id_key");
    let opposite_type := if String.eqb item_type "tw" then "gcal" else "tw" in
    do opposite_type_key <- config_get (opposite_type +:+ "_id_key");
    register_loop item_type side type_key opposite_type_key items.

(** [TWGCalAggregator(tw_config=..., gcal_config=...)].  [stored_ids] is
    what the preferences hold under "tw_gcal_ids", [prefs_dir] the
    directory of the preferences. *)
Definition TWGCalAggregator_init (tw_config gcal_config : gmap string pyval)
    (stored_ids : option Bidict.t) (prefs_dir : string)
    : result aggregator * list logrec :=
  let cfg : gmap string string :=
    <["gcal_id_key" := "htmlLink"]> (<["tw_id_key" := "uuid"]> ∅) in
  match TaskWarriorSide_init tw_config with
  | (Raise e, l) => (Raise e, l)
  | (Ok tws, l) =>
      let gcal_config_new := tw_config ∪ {["credentials_dir" := PStr prefs_dir]} in
      match GCalSide gcal_config_new with
      | Raise e => (Raise e, l)
      | Ok g =>
          (Ok {| config := cfg; tw_side := tws; gcal_side := g;
                 tw_gcal_ids := default [] stored_ids;
                 logs := l; journal := [] |}, l)
      end
  end.

End Sides.

(* ===================================================================== *)
(** * scripts/tw_gcal_sync.py *)
(* ===================================================================== *)

Section Main.
Context `{Host} `{Stores}.

(** What [main] calls and the sources do not define: the start of the
    two sides, the listing of a side, the propagation of deletions; and
    what the preferences hold when the program starts. *)
Variable start : M aggregator unit.
Variable get_all_items : side_ref -> option string -> bool -> M aggregator (list item).
Variable synchronise_deleted_items : string -> M aggregator unit.
Variable stored_ids : option Bidict.t.
Variable prefs_dir : string.

Definition mark (ev : event) : M aggregator unit :=
  modify (fun a => {| config := config a; tw_side := tw_side a;
                      gcal_side := gcal_side a; tw_gcal_ids := tw_gcal_ids a;
                      logs := logs a; journal := journal a ++ [ev] |}).

(** The body of the [with] block. *)
Definition sync_pass (order_by : option string) (ascending_order : bool)
    : M aggregator unit :=
  mark EvStart ;; start ;;
  do tw_items <- (mark (EvList TwSide) ;;
                  get_all_items TwSide order_by ascending_order);
  register_items tw_items "tw" ;;
  do gcal_items <- (mark (EvList GcalSide) ;;
                    get_all_items GcalSide order_by ascending_order);
  register_items gcal_items "gcal" ;;
  mark (EvSyncDeleted TwSide) ;; synchronise_deleted_items "tw" ;;
  mark (EvSyncDeleted GcalSide) ;; synchronise_deleted_items "gcal".

(** [main]: the outcome, the log and the calls that reached a store. *)
Definition main (gcal_calendar : string) (tw_tags : list string)
    (order_by : option string) (ascending_order : bool)
    : result unit * list logrec * list event :=
  if negb (length tw_tags =? 1)%nat then (Raise RuntimeError, [], [])
  else
    let l0 := [Log INFO "Initialising..."] in
    let tw_config : gmap string pyval := {["tags" := PList (PStr <$> tw_tags)]} in
    let gcal_config : gmap string pyval :=
      {["calendar_summary" := PStr gcal_calendar]} in
    match TWGCalAggregator_init tw_config gcal_config stored_ids prefs_dir with
    | (Raise e, l) => (Raise e, l0 ++ l, [])
    | (Ok agg, l) =>
        let '(r, a) := sync_pass order_by ascending_order agg in
        (r, l0 ++ logs a, journal a)
    end.

End Main.

(* ===================================================================== *)
(** * Notions used to state the properties *)
(* ===================================================================== *)

Section ConverterNotions.
Context `{Host}.

(** The two metadata lines that close a synthesized description. *)
Definition status_line (v : pyval) : string := "* status: " +:+ py_str v.
Definition uuid_line (v : pyval) : string := "* uuid: " +:+ py_str v.

(** The text that the annotations of a task contribute. *)
Definition annotation_text (tw_item : item) : result string :=
  match tw_item !! "annotations" with
  | Some anns =>
      match iter anns with
      | Ok l => Ok (annotation_lines 0 l)
      | Raise e => Raise e
      end
  | None => Ok ""
  end.

(** The instant that ends the event of a task entered at [e]. *)
Definition end_instant (tw_item : item) (e : Z) : option Z :=
  match tw_item !! "due" with
  | Some (PTime d) => Some d
  | Some _ => None
  | None => Some (e + day)
  end.

(** The description that [convert_tw_to_gcal] synthesizes, [x] being the
    text of the annotations. *)
Definition task_description (x : string) (st uu : pyval) : string :=
  "IMPORTED FROM TASKWARRIOR" +:+
  String PyStr.LF
    (x +:+ String PyStr.LF
             (String PyStr.LF (status_line st +:+ String PyStr.LF (uuid_line uu)))).

(** The value of [start] and [end] for an instant. *)
Definition date_time (t : Z) : pyval := PDict [("dateTime", PStr (format_datetime t))].

Definition with_uuid (uuid : option N) (m : item) : item :=
  match uuid with
  | Some u => <["uuid" := PUuid u]> m
  | None => m
  end.

(** [convert_gcal_to_tw(convert_tw_to_gcal(t))] *)
Definition round_trip (tw_item : item) : result item * list logrec :=
  match convert_tw_to_gcal tw_item with
  | Ok g => convert_gcal_to_tw g
  | Raise e => (Raise e, [])
  end.

End ConverterNotions.

Definition decimal_chars : list ascii := PyStr.chars "-0123456789".

(** The key and the line of the annotation with index [i]. *)
Definition annotation_key (i : nat) : string :=
  "* Annotation " +:+ PyStr.of_Z (Z.of_nat i + 1).

Definition annotation_line (i : nat) (s : string) : string :=
  annotation_key i +:+ String ":" (String " " s).

Fixpoint numbered (i : nat) (texts : list string) : list string :=
  match texts with
  | [] => []
  | s :: r => annotation_line i s :: numbered (S i) r
  end.


(** The keys that [convert_gcal_to_tw] writes. *)
Definition written_keys : gset string :=
  {["annotations"; "status"; "uuid"; "description"; "entry"; "due"]}.

(** A text that survives the embedding in a description: one line, no
    blanks at either end. *)
Definition is_clean (s : string) : bool :=
  bool_decide (PyStr.strip s = s) && negb (bool_decide (PyStr.LF ∈ PyStr.chars s)).

Definition clean_text (v : pyval) : bool :=
  match v with PStr s => is_clean s | _ => false end.

(** A task as the task store hands it out: description, a status of the
    enumeration, a UUID, the entry instant; optionally a due instant and a
    list of annotation texts. *)
Definition valid_task (t : item) : bool :=
  match t !! "description", t !! "status", t !! "uuid", t !! "entry" with
  | Some _, Some (PStr s), Some (PUuid u), Some (PTime _) =>
      bool_decide (s ∈ valid_statuses) && (u <? 2 ^ 128)%N &&
      match t !! "due" with
      | Some (PTime _) | None => true
      | Some _ => false
      end &&
      match t !! "annotations" with
      | Some (PList l) => forallb clean_text l
      | Some _ => false
      | None => true
      end
  | _, _, _, _ => false
  end.


(** The value that [scan_line] reads off a status line. *)
Definition status_of (l : string) : option string :=
  match PyStr.split1 ":" l with
  | [k; v] =>
      if PyStr.startswith (PyStr.lower k) "* status"
      then Some (PyStr.lower (PyStr.strip v)) else None
  | _ => None
  end.

(** A description embeds the line [* status: value]. *)
Definition embeds_status (g : item) (value : string) : Prop :=
  exists desc, g !! "description" = Some (PStr desc)
               /\ ("* status: " +:+ value) ∈ PyStr.split PyStr.LF desc.

(** The handling of an unknown status as the specification states it. *)
Definition unknown_status_claim `{Host} (g : item) (value : string) : Prop :=
  embeds_status g value -> value ∉ valid_statuses ->
  exists out lg,
    convert_gcal_to_tw g = (Ok out, lg)
    /\ (exists msg, Log WARNING msg ∈ lg)
    /\ out !! "status" = Some (PStr "pending").

(** The record that [convert_gcal_to_tw] logs for an unknown status. *)
Definition status_warning (status : string) : logrec :=
  Log WARNING ("Invalid status " +:+ status +:+
               " in GCal->TW conversion of item. Skipping status:").

(** The other side, as [register_items] names it. *)
Definition opposite (item_type : string) : string :=
  if String.eqb item_type "tw" then "gcal" else "tw".

(** A call of [add_item] on the calendar side. *)
Definition is_gcal_add (e : event) : Prop := exists it, e = EvAdd GcalSide it.


(* ===================================================================== *)
(** * Further functions of the sources, and notions for their properties *)
(* ===================================================================== *)

(** The state of the second loop of [_parse_gcal_item_desc] is in normal
    form: the status is lower-case and stripped, the UUID fits 128 bits,
    and the records logged are errors. *)
Definition parsed_ok (st : string * option N * list logrec) : Prop :=
  PyStr.lower st.1.1 = st.1.1 /\ PyStr.strip st.1.1 = st.1.1
  /\ (forall u, st.1.2 = Some u -> (u < 2 ^ 128)%N)
  /\ Forall (fun r => exists msg, r = Log ERROR msg) st.2.

(** The text that [scan_line] hands to [UUID] for a line: the line is a
    uuid line, and no status line. *)
Definition uuid_of (l : string) : option string :=
  match PyStr.split1 ":" l with
  | [k; v] =>
      if PyStr.startswith (PyStr.lower k) "* status" then None
      else if PyStr.startswith (PyStr.lower k) "* uuid" then Some (PyStr.strip v)
      else None
  | _ => None
  end.

(** ** TaskWarriorSide: listing and updating *)

Section TaskSideMore.
Context `{Host} `{Stores}.

(** [tw.filter_tasks(filter_dict=d)] of the [taskw] package. *)
Variable filter_tasks :
  gmap string pyval -> tw_client -> result (list item) * tw_client.

Definition TaskWarriorSide_get_items (s : TaskWarriorSide)
    : result (list item) * TaskWarriorSide :=
  match getitem (tws_config s) "tags" with
  | Raise e => (Raise e, s)
  | Ok tags =>
      let d : gmap string pyval := <["tags" := tags]> ∅ in
      let '(ret, tw') := filter_tasks d (tw s) in
      (ret, {| tws_config := tws_config s; tw := tw' |})
  end.

Definition TaskWarriorSide_update_item (it : item)
    : M (TaskWarriorSide * list logrec * list event) unit :=
  raise NotImplementedError.

End TaskSideMore.

(** ** compare_tw_gcal_items *)

(** [a == b] on values.  Lists compare element by element; dicts compare
    as sets of items, whatever the order of insertion. *)
Fixpoint py_eqb (a b : pyval) {struct a} : bool :=
  match a, b with
  | PStr s, PStr s' => String.eqb s s'
  | PInt n, PInt n' => Z.eqb n n'
  | PUuid u, PUuid u' => N.eqb u u'
  | PTime t, PTime t' => Z.eqb t t'
  | PList l, PList l' =>
      (fix go (l l' : list pyval) {struct l} : bool :=
         match l, l' with
         | [], [] => true
         | x :: r, y :: r' => py_eqb x y && go r r'
         | _, _ => false
         end) l l'
  | PDict d, PDict d' =>
      Nat.eqb (length d) (length d') &&
      (fix all (d : list (string * pyval)) {struct d} : bool :=
         match d with
         | [] => true
         | (k, x) :: r =>
             match assoc k d' with
             | Some y => py_eqb x y
             | None => false
             end && all r
         end) d
  | _, _ => false
  end.

(** The shared keys whose values differ, each with its two values. *)
Definition changes (tw_item tw_item_out : item) : gmap string (pyval * pyval) :=
  merge (fun x y =>
           match x, y with
           | Some a, Some b => if py_eqb a b then None else Some (a, b)
           | _, _ => None
           end) tw_item tw_item_out.

Definition compare_tw_gcal_items `{Host} (tw_item gcal_item : item)
    : result (gset string * gmap string (pyval * pyval)) * list logrec :=
  match convert_gcal_to_tw gcal_item with
  | (Raise e, logs) => (Raise e, logs)
  | (Ok tw_item_out, logs) =>
      (Ok (diff_keys tw_item tw_item_out, changes tw_item tw_item_out), logs)
  end.

(** The values that [convert_gcal_to_tw] builds out of an event whose
    summary is a string: scalars and lists of strings. *)
Definition is_str (v : pyval) : bool :=
  match v with PStr _ => true | _ => false end.

Definition plain (v : pyval) : bool :=
  match v with
  | PStr _ | PInt _ | PUuid _ | PTime _ => true
  | PList l => forallb is_str l
  | PDict _ => false
  end.

(* ===================================================================== *)
(** * In-memory stand-ins for the external collaborators *)
(* ===================================================================== *)

Module Sample.

(** Instants are rendered in decimal. *)
Definition host : Host := {|
  format_datetime t := PyStr.of_Z t;
  parse_datetime v :=
    match v with
    | PStr s => Z.of_int <$> NilZero.int_of_string s
    | _ => None
    end;
  str_object _ := "<object>";
|}.

(** A calendar that numbers its events and holds at most three; a task
    store that numbers its tasks. *)
Definition stores : Stores := {|
  tw_client := N;
  gcal_side_t := nat;
  TaskWarrior := 0%N;
  task_add d rest n :=
    (Ok (<["uuid" := PUuid n]> (<["description" := d]> rest)), N.succ n);
  GCalSide _ := Ok O;
  gcal_add_item it n :=
    if (3 <=? n)%nat then (Raise (StoreError "quota exceeded"), n)
    else (Ok (<["htmlLink" := PStr ("https://cal/" +:+ PyStr.of_Z (Z.of_nat n))]> it),
          S n);
|}.

Definition u1 : N := 0x123e4567e89b12d3a456426614174000%N.
Definition u2 : N := 0x00000000000000000000000000000002%N.
Definition t0 : Z := 1546300800000000.

Definition task (d : string) (u : N) : item :=
  <["description" := PStr d]>
  (<["status" := PStr "pending"]>
  (<["uuid" := PUuid u]>
  (<["entry" := PTime t0]> ∅))).

Definition buy_milk : item := task "Buy milk" u1.

Definition event_with (link d : string) : item :=
  <["htmlLink" := PStr link]>
  (<["summary" := PStr "Dentist"]>
  (<["description" := PStr d]>
  (<["start" := PDict [("dateTime", PStr "5")]]>
  (<["end" := PDict [("dateTime", PStr "7")]]> ∅)))).

(** An aggregator over these stores: table [b], [n] events in the
    calendar. *)
Definition fresh (b : Bidict.t) (n : nat) : @aggregator stores :=
  @Build_aggregator stores
    (<["gcal_id_key" := "htmlLink"]> (<["tw_id_key" := "uuid"]> ∅))
    (@Build_TaskWarriorSide stores {["tags" := PStr "remindme"]} 0%N)
    n b [] [].

(** The lines of a text, joined by line feeds. *)
Fixpoint text (lines : list string) : string :=
  match lines with
  | [] => ""
  | [l] => l
  | l :: r => l +:+ String PyStr.LF (text r)
  end.

Definition noted_task : item :=
  <["annotations" := PList [PStr "call first"; PStr "bring the list"]]> buy_milk.

(** An event whose description carries an unknown status. *)
Definition bogus_event : item :=
  event_with "https://cal/7"
    (text ["IMPORTED FROM TASKWARRIOR"; "";
           "* status: bogus";
           "* uuid: 123e4567-e89b-12d3-a456-426614174000"]).

(** An event whose status line is the only line after the annotations. *)
Definition lonely_status_event : item :=
  event_with "https://cal/8"
    (text ["IMPORTED FROM TASKWARRIOR"; "";
           "* Annotation 1: call first";
           "* status: completed"]).

(** A calendar event as the calendar hands it out. *)
Definition dentist : item := event_with "https://cal/9" "Dentist at noon".

(** The task that [convert_gcal_to_tw] makes of it. *)
Definition dentist_as_task : item :=
  <["annotations" := PList []]>
  (<["status" := PStr "pending"]>
  (<["description" := PStr "Dentist"]>
  (<["entry" := PTime 5]>
  (<["due" := PTime 7]> ∅)))).

(** The task with a tag, as the task store hands it out. *)
Definition tagged_milk : item := <["tags" := PList [PStr "remindme"]]> buy_milk.

(** An event that was edited by hand in the calendar: a second status
    line, in capitals behind a no-break space, and a second uuid line
    that is no UUID. *)
Definition edited_event : item :=
  event_with "https://cal/10"
    (text ["IMPORTED FROM TASKWARRIOR"; "";
           "* status: waiting";
           "* uuid: 123e4567-e89b-12d3-a456-426614174000";
           String "160" "* STATUS: Completed";
           "* uuid: none"]).

(** An all-day event: its start and end carry a date and no dateTime. *)
Definition all_day_event : item :=
  <["summary" := PStr "Holiday"]>
  (<["start" := PDict [("date", PStr "2019-01-01")]]>
  (<["end" := PDict [("date", PStr "2019-01-02")]]> ∅)).

(** A task store that lists nothing. *)
Definition no_tasks (d : gmap string pyval) (n : N) : result (list item) * N :=
  (Ok [], n).

(** The event that [convert_tw_to_gcal] makes of [buy_milk], and the
    tasks that [convert_gcal_to_tw] makes of [dentist] and of
    [edited_event], with their keys in the order of insertion. *)
Definition buy_milk_as_event : item :=
  <["end" := @date_time host (t0 + day)]>
  (<["start" := @date_time host t0]>
  (<["description" :=
       PStr (@task_description host "" (PStr "pending") (PUuid u1))]>
  (<["summary" := PStr "Buy milk"]> ∅))).

Definition dentist_converted : item :=
  <["due" := PTime 7]>
  (<["entry" := PTime 5]>
  (<["description" := PStr "Dentist"]>
  (<["status" := PStr "pending"]>
  (<["annotations" := PList []]> ∅)))).

Definition edited_event_converted : item :=
  <["due" := PTime 7]>
  (<["entry" := PTime 5]>
  (<["description" := PStr "Dentist"]>
  (<["uuid" := PUuid u1]>
  (<["status" := PStr "completed"]>
  (<["annotations" := PList []]> ∅))))).

(** An event with an annotation line after its status line. *)
Definition late_annotation_event : item :=
  event_with "https://cal/12"
    (text ["IMPORTED FROM TASKWARRIOR"; "";
           "* Annotation 1: call first";
           "";
           "* status: pending";
           "* Annotation 2: bring the list";
           "* uuid: 123e4567-e89b-12d3-a456-426614174000"]).

End Sample.

(* ===================================================================== *)
(** * Checks of the string and UUID functions on samples *)
(* ===================================================================== *)

Example uuid_str_ex :
  Uuid.to_string 0x123e4567e89b12d3a456426614174000%N
  = "123e4567-e89b-12d3-a456-426614174000".
Proof. vm_compute. reflexivity. Qed.

Example uuid_parse_ex :
  Uuid.parse "{123E4567-e89b-12d3-a456-426614174000}"
  = Some 0x123e4567e89b12d3a456426614174000%N
  /\ Uuid.parse "not-a-uuid" = None
  /\ PyStr.strip "  a b   " = "a b"
  /\ PyStr.split ":" "a:b:c" = ["a"; "b"; "c"]
  /\ PyStr.split1 ":" "a:b:c" = ["a"; "b:c"]
  /\ PyStr.remove_all "urn:" "urn:uuid:1urn:" = "uuid:1"
  /\ PyStr.of_Z (-12) = "-12".
Proof. vm_compute. repeat split; reflexivity. Qed.

(** Blanks and letter case beyond the ASCII range; the blanks of [int];
    [repr] and the text of the error of [UUID]. *)
Example blanks_and_case_ex :
  PyStr.strip (String "160" ("a b" +:+ String "133" "")) = "a b"
  /\ PyStr.strip (String "028" "a") = "a"
  /\ PyStr.lower (String "201" "T") = String "233" "t"
  /\ Uuid.parse (String "160" "1111111111111111111111111111111")
     = Some 0x01111111111111111111111111111111%N
  /\ Uuid.parse (String "028" "1111111111111111111111111111111") = None
  /\ PyStr.repr "it's" = String PyStr.DQ ("it's" +:+ String PyStr.DQ "")
  /\ Uuid.error_text "none" = "badly formed hexadecimal UUID string"
  /\ Uuid.error_text "zzzzzzzzzzzzzzzzzzzzzzzzzzzzzzzz"
     = "invalid literal for int() with base 16: 'zzzzzzzzzzzzzzzzzzzzzzzzzzzzzzzz'".
Proof. vm_compute. repeat split; reflexivity. Qed.

(* ===================================================================== *)
(** * Facts about strings *)
(* ===================================================================== *)

Module PyStrFacts.
Import PyStr.

Lemma append_cons x a b : String x a +:+ b = String x (a +:+ b).
Proof. done. Qed.

Lemma append_nil_l s : "" +:+ s = s.
Proof. done. Qed.

Ltac sapp := simpl; rewrite ?append_cons, ?append_nil_l; simpl.

Lemma append_nil_r s : s +:+ "" = s.
Proof. induction s as [|c s IH]; sapp; [done | by rewrite IH]. Qed.

Lemma append_assoc a b c : (a +:+ b) +:+ c = a +:+ (b +:+ c).
Proof. induction a as [|x a IH]; sapp; [done | by rewrite IH]. Qed.

Lemma chars_app a b : chars (a +:+ b) = chars a ++ chars b.
Proof. induction a as [|x a IH]; sapp; [done | by rewrite IH]. Qed.

Lemma not_in_chars c s : bool_decide (c ∈ chars s) = false -> c ∉ chars s.
Proof. apply bool_decide_eq_false_1. Qed.

Lemma is_empty_true s : is_empty s = true -> s = "".
Proof. by destruct s. Qed.

(** ** split *)

Lemma split_nonempty sep s : split sep s <> [].
Proof.
  induction s as [|c s IH]; simpl; [done |].
  destruct (Ascii.eqb c sep); [done |].
  by destruct (split sep s).
Qed.

Lemma split_none sep s : sep ∉ chars s -> split sep s = [s].
Proof.
  induction s as [|c s IH]; simpl; intros Hn; [done |].
  apply not_elem_of_cons in Hn as [Hc Hs].
  destruct (Ascii.eqb_spec c sep) as [->|_]; [done |].
  by rewrite (IH Hs).
Qed.

Lemma split_app sep p q :
  split sep (p +:+ String sep q) = split sep p ++ split sep q.
Proof.
  induction p as [|c p IH]; sapp.
  - by rewrite Ascii.eqb_refl.
  - destruct (Ascii.eqb c sep); [by rewrite IH |].
    rewrite IH. pose proof (split_nonempty sep p).
    by destruct (split sep p).
Qed.

Lemma split1_key sep k v :
  sep ∉ chars k -> split1 sep (k +:+ String sep v) = [k; v].
Proof.
  induction k as [|c k IH]; sapp; intros Hn.
  - by rewrite Ascii.eqb_refl.
  - apply not_elem_of_cons in Hn as [Hc Hs].
    destruct (Ascii.eqb_spec c sep) as [->|_]; [done |].
    by rewrite (IH Hs).
Qed.

(** ** strip *)

Lemma lstrip_by_head p c s : p c = false -> lstrip_by p (String c s) = String c s.
Proof. simpl. by intros ->. Qed.

Lemma rstrip_by_id p s :
  Forall (fun c => p c = false) (chars s) -> rstrip_by p s = s.
Proof.
  induction s as [|c s IH]; simpl; [done |].
  intros Hs. apply Forall_cons in Hs as [Hc Hs].
  by rewrite Hc, (IH Hs).
Qed.

Lemma rstrip_by_app p a b :
  rstrip_by p (a +:+ b) =
  if is_empty (rstrip_by p b) then rstrip_by p a else a +:+ rstrip_by p b.
Proof.
  induction a as [|c a IH]; sapp.
  - by destruct (rstrip_by p b).
  - rewrite IH. destruct (is_empty (rstrip_by p b)) eqn:Hb; [done |].
    destruct (a +:+ rstrip_by p b) eqn:Hab; [| by rewrite andb_false_r].
    destruct a; [| done]. rewrite append_nil_l in Hab. by rewrite Hab in Hb.
Qed.

Lemma length_lstrip_by p s : (String.length (lstrip_by p s) <= String.length s)%nat.
Proof. induction s as [|c s IH]; simpl; [done |]. destruct (p c); simpl; lia. Qed.

Lemma length_rstrip_by p s : (String.length (rstrip_by p s) <= String.length s)%nat.
Proof.
  induction s as [|c s IH]; simpl; [done |].
  destruct (p c && is_empty (rstrip_by p s)); simpl; lia.
Qed.

Lemma lstrip_by_fixed p s :
  String.length (lstrip_by p s) = String.length s -> lstrip_by p s = s.
Proof.
  destruct s as [|c s]; simpl; [done |].
  destruct (p c); [| done].
  pose proof (length_lstrip_by p s). lia.
Qed.

(** A text that [strip] leaves alone is left alone by both halves. *)
Lemma strip_by_fixed p s :
  strip_by p s = s -> lstrip_by p s = s /\ rstrip_by p s = s.
Proof.
  unfold strip_by. intros Hs.
  assert (lstrip_by p s = s) as Hl.
  { apply lstrip_by_fixed.
    pose proof (length_lstrip_by p s).
    pose proof (length_rstrip_by p (lstrip_by p s)).
    rewrite Hs in *. lia. }
  split; [done |]. by rewrite Hl in Hs.
Qed.

(** The value of a [key: text] line, as the parser recovers it. *)
Lemma strip_value s :
  strip s = s -> strip (rstrip_by isspace (String " " s)) = s.
Proof.
  intros Hs. destruct (strip_by_fixed _ _ Hs) as [Hl Hr].
  change (rstrip_by isspace (String " " s))
    with (if isspace " " && is_empty (rstrip_by isspace s)
          then "" else String " " (rstrip_by isspace s)).
  rewrite Hr. destruct s as [|c s]; [done |].
  simpl is_empty. rewrite andb_false_r.
  unfold strip, strip_by.
  change (lstrip_by isspace (String " " (String c s)))
    with (lstrip_by isspace (String c s)).
  by rewrite Hl, Hr.
Qed.

(** ** lower, startswith *)

Lemma lower_app a b : lower (a +:+ b) = lower a +:+ lower b.
Proof. induction a as [|x a IH]; sapp; [done | by rewrite IH]. Qed.

Lemma prefix_app p s : String.prefix p (p +:+ s) = true.
Proof.
  induction p as [|c p IH]; sapp; [by destruct s |].
  destruct (ascii_dec c c); [done | congruence].
Qed.

(** ** take, drop *)

Lemma chars_take n s : chars (take n s) = List.firstn n (chars s).
Proof.
  revert s. induction n as [|n IH]; intros [|c s]; simpl; try done.
  by rewrite IH.
Qed.

Lemma chars_drop n s : chars (drop n s) = List.skipn n (chars s).
Proof.
  revert s. induction n as [|n IH]; intros [|c s]; simpl; try done.
Qed.

(** ** replace *)

Lemma remove_all_absent c pat s :
  c ∉ chars s -> remove_all (String c pat) s = s.
Proof.
  unfold remove_all.
  induction s as [|x s IH]; simpl; intros Hn; [done |].
  apply not_elem_of_cons in Hn as [Hc Hs].
  destruct (ascii_dec c x) as [->|_]; [done |].
  by rewrite (IH Hs).
Qed.

Lemma remove_char_app c a b :
  remove_all (String c "") (a +:+ b)
  = remove_all (String c "") a +:+ remove_all (String c "") b.
Proof.
  unfold remove_all.
  induction a as [|x a IH]; sapp; [done |].
  destruct (ascii_dec c x) as [->|_].
  - destruct (a +:+ b); destruct a; simpl; apply IH.
  - by rewrite IH.
Qed.

End PyStrFacts.

(* ===================================================================== *)
(** * Facts about UUIDs: [UUID(str(u)) == u] *)
(* ===================================================================== *)

Module UuidFacts.
Import PyStr PyStrFacts Uuid.

Lemma hex_digit_in d : (d < 16)%N -> hex_digit d ∈ hexdigits.
Proof.
  intros Hd.
  assert (d ∈ (N.of_nat <$> seq 0 16)) as Hin.
  { apply list_elem_of_fmap. exists (N.to_nat d). split; [lia |].
    apply elem_of_seq. lia. }
  simpl in Hin.
  repeat (apply elem_of_cons in Hin as [->|Hin];
          [by apply list_elem_of_In; vm_compute; tauto |]).
  by apply elem_of_nil in Hin.
Qed.

Lemma hex_value_digit d : (d < 16)%N -> hex_value (hex_digit d) = Some d.
Proof.
  intros Hd.
  assert (d ∈ (N.of_nat <$> seq 0 16)) as Hin.
  { apply list_elem_of_fmap. exists (N.to_nat d). split; [lia |].
    apply elem_of_seq. lia. }
  simpl in Hin.
  repeat (apply elem_of_cons in Hin as [->|Hin]; [by vm_compute |]).
  by apply elem_of_nil in Hin.
Qed.

(** A decidable property of characters holds of every hexadecimal digit
    as soon as it holds of the sixteen of them. *)
Lemma hexdigits_forall (P : ascii -> bool) c :
  forallb P hexdigits = true -> c ∈ hexdigits -> P c = true.
Proof.
  intros HP Hc. rewrite forallb_forall in HP.
  apply HP. by apply list_elem_of_In.
Qed.

Lemma uuid_char_forall (P : ascii -> bool) c :
  forallb P ("-"%char :: hexdigits) = true -> uuid_char c -> P c = true.
Proof.
  intros HP Hc. rewrite forallb_forall in HP.
  apply HP. apply list_elem_of_In.
  destruct Hc as [Hc| ->]; [by right | by left].
Qed.

Lemma length_hex_fixed w u : String.length (hex_fixed w u) = w.
Proof. induction w as [|w IH]; simpl; [done | by rewrite IH]. Qed.

Lemma hex_fixed_digits w u : Forall (fun c => c ∈ hexdigits) (chars (hex_fixed w u)).
Proof.
  induction w as [|w IH]; simpl; constructor; [| done].
  apply hex_digit_in. apply N.mod_upper_bound. done.
Qed.

Lemma digits16_hex_fixed w u sep acc :
  (w <> O \/ sep = false) ->
  digits16 sep acc (hex_fixed w u)
  = Some (acc * 16 ^ N.of_nat w + u mod 16 ^ N.of_nat w)%N.
Proof.
  revert sep acc. induction w as [|w IH]; intros sep acc Hw.
  - destruct Hw as [?| ->]; [done |]. simpl.
    rewrite N.mod_1_r. f_equal. lia.
  - simpl hex_fixed.
    set (d := (N.shiftr u (4 * N.of_nat w) mod 16)%N).
    assert (d < 16)%N as Hd by (apply N.mod_upper_bound; done).
    change (digits16 sep acc (String (hex_digit d) (hex_fixed w u)))
      with (if Ascii.eqb (hex_digit d) "_"
            then (if sep then None else digits16 true acc (hex_fixed w u))
            else match hex_value (hex_digit d) with
                 | Some x => digits16 false (acc * 16 + x) (hex_fixed w u)
                 | None => None
                 end).
    assert (Ascii.eqb (hex_digit d) "_" = false) as ->.
    { apply negb_true_iff.
      apply (hexdigits_forall (fun c => negb (Ascii.eqb c "_"))); [done |].
      by apply hex_digit_in. }
    rewrite (hex_value_digit d Hd), IH by (by right).
    f_equal. subst d.
    rewrite N.shiftr_div_pow2, N.pow_mul_r.
    change (2 ^ 4)%N with 16%N.
    replace (N.of_nat (S w)) with (N.succ (N.of_nat w)) by lia.
    rewrite N.pow_succ_r'.
    rewrite (N.mul_comm 16 (16 ^ N.of_nat w)).
    rewrite (N.Div0.mod_mul_r u (16 ^ N.of_nat w) 16).
    lia.
Qed.

Lemma hex_fixed_cons w u :
  exists c s, hex_fixed (S w) u = String c s /\ c ∈ hexdigits.
Proof.
  eexists _, _. split; [reflexivity |].
  apply hex_digit_in, N.mod_upper_bound. done.
Qed.

Lemma int16_hex_fixed w u :
  int16 (hex_fixed (S (S w)) u)
  = Some (Z.of_N (u mod 16 ^ N.of_nat (S (S w)))).
Proof.
  unfold int16.
  assert (strip_by int_space (hex_fixed (S (S w)) u) = hex_fixed (S (S w)) u)
    as ->.
  { unfold strip_by.
    assert (Forall (fun c => int_space c = false)
                   (chars (hex_fixed (S (S w)) u))) as Hsp.
    { eapply Forall_impl; [apply hex_fixed_digits |]. intros c Hc.
      apply negb_true_iff.
      by apply (hexdigits_forall (fun c => negb (int_space c))). }
    assert (lstrip_by int_space (hex_fixed (S (S w)) u) = hex_fixed (S (S w)) u)
      as ->.
    { simpl in *. apply Forall_cons in Hsp as [-> _]. done. }
    by apply rstrip_by_id. }
  pose proof (hex_fixed_digits (S (S w)) u) as Hd.
  pose proof (digits16_hex_fixed (S (S w)) u true 0) as Hv.
  remember (hex_fixed (S (S w)) u) as h eqn:Hh.
  simpl in Hh.
  destruct h as [|c1 [|c2 h]]; try discriminate.
  simpl in Hd. apply Forall_cons in Hd as [H1 Hd].
  apply Forall_cons in Hd as [H2 _].
  unfold drop_sign.
  assert (Ascii.eqb c1 "+" = false) as ->.
  { apply negb_true_iff.
    by apply (hexdigits_forall (fun c => negb (Ascii.eqb c "+"))). }
  assert (Ascii.eqb c1 "-" = false) as ->.
  { apply negb_true_iff.
    by apply (hexdigits_forall (fun c => negb (Ascii.eqb c "-"))). }
  unfold drop_0x.
  assert (Ascii.eqb c2 "x" || Ascii.eqb c2 "X" = false) as ->.
  { apply negb_true_iff.
    by apply (hexdigits_forall
                (fun c => negb (Ascii.eqb c "x" || Ascii.eqb c "X"))). }
  rewrite andb_false_r, Hv by (by left).
  by rewrite N.mul_0_l, N.add_0_l.
Qed.

(** [str(u)] is the dashed form of the 32 digits. *)
Lemma part_hex n m h :
  Forall (fun c => c ∈ hexdigits) (chars h) ->
  Forall (fun c => c ∈ hexdigits) (chars (take n (drop m h))).
Proof.
  intros Hd. rewrite chars_take, chars_drop.
  by apply Forall_take, Forall_drop.
Qed.

Lemma part_chars n m h :
  Forall (fun c => c ∈ hexdigits) (chars h) ->
  Forall uuid_char (chars (take n (drop m h))).
Proof.
  intros Hd. eapply Forall_impl; [by apply part_hex |].
  intros c Hc. by left.
Qed.

Lemma not_hexdigit c : bool_decide (c ∈ hexdigits) = false -> c ∉ hexdigits.
Proof. apply bool_decide_eq_false_1. Qed.

Lemma not_uuid_char c :
  bool_decide (c ∈ "-"%char :: hexdigits) = false -> ~ uuid_char c.
Proof.
  intros Hc%bool_decide_eq_false_1 [Hh| ->]; apply Hc; [by right | by left].
Qed.

Lemma to_string_chars u : Forall uuid_char (chars (to_string u)).
Proof.
  unfold to_string, slice.
  pose proof (hex_fixed_digits 32 u) as Hd.
  rewrite !chars_app.
  repeat (apply Forall_app_2;
          [first [by apply part_chars | by repeat constructor; right] |]).
  by apply part_chars.
Qed.

Lemma remove_dashes u : remove_all "-" (to_string u) = hex_fixed 32 u.
Proof.
  unfold to_string, slice.
  pose proof (hex_fixed_digits 32 u) as Hd.
  set (h := hex_fixed 32 u) in *.
  assert (forall n m, remove_all "-" (take n (drop m h)) = take n (drop m h)) as Hpart.
  { intros n m. apply remove_all_absent. intros Hin.
    pose proof (part_hex n m h Hd) as Hp.
    rewrite Forall_forall in Hp.
    by apply (not_hexdigit "-"), Hp. }
  rewrite !remove_char_app, !Hpart.
  change (remove_all "-" "-") with "".
  rewrite !append_nil_l.
  change (drop 0 h) with h. cbn [Nat.sub].
  reflexivity.
Qed.

Theorem parse_to_string u : (u < 2 ^ 128)%N -> parse (to_string u) = Some u.
Proof.
  intros Hu. unfold parse.
  pose proof (to_string_chars u) as Hc.
  assert (forall c, bool_decide (c ∈ "-"%char :: hexdigits) = false ->
                    c ∉ chars (to_string u)) as Habs.
  { intros c Hn Hin. rewrite Forall_forall in Hc.
    by apply (not_uuid_char c Hn), Hc. }
  rewrite (remove_all_absent "u" "rn:") by (by apply Habs).
  rewrite (remove_all_absent "u" "uid:") by (by apply Habs).
  assert (strip_by is_brace (to_string u) = to_string u) as ->.
  { assert (Forall (fun c => is_brace c = false) (chars (to_string u))) as Hb.
    { eapply Forall_impl; [exact Hc |]. intros c Hu'.
      apply negb_true_iff.
      by apply (uuid_char_forall (fun c => negb (is_brace c))). }
    unfold strip_by.
    assert (lstrip_by is_brace (to_string u) = to_string u) as ->.
    { destruct (to_string u) as [|c s]; [done |].
      simpl in Hb. apply Forall_cons in Hb as [Hb _].
      by apply lstrip_by_head. }
    by apply rstrip_by_id. }
  rewrite remove_dashes, length_hex_fixed. simpl negb. cbv iota.
  rewrite (int16_hex_fixed 30 u).
  change (16 ^ N.of_nat 32)%N with (2 ^ 128)%N.
  rewrite N.mod_small by done.
  assert ((0 <=? Z.of_N u) = true) as -> by lia.
  assert ((Z.of_N u <? 2 ^ 128) = true) as ->.
  { apply Z.ltb_lt. change (2 ^ 128) with (Z.of_N (2 ^ 128)). lia. }
  simpl. by rewrite N2Z.id.
Qed.

End UuidFacts.

(* ===================================================================== *)
(** * Facts about the converters *)
(* ===================================================================== *)

Section ConverterFacts.
Context `{Host}.
Import PyStr PyStrFacts.

Lemma convert_tw_to_gcal_ok tw_item d st uu e x fin :
  tw_item !! "description" = Some d ->
  tw_item !! "status" = Some st ->
  tw_item !! "uuid" = Some uu ->
  tw_item !! "entry" = Some (PTime e) ->
  annotation_text tw_item = Ok x ->
  end_instant tw_item e = Some fin ->
  convert_tw_to_gcal tw_item =
  Ok (<["end" := date_time fin]>
      (<["start" := date_time e]>
      (<["description" := PStr (task_description x st uu)]>
      (<["summary" := d]> ∅)))).
Proof.
  intros Hd Hst Huu He Hx Hfin.
  unfold convert_tw_to_gcal, getitem. simpl forallb.
  rewrite Hd, Hst, Huu, He. simpl.
  unfold annotation_text in Hx. unfold end_instant in Hfin.
  assert (task_description x st uu =
          (((match tw_item !! "annotations" with
             | Some _ => ("IMPORTED FROM TASKWARRIOR" +:+ String LF "") +:+ x
             | None => "IMPORTED FROM TASKWARRIOR" +:+ String LF ""
             end)
            +:+ String LF "") +:+ meta_line "status" st) +:+ meta_line "uuid" uu)
    as Hdesc.
  { unfold task_description, meta_line, status_line, uuid_line.
    destruct (tw_item !! "annotations") as [v|].
    - rewrite !append_assoc. reflexivity.
    - injection Hx as <-. rewrite !append_assoc. reflexivity. }
  destruct (tw_item !! "annotations") as [v|].
  - destruct (iter v) as [l|]; [| done]. injection Hx as <-.
    destruct (tw_item !! "due") as [[]|]; try done;
      injection Hfin as <-; simpl; by rewrite Hdesc.
  - destruct (tw_item !! "due") as [[]|]; try done;
      injection Hfin as <-; simpl; by rewrite Hdesc.
Qed.

(** ** The lines of a synthesized description *)

Lemma split_LF_cons s : split LF (String LF s) = "" :: split LF s.
Proof. done. Qed.

Lemma split_task_description x st uu :
  LF ∉ chars (status_line st) -> LF ∉ chars (uuid_line uu) ->
  split LF (task_description x st uu)
  = "IMPORTED FROM TASKWARRIOR" :: split LF x ++ [""; status_line st; uuid_line uu].
Proof.
  intros Hs Hu. unfold task_description.
  rewrite !split_app, split_LF_cons, split_app.
  by rewrite (split_none LF _ Hs), (split_none LF _ Hu).
Qed.

Lemma desc_lines_task x st uu :
  LF ∉ chars (status_line st) -> LF ∉ chars (uuid_line uu) ->
  status_line st <> "" -> uuid_line uu <> "" ->
  desc_lines (task_description x st uu)
  = (strip <$> filter (fun l => is_empty l = false) (split LF x))
    ++ [strip (status_line st); strip (uuid_line uu)].
Proof.
  intros Hs Hu Hs0 Hu0. unfold desc_lines.
  rewrite (split_task_description x st uu Hs Hu).
  assert (is_empty (status_line st) = false) by (by destruct (status_line st)).
  assert (is_empty (uuid_line uu) = false) by (by destruct (uuid_line uu)).
  rewrite filter_cons_True by done.
  rewrite filter_app, !filter_cons, filter_nil.
  repeat case_decide; try done; try congruence.
  by rewrite fmap_cons, fmap_app.
Qed.

(** ** The annotation run *)

Lemma annotation_run_stop l x r idx i acc :
  annotation_of x = None ->
  exists n acc',
    annotation_run idx i (l ++ x :: r) acc = ((idx + n)%nat, acc')
    /\ (n <= length l)%nat.
Proof.
  intros Hx. revert idx i acc.
  induction l as [|y l IH]; intros idx i acc; simpl.
  - rewrite Hx. exists O, acc. split; [f_equal; lia | lia].
  - destruct (annotation_of y) as [a|].
    + destruct (IH (S idx) idx (acc ++ [a])) as (n & acc' & -> & Hn).
      exists (S n), acc'. split; [f_equal; lia | lia].
    + exists O, acc. split; [f_equal; lia | lia].
Qed.

Lemma annotation_run_all l anns x r idx i acc :
  Forall2 (fun y a => annotation_of y = Some a) l anns ->
  annotation_of x = None ->
  annotation_run idx i (l ++ x :: r) acc = ((idx + length l)%nat, acc ++ anns).
Proof.
  intros Hl Hx. revert idx i acc.
  induction Hl as [|y a l anns Hy Hl IH]; intros idx i acc; simpl.
  - rewrite Hx, app_nil_r. f_equal. lia.
  - rewrite Hy, IH, <- app_assoc. f_equal. lia.
Qed.


(** ** The two metadata lines *)

Lemma uuid_text_plain u :
  Forall (fun c => isspace c = false) (chars (Uuid.to_string u))
  /\ (LF ∉ chars (Uuid.to_string u))
  /\ is_empty (Uuid.to_string u) = false.
Proof.
  pose proof (UuidFacts.to_string_chars u) as Hc.
  split; [| split].
  - eapply Forall_impl; [exact Hc |]. intros c Hu.
    apply negb_true_iff.
    by apply (UuidFacts.uuid_char_forall (fun c => negb (isspace c))).
  - intros Hin. rewrite Forall_forall in Hc.
    by apply (UuidFacts.not_uuid_char LF), Hc.
  - done.
Qed.

Lemma strip_uuid_text u : strip (String " " (Uuid.to_string u)) = Uuid.to_string u.
Proof.
  destruct (uuid_text_plain u) as (Hsp & _ & Hne).
  unfold strip, strip_by.
  change (lstrip_by isspace (String " " (Uuid.to_string u)))
    with (lstrip_by isspace (Uuid.to_string u)).
  destruct (Uuid.to_string u) as [|c s] eqn:Hu; [done |].
  simpl in Hsp. pose proof Hsp as Hall.
  apply Forall_cons in Hsp as [Hc _].
  rewrite (lstrip_by_head _ _ _ Hc).
  by apply rstrip_by_id.
Qed.

Lemma uuid_line_plain u :
  (LF ∉ chars (uuid_line (PUuid u)))
  /\ uuid_line (PUuid u) <> ""
  /\ strip (uuid_line (PUuid u)) = uuid_line (PUuid u).
Proof.
  destruct (uuid_text_plain u) as (Hsp & Hlf & Hne).
  unfold uuid_line. simpl py_str. split; [| split].
  - rewrite chars_app. intros [Hin|Hin]%elem_of_app; [| done].
    revert Hin. by apply not_in_chars.
  - done.
  - unfold strip, strip_by.
    change (lstrip_by isspace ("* uuid: " +:+ Uuid.to_string u))
      with ("* uuid: " +:+ Uuid.to_string u).
    rewrite rstrip_by_app, (rstrip_by_id _ _ Hsp).
    by rewrite Hne.
Qed.

Lemma scan_uuid_line st uu lg u :
  (u < 2 ^ 128)%N ->
  scan_line (st, uu, lg) (uuid_line (PUuid u)) = (st, Some u, lg).
Proof.
  intros Hu. unfold scan_line.
  change (uuid_line (PUuid u))
    with ("* uuid" +:+ String ":" (String " " (Uuid.to_string u))).
  rewrite split1_key by (by apply not_in_chars).
  cbv zeta.
  change (startswith (lower "* uuid") "* status") with false.
  change (startswith (lower "* uuid") "* uuid") with true.
  cbv iota.
  by rewrite strip_uuid_text, UuidFacts.parse_to_string.
Qed.

Lemma status_line_plain s :
  s ∈ valid_statuses ->
  (LF ∉ chars (status_line (PStr s)))
  /\ status_line (PStr s) <> ""
  /\ strip (status_line (PStr s)) = status_line (PStr s)
  /\ annotation_of (status_line (PStr s)) = None
  /\ forall st uu lg, scan_line (st, uu, lg) (status_line (PStr s)) = (s, uu, lg).
Proof.
  unfold valid_statuses. intros Hs.
  repeat (apply elem_of_cons in Hs as [->|Hs];
          [ split; [by apply not_in_chars |];
            split; [done |]; split; [done |]; split; [done |]; done |]).
  by apply elem_of_nil in Hs.
Qed.

(** ** Parsing a synthesized description *)

Lemma parse_task_description g x s u n anns :
  g !! "description" = Some (PStr (task_description x (PStr s) (PUuid u))) ->
  s ∈ valid_statuses -> (u < 2 ^ 128)%N ->
  let body := strip <$> filter (fun l => is_empty l = false) (split LF x) in
  annotation_run 0 0 (body ++ [status_line (PStr s); uuid_line (PUuid u)]) []
    = (n, anns) ->
  exists lg,
    _parse_gcal_item_desc g = (Ok (anns, s, Some u), lg)
    /\ (n = length body -> lg = []).
Proof.
  intros Hg Hs Hu body Hrun.
  destruct (status_line_plain s Hs) as (Hs1 & Hs2 & Hs3 & Hs4 & Hs5).
  destruct (uuid_line_plain u) as (Hu1 & Hu2 & Hu3).
  destruct (annotation_run_stop body (status_line (PStr s))
              [uuid_line (PUuid u)] 0 0 [] Hs4) as (n' & acc' & Hrun' & Hn).
  rewrite Hrun in Hrun'. injection Hrun' as -> ->. simpl in Hn.
  unfold _parse_gcal_item_desc. rewrite Hg.
  rewrite (desc_lines_task x _ _ Hs1 Hu1 Hs2 Hu2), Hs3, Hu3.
  fold body. rewrite Hrun.
  rewrite length_app. simpl length.
  destruct (Z.eqb_spec (Z.of_nat n') (Z.of_nat (List.length body + 2) - 1)) as [Heq|_];
    [lia |].
  rewrite drop_app_le by done.
  rewrite foldl_app.
  destruct (foldl scan_line ("pending", None, []) (skipn n' body))
    as [[st uu] lg] eqn:Hfold.
  cbn [foldl]. rewrite Hs5, (scan_uuid_line _ _ _ _ Hu).
  exists lg. split; [done |].
  intros ->. rewrite drop_all in Hfold. simpl in Hfold. congruence.
Qed.

(** ** The task built from a parsed event *)

Lemma convert_gcal_to_tw_valid g anns st uu lg summary e d :
  _parse_gcal_item_desc g = (Ok (anns, st, uu), lg) ->
  st ∈ valid_statuses ->
  g !! "summary" = Some summary ->
  read_time g "start" = Ok e ->
  read_time g "end" = Ok d ->
  convert_gcal_to_tw g =
  (Ok (<["due" := d]>
       (<["entry" := e]>
       (<["description" := summary]>
       (with_uuid uu
       (<["status" := PStr st]>
       (<["annotations" := PList (PStr <$> anns)]> ∅)))))), lg).
Proof.
  intros Hp Hst Hsum Hstart Hend.
  unfold convert_gcal_to_tw. rewrite Hp.
  rewrite (bool_decide_eq_true_2 _ Hst). simpl negb. cbv iota.
  unfold getitem. rewrite Hsum, Hstart, Hend.
  by destruct uu.
Qed.

Lemma convert_gcal_to_tw_invalid g anns st uu lg summary e d :
  _parse_gcal_item_desc g = (Ok (anns, st, uu), lg) ->
  st ∉ valid_statuses ->
  g !! "summary" = Some summary ->
  read_time g "start" = Ok e ->
  read_time g "end" = Ok d ->
  convert_gcal_to_tw g =
  (Ok (<["due" := d]>
       (<["entry" := e]>
       (<["description" := summary]>
       (with_uuid uu
       (<["annotations" := PList (PStr <$> anns)]> ∅))))),
   lg ++ [Log WARNING ("Invalid status " +:+ st +:+
                       " in GCal->TW conversion of item. Skipping status:")]).
Proof.
  intros Hp Hst Hsum Hstart Hend.
  unfold convert_gcal_to_tw. rewrite Hp.
  rewrite (bool_decide_eq_false_2 _ Hst). simpl negb. cbv iota.
  unfold getitem. rewrite Hsum, Hstart, Hend.
  by destruct uu.
Qed.

End ConverterFacts.

(* ===================================================================== *)
(** * Facts about annotation lines *)
(* ===================================================================== *)

Section AnnotationFacts.
Context `{Host}.
Import PyStr PyStrFacts.

Lemma string_of_uint_chars d :
  Forall (fun c => c ∈ decimal_chars) (chars (NilEmpty.string_of_uint d)).
Proof.
  induction d; simpl; constructor; try done;
    by apply list_elem_of_In; vm_compute; tauto.
Qed.

Lemma of_Z_chars n : Forall (fun c => c ∈ decimal_chars) (chars (of_Z n)).
Proof.
  unfold of_Z, NilZero.string_of_int, NilZero.string_of_uint.
  destruct (Z.to_int n) as [d|d]; destruct d; simpl;
    repeat constructor;
    try (by apply list_elem_of_In; vm_compute; tauto);
    apply string_of_uint_chars.
Qed.

Lemma of_Z_without c n :
  bool_decide (c ∈ decimal_chars) = false -> c ∉ chars (of_Z n).
Proof.
  intros Hc%bool_decide_eq_false_1 Hin.
  pose proof (of_Z_chars n) as Hall. rewrite Forall_forall in Hall.
  by apply Hc, Hall.
Qed.

Lemma annotation_lines_cons i s r :
  annotation_lines i (PStr s :: r)
  = String LF (annotation_line i s +:+ annotation_lines (S i) r).
Proof.
  simpl annotation_lines. unfold annotation_line, annotation_key.
  simpl py_str. rewrite append_cons, !append_assoc. reflexivity.
Qed.

Lemma annotation_key_without c i :
  bool_decide (c ∈ chars "* Annotation ") = false ->
  bool_decide (c ∈ decimal_chars) = false ->
  c ∉ chars (annotation_key i).
Proof.
  intros H1%bool_decide_eq_false_1 H2. unfold annotation_key.
  rewrite chars_app. intros [Hin|Hin]%elem_of_app; [done |].
  revert Hin. by apply of_Z_without.
Qed.

Lemma annotation_line_LF i s : LF ∉ chars s -> LF ∉ chars (annotation_line i s).
Proof.
  intros Hs. unfold annotation_line. rewrite chars_app.
  intros [Hin|Hin]%elem_of_app.
  - by apply (annotation_key_without LF i).
  - simpl in Hin. apply elem_of_cons in Hin as [?|Hin]; [done |].
    apply elem_of_cons in Hin as [?|Hin]; done.
Qed.

Lemma annotation_lines_shape i l :
  annotation_lines i l = "" \/ exists w, annotation_lines i l = String LF w.
Proof. destruct l; [by left | right; by eexists]. Qed.

Lemma lines_of_annotations i texts :
  Forall (fun s => LF ∉ chars s) texts ->
  filter (fun l => is_empty l = false)
         (split LF (annotation_lines i (PStr <$> texts)))
  = numbered i texts.
Proof.
  intros Ht. revert i.
  induction Ht as [|s r Hs Hr IH]; intros i; [done |].
  rewrite fmap_cons, annotation_lines_cons, split_LF_cons.
  rewrite filter_cons_False by (by intros ?).
  specialize (IH (S i)).
  pose proof (annotation_line_LF i s Hs) as Hline.
  destruct (annotation_lines_shape (S i) (PStr <$> r)) as [Hw|[w Hw]];
    rewrite Hw in *.
  - rewrite append_nil_r, (split_none _ _ Hline).
    rewrite filter_cons_True by done.
    simpl. f_equal. exact IH.
  - rewrite split_app, (split_none _ _ Hline).
    rewrite split_LF_cons, filter_cons_False in IH by (by intros ?).
    simpl app. rewrite filter_cons_True by done.
    simpl. f_equal. exact IH.
Qed.

Lemma strip_annotation_line i s :
  strip (annotation_line i s)
  = annotation_key i +:+ String ":" (rstrip_by isspace (String " " s)).
Proof.
  unfold strip, strip_by.
  assert (lstrip_by isspace (annotation_line i s) = annotation_line i s) as ->.
  { unfold annotation_line, annotation_key. rewrite !append_cons.
    by apply lstrip_by_head. }
  unfold annotation_line.
  change (annotation_key i +:+ String ":" (String " " s))
    with (annotation_key i +:+ (":" +:+ String " " s)).
  rewrite <- append_assoc, rstrip_by_app.
  assert (rstrip_by isspace (annotation_key i +:+ ":") = annotation_key i +:+ ":")
    as -> by (by rewrite rstrip_by_app).
  destruct (is_empty (rstrip_by isspace (String " " s))) eqn:He.
  - apply is_empty_true in He. by rewrite He.
  - by rewrite append_assoc.
Qed.

Lemma annotation_of_line i s :
  strip s = s -> annotation_of (strip (annotation_line i s)) = Some s.
Proof.
  intros Hs. rewrite strip_annotation_line. unfold annotation_of.
  rewrite split1_key by (by apply annotation_key_without).
  unfold annotation_key. rewrite lower_app.
  change (lower "* Annotation ") with ("* annotation" +:+ " ").
  rewrite append_assoc. unfold startswith. rewrite prefix_app.
  by rewrite strip_value.
Qed.

Lemma status_is_no_annotation s :
  s ∈ valid_statuses -> annotation_of (status_line (PStr s)) = None.
Proof. intros Hs. by destruct (status_line_plain s Hs) as (_ & _ & _ & ? & _). Qed.

Lemma numbered_annotations i texts :
  Forall (fun s => strip s = s) texts ->
  Forall2 (fun y a => annotation_of y = Some a) (strip <$> numbered i texts) texts.
Proof.
  intros Ht. revert i.
  induction Ht as [|s r Hs Hr IH]; intros i; simpl; constructor.
  - by apply annotation_of_line.
  - apply IH.
Qed.

End AnnotationFacts.

(* ===================================================================== *)
(** * The round trip task -> event -> task *)
(* ===================================================================== *)

Section RoundTrip.
Context `{Host}.
Hypothesis parse_format :
  forall t, parse_datetime (PStr (format_datetime t)) = Some t.
Import PyStr PyStrFacts.

Lemma read_date_time (g : item) k t :
  g !! k = Some (date_time t) -> read_time g k = Ok (PTime t).
Proof.
  intros Hk. unfold read_time, getitem. rewrite Hk. simpl.
  unfold parse_time. by rewrite parse_format.
Qed.

(** The event of a task, converted back. *)
Lemma round_trip_ok t d s u e x fin n anns :
  t !! "description" = Some d ->
  t !! "status" = Some (PStr s) -> s ∈ valid_statuses ->
  t !! "uuid" = Some (PUuid u) -> (u < 2 ^ 128)%N ->
  t !! "entry" = Some (PTime e) ->
  annotation_text t = Ok x ->
  end_instant t e = Some fin ->
  let body := strip <$> filter (fun l => is_empty l = false) (split LF x) in
  annotation_run 0 0 (body ++ [status_line (PStr s); uuid_line (PUuid u)]) []
    = (n, anns) ->
  exists lg,
    round_trip t =
    (Ok (<["due" := PTime fin]>
         (<["entry" := PTime e]>
         (<["description" := d]>
         (<["uuid" := PUuid u]>
         (<["status" := PStr s]>
         (<["annotations" := PList (PStr <$> anns)]> ∅)))))), lg)
    /\ (n = List.length body -> lg = []).
Proof.
  intros Hd Hs Hsv Hu Hu128 He Hx Hfin body Hrun.
  unfold round_trip.
  rewrite (convert_tw_to_gcal_ok t d (PStr s) (PUuid u) e x fin) by done.
  set (g := <["end" := date_time fin]> _).
  assert (g !! "description" = Some (PStr (task_description x (PStr s) (PUuid u))))
    as Hg by done.
  destruct (parse_task_description g x s u n anns Hg Hsv Hu128 Hrun)
    as (lg & Hp & Hlg).
  exists lg. split; [| done].
  by rewrite (convert_gcal_to_tw_valid g anns s (Some u) lg d (PTime e) (PTime fin))
    by (try done; by apply read_date_time).
Qed.


Lemma convert_tw_to_gcal_inv (t g : item) :
  convert_tw_to_gcal t = Ok g ->
  exists d st uu e x fin,
    t !! "description" = Some d /\ t !! "status" = Some st
    /\ t !! "uuid" = Some uu /\ t !! "entry" = Some (PTime e)
    /\ annotation_text t = Ok x /\ end_instant t e = Some fin
    /\ g = <["end" := date_time fin]>
           (<["start" := date_time e]>
           (<["description" := PStr (task_description x st uu)]>
           (<["summary" := d]> ∅))).
Proof.
  intros Hc.
  assert (exists d st uu e x fin,
    t !! "description" = Some d /\ t !! "status" = Some st
    /\ t !! "uuid" = Some uu /\ t !! "entry" = Some (PTime e)
    /\ annotation_text t = Ok x /\ end_instant t e = Some fin)
    as (d & st & uu & e & x & fin & Hd & Hst & Huu & He & Hx & Hfin).
  { unfold convert_tw_to_gcal, getitem, annotation_text, end_instant in *.
    destruct (negb _); [done |].
    destruct (t !! "description") as [d|]; [| done].
    destruct (t !! "annotations") as [v|].
    - destruct (iter v) as [l|]; [| done].
      destruct (t !! "status") as [st|]; [| done].
      destruct (t !! "uuid") as [uu|]; [| done].
      destruct (t !! "entry") as [[| |  |e| |]|]; try done.
      destruct (t !! "due") as [[| | |fin| |]|]; try done; by eexists _, _, _, _, _, _.
    - destruct (t !! "status") as [st|]; [| done].
      destruct (t !! "uuid") as [uu|]; [| done].
      destruct (t !! "entry") as [[| |  |e| |]|]; try done.
      destruct (t !! "due") as [[| | |fin| |]|]; try done; by eexists _, _, _, _, _, _. }
  exists d, st, uu, e, x, fin. repeat (split; [done |]).
  rewrite (convert_tw_to_gcal_ok t d st uu e x fin) in Hc by done.
  congruence.
Qed.

(** C7.  A pending task without a due date becomes an event that starts
    at the entry instant and ends one day later, whose description holds
    the lines [* status: pending] and [* uuid: u]; converting that event
    back gives status pending, the same UUID, the entry instant and a due
    instant one day later.  In general the event ends at the due instant
    of the task when it has one, else one day after the entry. *)
Theorem task_event_scenario :
  (forall (t : item) d u t0,
      t !! "description" = Some d ->
      t !! "status" = Some (PStr "pending") ->
      t !! "uuid" = Some (PUuid u) -> (u < 2 ^ 128)%N ->
      t !! "entry" = Some (PTime t0) ->
      t !! "due" = None ->
      (forall v, t !! "annotations" = Some v -> exists l, iter v = Ok l) ->
      exists g desc out lg,
        convert_tw_to_gcal t = Ok g
        /\ g !! "summary" = Some d
        /\ g !! "start" = Some (date_time t0)
        /\ g !! "end" = Some (date_time (t0 + day))
        /\ g !! "description" = Some (PStr desc)
        /\ "* status: pending" ∈ split LF desc
        /\ ("* uuid: " +:+ Uuid.to_string u) ∈ split LF desc
        /\ convert_gcal_to_tw g = (Ok out, lg)
        /\ out !! "status" = Some (PStr "pending")
        /\ out !! "uuid" = Some (PUuid u)
        /\ out !! "entry" = Some (PTime t0)
        /\ out !! "due" = Some (PTime (t0 + day)))
  /\ (forall (t g : item),
        convert_tw_to_gcal t = Ok g ->
        exists e fin,
          t !! "entry" = Some (PTime e)
          /\ g !! "start" = Some (date_time e)
          /\ g !! "end" = Some (date_time fin)
          /\ (t !! "due" = Some (PTime fin)
              \/ t !! "due" = None /\ fin = e + day)).
Proof.
  split.
  - intros t d u t0 Hd Hs Hu Hu128 He Hdue Hann.
    assert (exists x, annotation_text t = Ok x) as [x Hx].
    { unfold annotation_text. destruct (t !! "annotations") as [v|]; [| by eexists].
      destruct (Hann v eq_refl) as [l ->]. by eexists. }
    assert (end_instant t t0 = Some (t0 + day)) as Hfin
      by (unfold end_instant; by rewrite Hdue).
    assert ("pending" ∈ valid_statuses) as Hpend by (by left).
    pose proof (convert_tw_to_gcal_ok t d _ _ t0 x _ Hd Hs Hu He Hx Hfin) as Hc.
    set (g := <["end" := date_time (t0 + day)]> _) in Hc.
    destruct (status_line_plain "pending" Hpend) as (Hs1 & _).
    destruct (uuid_line_plain u) as (Hu1 & _).
    assert (g !! "description" =
            Some (PStr (task_description x (PStr "pending") (PUuid u))))
      as Hg by done.
    destruct (annotation_run 0 0
                ((strip <$> filter (fun l => is_empty l = false) (split LF x))
                 ++ [status_line (PStr "pending"); uuid_line (PUuid u)]) [])
      as [n anns] eqn:Hrun.
    destruct (parse_task_description g x "pending" u n anns Hg Hpend Hu128 Hrun)
      as (lg & Hp & _).
    eexists g, _, _, lg.
    split; [exact Hc |]. split; [done |]. split; [done |]. split; [done |].
    split; [exact Hg |].
    rewrite (split_task_description x _ _ Hs1 Hu1).
    split.
    { apply elem_of_cons. right. apply elem_of_app. right.
      apply elem_of_cons. right. by left. }
    split.
    { apply elem_of_cons. right. apply elem_of_app. right.
      apply elem_of_cons. right. apply elem_of_cons. right. by left. }
    split.
    { apply (convert_gcal_to_tw_valid g anns "pending" (Some u) lg d
               (PTime t0) (PTime (t0 + day))); try done;
        by apply read_date_time. }
    done.
  - intros t g Hc.
    destruct (convert_tw_to_gcal_inv t g Hc)
      as (d & st & uu & e & x & fin & Hd & Hst & Huu & He & Hx & Hfin & ->).
    exists e, fin. split; [done |]. split; [done |]. split; [done |].
    unfold end_instant in Hfin.
    destruct (t !! "due") as [[| | |due| |]|]; try done.
    + left. congruence.
    + right. split; [done | congruence].
Qed.

Lemma clean_texts l :
  forallb clean_text l = true ->
  exists texts, l = PStr <$> texts
                /\ Forall (fun s => strip s = s) texts
                /\ Forall (fun s => LF ∉ chars s) texts.
Proof.
  induction l as [|v l IH]; simpl; intros Hl.
  - by exists [].
  - apply andb_true_iff in Hl as [Hv Hl].
    destruct (IH Hl) as (texts & -> & Hs & Hn).
    destruct v as [s| | | | |]; try done.
    unfold clean_text, is_clean in Hv.
    apply andb_true_iff in Hv as [H1 H2].
    apply bool_decide_eq_true_1 in H1.
    apply negb_true_iff, bool_decide_eq_false_1 in H2.
    exists (s :: texts). by repeat split; try constructor.
Qed.


End RoundTrip.

(* ===================================================================== *)
(** * Facts about the bidict *)
(* ===================================================================== *)

Module BidictFacts.
Import Bidict.

Lemma inverse_involutive b : inverse (inverse b) = b.
Proof.
  unfold inverse. rewrite <- list_fmap_compose.
  rewrite <- (list_fmap_id b) at 2. apply list_fmap_ext.
  by intros ? [? ?].
Qed.

Lemma inverse_keys b : (inverse b).*1 = b.*2.
Proof. unfold inverse. rewrite <- list_fmap_compose. by apply list_fmap_ext. Qed.

Lemma inverse_values b : (inverse b).*2 = b.*1.
Proof. unfold inverse. rewrite <- list_fmap_compose. by apply list_fmap_ext. Qed.


Lemma bijective_inverse b : bijective b -> bijective (inverse b).
Proof.
  intros [Hk Hv]. unfold bijective.
  by rewrite inverse_keys, inverse_values.
Qed.

Lemma has_key_true k b : has_key k b = true <-> k ∈ b.*1.
Proof. unfold has_key. apply bool_decide_eq_true. Qed.

Lemma has_key_false k b : has_key k b = false <-> k ∉ b.*1.
Proof. unfold has_key. apply bool_decide_eq_false. Qed.

Lemma has_value_false v b : has_value v b = false <-> v ∉ b.*2.
Proof. unfold has_value. apply bool_decide_eq_false. Qed.






(** Assignment under a new key appends the item; the value is new. *)
Lemma setitem_fresh k v b b' :
  k ∉ b.*1 -> setitem k v b = Ok b' -> b' = b ++ [(k, v)] /\ v ∉ b.*2.
Proof.
  intros Hk. unfold setitem.
  destruct (negb _); [done |].
  rewrite bool_decide_eq_false_2.
  2:{ intros Hin. apply Hk. apply list_elem_of_fmap. by exists (k, v). }
  destruct (has_value v b) eqn:Hv; [done |].
  apply has_value_false in Hv.
  apply has_key_false in Hk. rewrite Hk. by intros [= <-].
Qed.






End BidictFacts.

(* ===================================================================== *)
(** * Facts about the registration loop *)
(* ===================================================================== *)

Section RegisterFacts.
Context `{Host} `{Stores}.
Import Bidict BidictFacts.

Lemma view_involutive ty b : view ty (view ty b) = b.
Proof. unfold view. destruct (String.eqb ty "tw"); [done | apply inverse_involutive]. Qed.


Lemma view_bijective ty b : bijective b -> bijective (view ty b).
Proof. unfold view. destruct (String.eqb ty "tw"); [done | apply bijective_inverse]. Qed.

(** An item whose identifier is in the table is skipped. *)
Lemma register_item_skip ty side tk otk (it : item) a v :
  it !! tk = Some v ->
  has_key (PStr (py_str v)) (view ty (tw_gcal_ids a)) = true ->
  register_item ty side tk otk it a = (Ok tt, a).
Proof.
  intros Hit Hk.
  unfold register_item, bind, lift, getitem, registered_ids, gets.
  rewrite Hit. simpl. by rewrite Hk.
Qed.

(** The three ways through the body of the loop. *)
Lemma register_item_inv ty tk otk (it : item) a r a' :
  register_item ty GcalSide tk otk it a = (r, a') ->
  (it !! tk = None /\ r = Raise (KeyError tk) /\ a' = a)
  \/ (exists v, it !! tk = Some v
        /\ has_key (PStr (py_str v)) (view ty (tw_gcal_ids a)) = true
        /\ r = Ok tt /\ a' = a)
  \/ (exists v, it !! tk = Some v
        /\ has_key (PStr (py_str v)) (view ty (tw_gcal_ids a)) = false
        /\ config a' = config a /\ tw_side a' = tw_side a
        /\ (exists evs, journal a' = journal a ++ evs /\ Forall is_gcal_add evs)
        /\ ((exists e, r = Raise e /\ tw_gcal_ids a' = tw_gcal_ids a)
            \/ (r = Ok tt /\ exists new_id,
                  view ty (tw_gcal_ids a')
                  = view ty (tw_gcal_ids a) ++ [(PStr (py_str v), new_id)]
                  /\ new_id ∉ (view ty (tw_gcal_ids a)).*2))).
Proof.
  unfold register_item, bind, lift, getitem, registered_ids, gets.
  destruct (it !! tk) as [v|] eqn:Hit; [| intros [= <- <-]; by left].
  simpl. destruct (has_key _ _) eqn:Hk; simpl.
  { intros [= <- <-]. right. left. by exists v. }
  intros Hreg. right. right. exists v.
  split; [done |]. split; [done |].
  unfold convert, log, log_all, modify, bind, lift in Hreg. simpl in Hreg.
  destruct (convert_fun ty it) as [[conv|e] l]; simpl in Hreg.
  2:{ injection Hreg as <- <-. simpl.
      split; [done |]. split; [done |].
      split; [exists []; by rewrite app_nil_r |]. left. by eexists. }
  destruct (gcal_add_item conv _) as [[reg|e] g] eqn:Hadd; simpl in Hreg.
  2:{ injection Hreg as <- <-. simpl.
      split; [done |]. split; [done |].
      split; [eexists; split; [done |]; repeat constructor; by eexists |].
      left. by eexists. }
  destruct (reg !! otk) as [new_id|]; simpl in Hreg.
  2:{ injection Hreg as <- <-. simpl.
      split; [done |]. split; [done |].
      split; [eexists; split; [done |]; repeat constructor; by eexists |].
      left. by eexists. }
  unfold registered_ids_set, registered_ids, set_ids, gets, modify, bind, lift
    in Hreg. simpl in Hreg.
  destruct (setitem _ new_id _) as [b'|e] eqn:Hset; simpl in Hreg.
  2:{ injection Hreg as <- <-. simpl.
      split; [done |]. split; [done |].
      split; [eexists; split; [done |]; repeat constructor; by eexists |].
      left. by eexists. }
  injection Hreg as <- <-. simpl.
  split; [done |]. split; [done |].
  split; [eexists; split; [done |]; repeat constructor; by eexists |].
  right. split; [done |]. exists new_id.
  apply has_key_false in Hk.
  destruct (setitem_fresh _ _ _ _ Hk Hset) as [-> Hfresh].
  by rewrite view_involutive.
Qed.


Lemma register_loop_cons ty side tk otk it items a :
  register_loop ty side tk otk (it :: items) a
  = match register_item ty side tk otk it a with
    | (Ok _, a1) => register_loop ty side tk otk items a1
    | (Raise e, a1) => (Raise e, a1)
    end.
Proof. done. Qed.

Lemma register_loop_app ty side tk otk l1 l2 a :
  register_loop ty side tk otk (l1 ++ l2) a
  = match register_loop ty side tk otk l1 a with
    | (Ok _, a1) => register_loop ty side tk otk l2 a1
    | (Raise e, a1) => (Raise e, a1)
    end.
Proof.
  revert a. induction l1 as [|it l1 IH]; intros a; [done |].
  rewrite <- app_comm_cons, !register_loop_cons.
  destruct (register_item ty side tk otk it a) as [[[]|e] a1]; [apply IH | done].
Qed.

(** What a run of the loop keeps and what it adds. *)
Lemma register_loop_inv ty tk otk items a r a' :
  register_loop ty GcalSide tk otk items a = (r, a') ->
  config a' = config a /\ tw_side a' = tw_side a
  /\ (exists evs, journal a' = journal a ++ evs /\ Forall is_gcal_add evs)
  /\ (exists new, view ty (tw_gcal_ids a') = view ty (tw_gcal_ids a) ++ new)
  /\ (bijective (tw_gcal_ids a) -> bijective (tw_gcal_ids a'))
  /\ (r = Ok tt ->
      forall it, it ∈ items ->
        exists v, it !! tk = Some v
                  /\ PStr (py_str v) ∈ (view ty (tw_gcal_ids a')).*1).
Proof.
  revert a. induction items as [|it items IH]; intros a.
  - intros [= <- <-].
    split; [done |]. split; [done |].
    split; [exists []; by rewrite app_nil_r |].
    split; [exists []; by rewrite app_nil_r |].
    split; [done |]. intros _ it Hin. by apply elem_of_nil in Hin.
  - rewrite register_loop_cons.
    destruct (register_item ty GcalSide tk otk it a) as [r1 a1] eqn:H1.
    assert (config a1 = config a /\ tw_side a1 = tw_side a
            /\ (exists evs, journal a1 = journal a ++ evs /\ Forall is_gcal_add evs)
            /\ (exists new, view ty (tw_gcal_ids a1) = view ty (tw_gcal_ids a) ++ new)
            /\ (bijective (tw_gcal_ids a) -> bijective (tw_gcal_ids a1))
            /\ (r1 = Ok tt ->
                exists v, it !! tk = Some v
                          /\ PStr (py_str v) ∈ (view ty (tw_gcal_ids a1)).*1))
      as (Hc1 & Ht1 & (evs1 & Hj1 & He1) & (new1 & Hn1) & Hb1 & Hk1).
    { destruct (register_item_inv _ _ _ _ _ _ _ H1)
        as [(Hit & -> & ->)|[(v & Hit & Hk & -> & ->)
           |(v & Hit & Hk & Hc & Ht & Hj & [(e & -> & Hids)|(-> & nid & Hids & Hfresh)])]].
      - split; [done |]. split; [done |].
        split; [exists []; by rewrite app_nil_r |].
        split; [exists []; by rewrite app_nil_r |].
        split; done.
      - split; [done |]. split; [done |].
        split; [exists []; by rewrite app_nil_r |].
        split; [exists []; by rewrite app_nil_r |].
        split; [done |].
        intros _. exists v. split; [done |]. by apply has_key_true.
      - rewrite Hids. split; [done |]. split; [done |].
        split; [done |].
        split; [exists []; by rewrite app_nil_r |].
        split; done.
      - split; [done |]. split; [done |]. split; [done |].
        split; [by eexists |]. split.
        + intros Hb. apply (view_bijective ty) in Hb.
          rewrite <- (view_involutive ty (tw_gcal_ids a1)), Hids.
          apply view_bijective. apply has_key_false in Hk.
          destruct Hb as [Hb1 Hb2].
          split; rewrite fmap_app; apply NoDup_app; simpl;
            (split; [done |]); (split; [| apply NoDup_singleton]);
            intros x Hx ->%list_elem_of_singleton; done.
        + intros _. exists v. split; [done |].
          rewrite Hids, fmap_app. apply elem_of_app. right. by left. }
    destruct r1 as [[]|e1].
    + intros Hrest.
      destruct (IH a1 Hrest) as (Hc & Ht & (evs & Hj & He) & (new & Hn) & Hb & Hk).
      split; [congruence |]. split; [congruence |].
      split.
      { exists (evs1 ++ evs). rewrite Hj, Hj1, <- app_assoc.
        split; [done | by apply Forall_app]. }
      split; [exists (new1 ++ new); by rewrite Hn, Hn1, <- app_assoc |].
      split; [auto |].
      intros Hr it' [->|Hin]%elem_of_cons; [| by apply Hk].
      destruct (Hk1 eq_refl) as (v & Hv & Hin).
      exists v. split; [done |].
      rewrite Hn, fmap_app. apply elem_of_app. by left.
    + intros [= <- <-].
      split; [done |]. split; [done |].
      split; [by exists evs1 |]. split; [by exists new1 |].
      split; [done |]. done.
Qed.


(** A loop over items that are all registered changes nothing. *)
Lemma register_loop_skip ty side tk otk items a :
  (forall it, it ∈ items ->
     exists v, it !! tk = Some v
               /\ PStr (py_str v) ∈ (view ty (tw_gcal_ids a)).*1) ->
  register_loop ty side tk otk items a = (Ok tt, a).
Proof.
  induction items as [|it items IH]; intros Hall; [done |].
  rewrite register_loop_cons.
  destruct (Hall it) as (v & Hv & Hin); [by left |].
  rewrite (register_item_skip ty side tk otk it a v Hv) by (by apply has_key_true).
  apply IH. intros it' Hin'. apply Hall. by right.
Qed.

(** [register_items] is its loop, once the assertion and the two keys of
    the configuration are passed. *)
Lemma register_items_eq items ty a tk otk :
  ty ∈ ["tw"; "gcal"] ->
  config a !! (ty +:+ "_id_key") = Some tk ->
  config a !! (opposite ty +:+ "_id_key") = Some otk ->
  register_items items ty a = register_loop ty GcalSide tk otk items a.
Proof.
  intros Hty Htk Hotk.
  unfold register_items, raise, bind, config_get.
  rewrite (bool_decide_eq_true_2 _ Hty).
      change (negb true) with false. cbv beta iota.
  rewrite Htk. fold (opposite ty). rewrite Hotk.
  by destruct (String.eqb ty "tw").
Qed.

Lemma register_items_inv items ty a r a' :
  register_items items ty a = (r, a') ->
  (a' = a /\ exists e, r = Raise e)
  \/ (exists tk otk,
        ty ∈ ["tw"; "gcal"]
        /\ config a !! (ty +:+ "_id_key") = Some tk
        /\ config a !! (opposite ty +:+ "_id_key") = Some otk
        /\ register_loop ty GcalSide tk otk items a = (r, a')).
Proof.
  destruct (decide (ty ∈ ["tw"; "gcal"])) as [Hty|Hty].
  2:{ unfold register_items, raise.
      rewrite (bool_decide_eq_false_2 _ Hty). simpl.
      intros [= <- <-]. left. eauto. }
  destruct (config a !! (ty +:+ "_id_key")) as [tk|] eqn:Htk.
  2:{ unfold register_items, raise, bind, config_get.
      rewrite (bool_decide_eq_true_2 _ Hty).
      change (negb true) with false. cbv beta iota.
      rewrite Htk.
      intros [= <- <-]. left. eauto. }
  destruct (config a !! (opposite ty +:+ "_id_key")) as [otk|] eqn:Hotk.
  2:{ unfold register_items, raise, bind, config_get.
      rewrite (bool_decide_eq_true_2 _ Hty).
      change (negb true) with false. cbv beta iota.
      rewrite Htk. fold (opposite ty). rewrite Hotk.
      intros [= <- <-]. left. eauto. }
  rewrite (register_items_eq items ty a tk otk) by done.
  intros Hloop. right. by exists tk, otk.
Qed.

(** Every call that [register_items] makes goes to the calendar side,
    whichever side the items come from; the task side is left as it is. *)
Lemma register_items_calls_calendar items ty a r a' :
  register_items items ty a = (r, a') ->
  tw_side a' = tw_side a
  /\ exists evs, journal a' = journal a ++ evs /\ Forall is_gcal_add evs.
Proof.
  intros [[-> _]|(tk & otk & _ & _ & _ & Hloop)]%register_items_inv.
  - split; [done |]. exists []. by rewrite app_nil_r.
  - by destruct (register_loop_inv _ _ _ _ _ _ _ Hloop) as (_ & ? & ? & _).
Qed.

End RegisterFacts.

(* ===================================================================== *)
(** * Registration: the table, idempotence, failure of the store *)
(* ===================================================================== *)

Section RegisterTheorems.
Context `{Host} `{Stores}.
Import Bidict BidictFacts.


(** C6.  After a run of [register_items] that completed, a second run
    with the same items on a state that holds the resulting table
    returns at once: the state, and with it the journal of the calls to
    the stores, is unchanged. *)
Theorem registration_is_idempotent items ty a a' b :
  register_items items ty a = (Ok tt, a') ->
  config b = config a' ->
  tw_gcal_ids b = tw_gcal_ids a' ->
  register_items items ty b = (Ok tt, b).
Proof.
  intros Hrun Hcfg Hids.
  apply register_items_inv in Hrun
    as [[_ [e ?]]|(tk & otk & Hty & Htk & Hotk & Hloop)]; [done |].
  destruct (register_loop_inv _ _ _ _ _ _ _ Hloop) as (Hc & _ & _ & _ & _ & Hk).
  rewrite (register_items_eq items ty b tk otk) by (done || congruence).
  apply register_loop_skip. rewrite Hids. by apply Hk.
Qed.

(** C8.  When the store raises on [add_item] for an item, the error
    leaves [register_items] and the table is the one that the items
    before it produced: the item has no entry. *)
Theorem add_failure_is_atomic items1 (it : item) items2 ty a a1 tk v conv l e g :
  register_items items1 ty a = (Ok tt, a1) ->
  config a !! (ty +:+ "_id_key") = Some tk ->
  it !! tk = Some v ->
  has_key (PStr (py_str v)) (view ty (tw_gcal_ids a1)) = false ->
  convert_fun ty it = (Ok conv, l) ->
  gcal_add_item conv (gcal_side a1) = (Raise e, g) ->
  exists a',
    register_items (items1 ++ it :: items2) ty a = (Raise e, a')
    /\ tw_gcal_ids a' = tw_gcal_ids a1
    /\ has_key (PStr (py_str v)) (view ty (tw_gcal_ids a')) = false.
Proof.
  intros Hrun Htk Hit Hk Hconv Hadd.
  apply register_items_inv in Hrun
    as [[_ [e' ?]]|(tk' & otk & Hty & Htk' & Hotk & Hloop)]; [done |].
  assert (tk' = tk) as -> by congruence.
  rewrite (register_items_eq _ ty a tk otk) by done.
  rewrite register_loop_app, Hloop, register_loop_cons.
  unfold register_item, bind, lift, getitem, registered_ids, gets.
  rewrite Hit. simpl. rewrite Hk. simpl.
  unfold convert, log, log_all, modify, bind, lift. rewrite Hconv. simpl.
  rewrite Hadd. simpl.
  eexists. split; [done |]. by simpl.
Qed.

(** C9.  [TaskWarriorSide.add_item] on an item that has [description]
    but not the key that the log line reads raises [KeyError]; nothing is
    logged and no task is added. *)
Theorem tw_add_item_key_error (it : item) s :
  is_Some (it !! "description") ->
  it !! "desscription" = None ->
  TaskWarriorSide_add_item it s = (Raise (KeyError "desscription"), s).
Proof.
  intros Hd Hmiss. unfold TaskWarriorSide_add_item.
  rewrite bool_decide_eq_true_2 by done. simpl.
  unfold bind, lift, getitem. by rewrite Hmiss.
Qed.

End RegisterTheorems.

Section MainTheorems.
Context `{Host} `{Stores}.
Variable start : M aggregator unit.
Variable get_all_items : side_ref -> option string -> bool -> M aggregator (list item).
Variable synchronise_deleted_items : string -> M aggregator unit.
Variable stored_ids : option Bidict.t.
Variable prefs_dir : string.

(** C10, at the failing input.  With two or more tags [main] raises
    before anything else happens.  With exactly one tag it raises too:
    the tag reaches [TaskWarriorSide] wrapped in a list, which the check
    of the constructor refuses, so no aggregator is built and no store
    is called. *)
Theorem single_tag_is_rejected gcal_calendar order_by ascending_order :
  (forall t1 t2 rest,
      main start get_all_items synchronise_deleted_items stored_ids prefs_dir
           gcal_calendar (t1 :: t2 :: rest) order_by ascending_order
      = (Raise RuntimeError, [], []))
  /\ (forall tag,
        main start get_all_items synchronise_deleted_items stored_ids prefs_dir
             gcal_calendar [tag] order_by ascending_order
        = (Raise RuntimeError,
           [Log INFO "Initialising...";
            Log FATAL (String PyStr.LF
                         ("Please provide only a single tag in string form." +:+
                          " No other form is currently supported" +:+
                          String PyStr.LF ""))],
           [])).
Proof. split; intros; reflexivity. Qed.

End MainTheorems.

(* ===================================================================== *)
(** * An unknown status *)
(* ===================================================================== *)

Section UnknownStatus.
Context `{Host}.
Import PyStr PyStrFacts.

Lemma prefix_status_annotation k :
  String.prefix "* status" k = true -> String.prefix "* annotation" k = false.
Proof.
  destruct k as [|c1 [|c2 [|c3 k]]]; cbn [String.prefix]; try done.
  - by destruct (ascii_dec "*" c1).
  - destruct (ascii_dec "*" c1); [| done]. by destruct (ascii_dec " " c2).
  - destruct (ascii_dec "*" c1); [| done].
    destruct (ascii_dec " " c2); [| done].
    destruct (ascii_dec "s" c3) as [<-|]; [| done].
    intros _. by destruct (ascii_dec "a" "s").
Qed.

Lemma status_is_not_annotation l v :
  status_of l = Some v -> annotation_of l = None.
Proof.
  unfold status_of, annotation_of, startswith.
  destruct (split1 ":" l) as [|k [|x [|? ?]]]; try done.
  destruct (String.prefix "* status" (lower k)) eqn:Hk; [| done].
  by rewrite (prefix_status_annotation _ Hk).
Qed.

Lemma scan_status_line st uu lg l v :
  status_of l = Some v -> scan_line (st, uu, lg) l = (v, uu, lg).
Proof.
  unfold status_of, scan_line.
  destruct (split1 ":" l) as [|k [|x [|? ?]]]; try done.
  destruct (startswith (lower k) "* status"); [| done].
  by intros [= <-].
Qed.

Lemma scan_other_line st uu lg l :
  status_of l = None -> (scan_line (st, uu, lg) l).1.1 = st.
Proof.
  unfold status_of, scan_line.
  destruct (split1 ":" l) as [|k [|x [|? ?]]]; try done.
  destruct (startswith (lower k) "* status"); [done |].
  destruct (startswith (lower k) "* uuid"); [| done].
  by destruct (Uuid.parse _).
Qed.

Lemma scan_other_lines ls st uu lg :
  Forall (fun l => status_of l = None) ls ->
  (foldl scan_line (st, uu, lg) ls).1.1 = st.
Proof.
  intros Hls. revert st uu lg.
  induction Hls as [|l ls Hl Hls IH]; intros st uu lg; [done |].
  cbn [foldl].
  pose proof (scan_other_line st uu lg l Hl) as Hst.
  destruct (scan_line (st, uu, lg) l) as [[st' uu'] lg'].
  simpl in Hst. subst st'. apply IH.
Qed.

(** The run of annotations stops strictly inside [pre] when [pre] holds a
    line that is no annotation. *)
Lemma annotation_run_inside pre rest idx i acc :
  Exists (fun x => annotation_of x = None) pre ->
  exists n acc',
    annotation_run idx i (pre ++ rest) acc = ((idx + n)%nat, acc')
    /\ (n < List.length pre)%nat.
Proof.
  intros Hex. revert idx i acc.
  induction pre as [|y pre IH]; intros idx i acc; [by apply Exists_nil in Hex |].
  simpl. destruct (annotation_of y) as [a|] eqn:Hy.
  - apply Exists_cons in Hex as [Hex|Hex]; [congruence |].
    destruct (IH Hex (S idx) idx (acc ++ [a])) as (n & acc' & -> & Hn).
    exists (S n), acc'. split; [f_equal; lia | lia].
  - exists O, acc. split; [f_equal; lia | lia].
Qed.

(** The status that the parser returns: that of the last status line
    among the lines scanned, when it is not the only line left after the
    annotations. *)
Lemma parse_last_status (g : item) desc pre l post v :
  g !! "description" = Some (PStr desc) ->
  desc_lines desc = pre ++ l :: post ->
  status_of l = Some v ->
  Forall (fun x => status_of x = None) post ->
  post <> [] \/ Exists (fun x => annotation_of x = None) pre ->
  exists anns uu lg, _parse_gcal_item_desc g = (Ok (anns, v, uu), lg).
Proof.
  intros Hg Hlines Hl Hpost Hmore.
  assert (exists n anns,
             annotation_run 0 0 (pre ++ l :: post) [] = (n, anns)
             /\ (n <= List.length pre)%nat
             /\ (post = [] -> n < List.length pre)%nat)
    as (n & anns & Hrun & Hn & Hlast).
  { destruct Hmore as [Hp|Hex].
    - destruct (annotation_run_stop pre l post 0 0 []
                  (status_is_not_annotation l v Hl)) as (n & acc' & Hr & Hn).
      exists n, acc'. split; [done |]. split; [done |]. done.
    - destruct (annotation_run_inside pre (l :: post) 0 0 [] Hex)
        as (n & acc' & Hr & Hn).
      exists n, acc'. split; [done |]. split; lia. }
  unfold _parse_gcal_item_desc. rewrite Hg, Hlines, Hrun.
  rewrite length_app. simpl List.length.
  destruct (Z.eqb_spec (Z.of_nat n)
              (Z.of_nat (List.length pre + S (List.length post)) - 1))
    as [Heq|_].
  { destruct post; [specialize (Hlast eq_refl); simpl in Heq; lia |].
    simpl in Heq. lia. }
  rewrite drop_app_le by done. rewrite foldl_app.
  destruct (foldl scan_line ("pending", None, []) (skipn n pre))
    as [[st uu] lg].
  cbn [foldl]. rewrite (scan_status_line st uu lg l v Hl).
  pose proof (scan_other_lines post v uu lg Hpost) as Hst.
  destruct (foldl scan_line (v, uu, lg) post) as [[st' uu'] lg'].
  simpl in Hst. subst st'. by eexists _, _, _.
Qed.

(** C3, as the code has it.  When the last status line that the parser
    scans carries a value outside the five statuses, and that line is not
    the only one left after the annotations, the conversion succeeds,
    logs the warning and returns a task without a status field. *)
Theorem unknown_status_is_skipped (g : item) desc pre l post v summary e d :
  g !! "description" = Some (PStr desc) ->
  desc_lines desc = pre ++ l :: post ->
  status_of l = Some v ->
  Forall (fun x => status_of x = None) post ->
  post <> [] \/ Exists (fun x => annotation_of x = None) pre ->
  v ∉ valid_statuses ->
  g !! "summary" = Some summary ->
  read_time g "start" = Ok e ->
  read_time g "end" = Ok d ->
  exists out lg,
    convert_gcal_to_tw g = (Ok out, lg)
    /\ status_warning v ∈ lg
    /\ out !! "status" = None.
Proof.
  intros Hg Hlines Hl Hpost Hmore Hv Hsum Hstart Hend.
  destruct (parse_last_status g desc pre l post v Hg Hlines Hl Hpost Hmore)
    as (anns & uu & lg & Hp).
  rewrite (convert_gcal_to_tw_invalid g anns v uu lg summary e d) by done.
  eexists _, _. split; [done |]. split.
  - apply elem_of_app. right. by left.
  - by destruct uu.
Qed.

End UnknownStatus.

Module SampleFacts.
Import Sample.

Lemma parse_format_law t :
  @parse_datetime host (PStr (@format_datetime host t)) = Some t.
Proof.
  simpl. unfold PyStr.of_Z.
  rewrite NilZero.isi.
  - simpl. f_equal. apply DecimalZ.of_to.
  - destruct t; simpl; try discriminate.
    intros [= Hp]. by apply (Unsigned.to_uint_nonnil p).
  - destruct t; simpl; try discriminate.
    intros [= Hp]. by apply (Unsigned.to_uint_nonnil p).
Qed.

(** C1, at a failing input.  Registering a calendar event hands the
    converted task to the calendar side; the task side is not called and
    stays as it was.  The event that the calendar returns carries no
    [uuid], so the run ends in [KeyError] with the table unchanged. *)
Theorem calendar_event_is_added_to_the_calendar :
  let '(r, a') := @register_items host stores [dentist] "gcal" (fresh [] 0) in
  r = Raise (KeyError "uuid")
  /\ journal a' = [EvAdd GcalSide dentist_as_task]
  /\ tw_side a' = tw_side (fresh [] 0)
  /\ gcal_side a' = 1%nat
  /\ tw_gcal_ids a' = [].
Proof. vm_compute. repeat split; reflexivity. Qed.

(** C4, at a failing input.  The description holds one annotation and
    then the line [* status: completed] as its last line: the parser
    returns before it scans that line, so the status stays [pending]. *)
Theorem lonely_status_line_is_not_parsed :
  _parse_gcal_item_desc lonely_status_event
  = (Ok (["call first"], "pending", None), [])
  /\ exists out,
       @convert_gcal_to_tw host lonely_status_event = (Ok out, [])
       /\ out !! "status" = Some (PStr "pending").
Proof.
  split; [vm_compute; reflexivity |].
  eexists. split; vm_compute; reflexivity.
Qed.




Lemma task_event_scenario_witness :
  exists g desc out lg,
    @convert_tw_to_gcal host noted_task = Ok g
    /\ g !! "summary" = Some (PStr "Buy milk")
    /\ g !! "start" = Some (@date_time host t0)
    /\ g !! "end" = Some (@date_time host (t0 + day))
    /\ g !! "description" = Some (PStr desc)
    /\ "* status: pending" ∈ PyStr.split PyStr.LF desc
    /\ ("* uuid: " +:+ Uuid.to_string u1) ∈ PyStr.split PyStr.LF desc
    /\ @convert_gcal_to_tw host g = (Ok out, lg)
    /\ out !! "status" = Some (PStr "pending")
    /\ out !! "uuid" = Some (PUuid u1)
    /\ out !! "entry" = Some (PTime t0)
    /\ out !! "due" = Some (PTime (t0 + day)).
Proof.
  apply (proj1 (@task_event_scenario host parse_format_law)
           noted_task (PStr "Buy milk") u1 t0).
  - vm_compute. reflexivity.
  - vm_compute. reflexivity.
  - vm_compute. reflexivity.
  - vm_compute. reflexivity.
  - vm_compute. reflexivity.
  - vm_compute. reflexivity.
  - intros v Hv. vm_compute in Hv. injection Hv as <-.
    eexists. reflexivity.
Defined.

(** The specification's own scenario event is a counterexample to C3:
    its description embeds [* status: bogus], and the task that comes
    back has no status at all. *)
Lemma unknown_status_leaves_no_status :
  embeds_status bogus_event "bogus"
  /\ ("bogus" ∉ valid_statuses)
  /\ (exists out,
        @convert_gcal_to_tw host bogus_event = (Ok out, [status_warning "bogus"])
        /\ out !! "status" = None)
  /\ ~ @unknown_status_claim host bogus_event "bogus".
Proof.
  assert (embeds_status bogus_event "bogus") as Hemb.
  { eexists. split; [vm_compute; reflexivity |].
    apply list_elem_of_In. vm_compute. tauto. }
  assert ("bogus" ∉ valid_statuses) as Hbogus.
  { intros Hin. apply list_elem_of_In in Hin. vm_compute in Hin.
    repeat destruct Hin as [Hin|Hin]; try discriminate. done. }
  assert (@convert_gcal_to_tw host bogus_event
          = (Ok (<["uuid" := PUuid u1]> (<["annotations" := PList []]>
                (<["description" := PStr "Dentist"]>
                (<["entry" := PTime 5]> (<["due" := PTime 7]> ∅))))),
             [status_warning "bogus"])) as Hval
    by (vm_compute; reflexivity).
  split; [done |]. split; [done |]. split.
  - eexists. split; [exact Hval |]. vm_compute. reflexivity.
  - intros Hc. destruct (Hc Hemb Hbogus) as (out & lg & Hconv & _ & Hst).
    rewrite Hval in Hconv. injection Hconv as <- <-.
    vm_compute in Hst. discriminate.
Qed.

Lemma unknown_status_is_skipped_witness :
  exists out lg,
    @convert_gcal_to_tw host bogus_event = (Ok out, lg)
    /\ status_warning "bogus" ∈ lg
    /\ out !! "status" = None.
Proof.
  apply (@unknown_status_is_skipped host bogus_event
           (text ["IMPORTED FROM TASKWARRIOR"; "";
                  "* status: bogus";
                  "* uuid: 123e4567-e89b-12d3-a456-426614174000"])
           [] "* status: bogus"
           ["* uuid: 123e4567-e89b-12d3-a456-426614174000"]
           "bogus" (PStr "Dentist") (PTime 5) (PTime 7)).
  - vm_compute. reflexivity.
  - vm_compute. reflexivity.
  - vm_compute. reflexivity.
  - repeat constructor.
  - left. discriminate.
  - intros Hin. apply list_elem_of_In in Hin. vm_compute in Hin.
    repeat destruct Hin as [Hin|Hin]; try discriminate. done.
  - vm_compute. reflexivity.
  - vm_compute. reflexivity.
  - vm_compute. reflexivity.
Defined.



Lemma registration_is_idempotent_witness :
  let a' := (@register_items host stores [buy_milk; task "Pay rent" u2] "tw"
               (fresh [] 0)).2 in
  @register_items host stores [buy_milk; task "Pay rent" u2] "tw" a' = (Ok tt, a').
Proof.
  intros a'.
  apply (@registration_is_idempotent host stores
           [buy_milk; task "Pay rent" u2] "tw" (fresh [] 0) a' a').
  - vm_compute. reflexivity.
  - reflexivity.
  - reflexivity.
Defined.

Lemma add_failure_is_atomic_witness :
  let a1 := (@register_items host stores [buy_milk] "tw" (fresh [] 2)).2 in
  exists a',
    @register_items host stores ([buy_milk] ++ task "Pay rent" u2 :: [noted_task])
      "tw" (fresh [] 2)
    = (Raise (StoreError "quota exceeded"), a')
    /\ tw_gcal_ids a' = tw_gcal_ids a1
    /\ Bidict.has_key (PStr (@py_str host (PUuid u2)))
         (view "tw" (tw_gcal_ids a')) = false.
Proof.
  intros a1.
  destruct (@convert_tw_to_gcal host (task "Pay rent" u2)) as [conv|] eqn:Hconv;
    [| vm_compute in Hconv; discriminate].
  apply (@add_failure_is_atomic host stores [buy_milk] (task "Pay rent" u2)
           [noted_task] "tw" (fresh [] 2) a1 "uuid" (PUuid u2) conv []
           (StoreError "quota exceeded") 3%nat).
  - vm_compute. reflexivity.
  - vm_compute. reflexivity.
  - vm_compute. reflexivity.
  - vm_compute. reflexivity.
  - unfold convert_fun. simpl. by rewrite Hconv.
  - reflexivity.
Defined.

Lemma tw_add_item_key_error_witness :
  @TaskWarriorSide_add_item host stores dentist_as_task
    (@Build_TaskWarriorSide stores ∅ 0%N, [], [])
  = (Raise (KeyError "desscription"),
     (@Build_TaskWarriorSide stores ∅ 0%N, [], [])).
Proof.
  apply (@tw_add_item_key_error host stores).
  - eexists. vm_compute. reflexivity.
  - vm_compute. reflexivity.
Defined.

End SampleFacts.

(* ===================================================================== *)
(** * More facts about strings *)
(* ===================================================================== *)

Module PyStrMore.
Import PyStr PyStrFacts.

Lemma lower_char_idem c : lower_char (lower_char c) = lower_char c.
Proof. by destruct c as [[] [] [] [] [] [] [] []]. Qed.

Lemma isspace_lower_char c : isspace (lower_char c) = isspace c.
Proof. by destruct c as [[] [] [] [] [] [] [] []]. Qed.

Lemma lower_idem s : lower (lower s) = lower s.
Proof. induction s as [|c s IH]; simpl; [done |]. by rewrite lower_char_idem, IH. Qed.

Lemma is_empty_lower s : is_empty (lower s) = is_empty s.
Proof. by destruct s. Qed.

Lemma lstrip_lower s : lstrip_by isspace (lower s) = lower (lstrip_by isspace s).
Proof.
  induction s as [|c s IH]; simpl; [done |].
  rewrite isspace_lower_char. by destruct (isspace c).
Qed.

Lemma rstrip_lower s : rstrip_by isspace (lower s) = lower (rstrip_by isspace s).
Proof.
  induction s as [|c s IH]; simpl; [done |].
  rewrite isspace_lower_char, IH, is_empty_lower.
  by destruct (isspace c && is_empty (rstrip_by isspace s)).
Qed.

Lemma strip_lower s : strip (lower s) = lower (strip s).
Proof. unfold strip, strip_by. by rewrite lstrip_lower, rstrip_lower. Qed.

Lemma rstrip_by_idem p s : rstrip_by p (rstrip_by p s) = rstrip_by p s.
Proof.
  induction s as [|c s IH]; simpl; [done |].
  destruct (p c && is_empty (rstrip_by p s)) eqn:Hc; [done |].
  simpl. by rewrite IH, Hc.
Qed.

Lemma lstrip_by_shape p s :
  lstrip_by p s = "" \/ exists c r, lstrip_by p s = String c r /\ p c = false.
Proof.
  induction s as [|c s IH]; simpl; [by left |].
  destruct (p c) eqn:Hc; [done |]. right. by exists c, s.
Qed.

Lemma strip_by_idem p s : strip_by p (strip_by p s) = strip_by p s.
Proof.
  unfold strip_by.
  destruct (lstrip_by_shape p s) as [->|(c & r & -> & Hc)]; [done |].
  simpl. rewrite Hc. simpl. rewrite Hc. simpl. by rewrite rstrip_by_idem, Hc.
Qed.

Lemma strip_idem s : strip (strip s) = strip s.
Proof. apply strip_by_idem. Qed.

End PyStrMore.

(* ===================================================================== *)
(** * What the parser of descriptions returns *)
(* ===================================================================== *)

Section ParserFacts.
Context `{Host}.
Import PyStr PyStrFacts PyStrMore.

Lemma uuid_parse_bound s u : Uuid.parse s = Some u -> (u < 2 ^ 128)%N.
Proof.
  unfold Uuid.parse.
  destruct (negb _); [done |].
  destruct (Uuid.int16 _) as [n|]; [| done].
  destruct ((0 <=? n) && (n <? 2 ^ 128)) eqn:Hn; [| done].
  intros [= <-]. apply andb_true_iff in Hn as [H0 H1].
  apply Z.leb_le in H0. apply Z.ltb_lt in H1.
  apply N2Z.inj_lt. rewrite Z2N.id by done.
  by rewrite N2Z.inj_pow.
Qed.

Lemma scan_line_ok st l : parsed_ok st -> parsed_ok (scan_line st l).
Proof.
  destruct st as [[st uu] lg]. intros (Hl & Hs & Hu & Hlg).
  unfold scan_line.
  destruct (split1 ":" l) as [|k [|v [|? ?]]]; try done.
  destruct (startswith (lower k) "* status").
  { split; [apply lower_idem |]. split; [| done].
    simpl. by rewrite strip_lower, strip_idem. }
  destruct (startswith (lower k) "* uuid"); [| done].
  destruct (Uuid.parse (strip v)) as [u|] eqn:Hp.
  - split; [done |]. split; [done |]. split; [| done].
    simpl. intros ? [= <-]. by eapply uuid_parse_bound.
  - split; [done |]. split; [done |]. split; [done |].
    simpl. apply Forall_app. split; [done |]. repeat constructor. by eexists.
Qed.

Lemma scan_lines_ok ls st : parsed_ok st -> parsed_ok (foldl scan_line st ls).
Proof.
  revert st. induction ls as [|l ls IH]; intros st Hst; [done |].
  cbn [foldl]. by apply IH, scan_line_ok.
Qed.

Lemma annotation_of_stripped l a : annotation_of l = Some a -> strip a = a.
Proof.
  unfold annotation_of.
  destruct (split1 ":" l) as [|k [|v [|? ?]]]; try done.
  destruct (startswith _ _); [| done].
  intros [= <-]. apply strip_idem.
Qed.

Lemma annotation_run_stripped lines idx i acc n anns :
  Forall (fun a => strip a = a) acc ->
  annotation_run idx i lines acc = (n, anns) ->
  Forall (fun a => strip a = a) anns.
Proof.
  revert idx i acc. induction lines as [|l lines IH]; intros idx i acc Hacc; simpl.
  - by intros [= _ <-].
  - destruct (annotation_of l) as [a|] eqn:Ha.
    + apply IH. apply Forall_app. split; [done |].
      repeat constructor. by eapply annotation_of_stripped.
    + by intros [= _ <-].
Qed.

Lemma parsed_fields_ok (g : item) anns st uu lg :
  _parse_gcal_item_desc g = (Ok (anns, st, uu), lg) ->
  Forall (fun a => strip a = a) anns /\ parsed_ok (st, uu, lg).
Proof.
  unfold _parse_gcal_item_desc.
  destruct (g !! "description") as [[desc| | | | |]|]; try done.
  - destruct (annotation_run 0 0 (desc_lines desc) []) as [i acc] eqn:Hrun.
    pose proof (annotation_run_stripped _ _ _ _ _ _ (Forall_nil_2 _) Hrun) as Hacc.
    destruct (_ =? _).
    + intros [= <- <- <- <-]. split; [done |]. by repeat split.
    + pose proof (scan_lines_ok (skipn i (desc_lines desc)) ("pending", None, [])) as Hfold.
      destruct (foldl _ _ _) as [[st' uu'] lg'].
      intros [= <- <- <- <-]. split; [done |]. apply Hfold. by repeat split.
  - intros [= <- <- <- <-]. split; [done |]. by repeat split.
Qed.

End ParserFacts.

Section ParserTheorems.
Context `{Host}.
Import PyStr PyStrFacts PyStrMore.

(** X1.  The parser returns normalised fields, whatever the description: the
    annotations carry no blanks at either end, the status is lower-case
    and stripped, a UUID fits 128 bits, and every record logged is an
    error. *)
Theorem parsed_fields_are_normalised (g : item) anns st uu lg :
  _parse_gcal_item_desc g = (Ok (anns, st, uu), lg) ->
  Forall (fun a => strip a = a) anns
  /\ lower st = st /\ strip st = st
  /\ (forall u, uu = Some u -> (u < 2 ^ 128)%N)
  /\ Forall (fun r => exists msg, r = Log ERROR msg) lg.
Proof.
  intros Hp. destruct (parsed_fields_ok g anns st uu lg Hp) as [Ha Hok].
  split; [done |]. exact Hok.
Qed.

Lemma parse_never_raises (g : item) :
  g !! "description" = None \/ (exists s, g !! "description" = Some (PStr s)) ->
  exists anns st uu lg, _parse_gcal_item_desc g = (Ok (anns, st, uu), lg).
Proof.
  unfold _parse_gcal_item_desc. intros [->|[s ->]]; [by eexists _, _, _, _ |].
  destruct (annotation_run _ _ _ _) as [i acc].
  destruct (_ =? _); [by eexists _, _, _, _ |].
  destruct (foldl _ _ _) as [[st uu] lg]. by eexists _, _, _, _.
Qed.

Lemma desc_lines_header h rest :
  h <> "" -> LF ∉ chars h ->
  desc_lines (h +:+ String LF rest)
  = strip <$> filter (fun l => is_empty l = false) (split LF rest).
Proof.
  intros Hh Hlf. unfold desc_lines.
  rewrite split_app, (split_none _ _ Hlf). simpl app.
  rewrite filter_cons_True; [done |]. by destruct h.
Qed.

(** X2.  The first line of a description, when it is not empty, is dropped
    before anything is parsed: two descriptions that differ in that line
    only convert to the same task, with the same log. *)
Theorem header_line_is_never_parsed (g : item) h1 h2 rest :
  h1 <> "" -> LF ∉ chars h1 -> h2 <> "" -> LF ∉ chars h2 ->
  convert_gcal_to_tw (<["description" := PStr (h1 +:+ String LF rest)]> g)
  = convert_gcal_to_tw (<["description" := PStr (h2 +:+ String LF rest)]> g).
Proof.
  intros H1 L1 H2 L2.
  unfold convert_gcal_to_tw, _parse_gcal_item_desc, read_time, getitem.
  rewrite !lookup_insert_eq, !lookup_insert_ne by done.
  by rewrite (desc_lines_header h1), (desc_lines_header h2).
Qed.

(** ** The line that decides the status *)

Lemma no_warning_in_errors lg msg :
  Forall (fun r => exists m, r = Log ERROR m) lg -> Log WARNING msg ∉ lg.
Proof.
  intros Hlg Hin. rewrite Forall_forall in Hlg.
  by destruct (Hlg _ Hin) as [m ?].
Qed.

(** X3.  The status of the converted task is that of the last status line
    scanned, when its value is one of the five statuses; no warning is
    logged then. *)
Theorem last_status_line_decides (g : item) desc pre l post v summary e d :
  g !! "description" = Some (PStr desc) ->
  desc_lines desc = pre ++ l :: post ->
  status_of l = Some v ->
  Forall (fun x => status_of x = None) post ->
  post <> [] \/ Exists (fun x => annotation_of x = None) pre ->
  v ∈ valid_statuses ->
  g !! "summary" = Some summary ->
  read_time g "start" = Ok e ->
  read_time g "end" = Ok d ->
  exists out lg,
    convert_gcal_to_tw g = (Ok out, lg)
    /\ out !! "status" = Some (PStr v)
    /\ (forall msg, Log WARNING msg ∉ lg).
Proof.
  intros Hg Hlines Hl Hpost Hmore Hv Hsum Hstart Hend.
  destruct (parse_last_status g desc pre l post v Hg Hlines Hl Hpost Hmore)
    as (anns & uu & lg & Hp).
  rewrite (convert_gcal_to_tw_valid g anns v uu lg summary e d) by done.
  eexists _, _. split; [done |]. split.
  - rewrite !lookup_insert_ne by done. destruct uu; simpl.
    + rewrite lookup_insert_ne by done. apply lookup_insert_eq.
    + apply lookup_insert_eq.
  - intros msg. apply no_warning_in_errors.
    by destruct (parsed_fields_ok g anns v uu lg Hp) as (_ & _ & _ & _ & ?).
Qed.

(** ** The line that decides the UUID *)

Lemma prefix_uuid_annotation k :
  String.prefix "* uuid" k = true -> String.prefix "* annotation" k = false.
Proof.
  destruct k as [|c1 [|c2 [|c3 k]]]; cbn [String.prefix]; try done.
  - by destruct (ascii_dec "*" c1).
  - destruct (ascii_dec "*" c1); [| done]. by destruct (ascii_dec " " c2).
  - destruct (ascii_dec "*" c1); [| done].
    destruct (ascii_dec " " c2); [| done].
    destruct (ascii_dec "u" c3) as [<-|]; [| done].
    intros _. by destruct (ascii_dec "a" "u").
Qed.

Lemma uuid_is_not_annotation l s : uuid_of l = Some s -> annotation_of l = None.
Proof.
  unfold uuid_of, annotation_of, startswith.
  destruct (split1 ":" l) as [|k [|x [|? ?]]]; try done.
  destruct (String.prefix "* status" (lower k)); [done |].
  destruct (String.prefix "* uuid" (lower k)) eqn:Hk; [| done].
  by rewrite (prefix_uuid_annotation _ Hk).
Qed.

Lemma scan_good_uuid st uu lg l s u :
  uuid_of l = Some s -> Uuid.parse s = Some u ->
  scan_line (st, uu, lg) l = (st, Some u, lg).
Proof.
  unfold uuid_of, scan_line.
  destruct (split1 ":" l) as [|k [|x [|? ?]]]; try done.
  destruct (startswith (lower k) "* status"); [done |].
  destruct (startswith (lower k) "* uuid"); [| done].
  by intros [= ->] ->.
Qed.

Lemma scan_keeps_uuid st uu lg l :
  (forall s, uuid_of l = Some s -> Uuid.parse s = None) ->
  (scan_line (st, uu, lg) l).1.2 = uu.
Proof.
  unfold uuid_of, scan_line.
  destruct (split1 ":" l) as [|k [|x [|? ?]]]; try done.
  destruct (startswith (lower k) "* status"); [done |].
  destruct (startswith (lower k) "* uuid"); [| done].
  intros Hbad. by rewrite (Hbad _ eq_refl).
Qed.

Lemma scan_keep_uuid ls st uu lg :
  Forall (fun l => forall s, uuid_of l = Some s -> Uuid.parse s = None) ls ->
  (foldl scan_line (st, uu, lg) ls).1.2 = uu.
Proof.
  intros Hls. revert st uu lg.
  induction Hls as [|l ls Hl Hls IH]; intros st uu lg; [done |].
  cbn [foldl].
  pose proof (scan_keeps_uuid st uu lg l Hl) as Hu.
  destruct (scan_line (st, uu, lg) l) as [[st' uu'] lg'].
  simpl in Hu. subst uu'. apply IH.
Qed.

(** X4.  The UUID that the parser returns is that of the last uuid line whose
    text [UUID] accepts: a later uuid line that does not parse logs an
    error and leaves the UUID found before in place. *)
Theorem last_good_uuid_line_decides (g : item) desc pre l post s u :
  g !! "description" = Some (PStr desc) ->
  desc_lines desc = pre ++ l :: post ->
  uuid_of l = Some s -> Uuid.parse s = Some u ->
  Forall (fun x => forall s', uuid_of x = Some s' -> Uuid.parse s' = None) post ->
  post <> [] \/ Exists (fun x => annotation_of x = None) pre ->
  exists anns st lg, _parse_gcal_item_desc g = (Ok (anns, st, Some u), lg).
Proof.
  intros Hg Hlines Hl Hu Hpost Hmore.
  assert (exists n anns,
             annotation_run 0 0 (pre ++ l :: post) [] = (n, anns)
             /\ (n <= List.length pre)%nat
             /\ (post = [] -> n < List.length pre)%nat)
    as (n & anns & Hrun & Hn & Hlast).
  { destruct Hmore as [Hp|Hex].
    - destruct (annotation_run_stop pre l post 0 0 []
                  (uuid_is_not_annotation l s Hl)) as (n & acc' & Hr & Hn).
      exists n, acc'. split; [done |]. split; [done |]. done.
    - destruct (annotation_run_inside pre (l :: post) 0 0 [] Hex)
        as (n & acc' & Hr & Hn).
      exists n, acc'. split; [done |]. split; lia. }
  unfold _parse_gcal_item_desc. rewrite Hg, Hlines, Hrun.
  rewrite length_app. simpl List.length.
  destruct (Z.eqb_spec (Z.of_nat n)
              (Z.of_nat (List.length pre + S (List.length post)) - 1))
    as [Heq|_].
  { destruct post; [specialize (Hlast eq_refl); simpl in Heq; lia |].
    simpl in Heq. lia. }
  rewrite drop_app_le by done. rewrite foldl_app.
  destruct (foldl scan_line ("pending", None, []) (skipn n pre))
    as [[st uu] lg].
  cbn [foldl]. rewrite (scan_good_uuid st uu lg l s u Hl Hu).
  pose proof (scan_keep_uuid post st (Some u) lg Hpost) as Huu.
  destruct (foldl scan_line (st, Some u, lg) post) as [[st' uu'] lg'].
  simpl in Huu. subst uu'. by eexists _, _, _.
Qed.

End ParserTheorems.

Section ConverterTheorems.
Context `{Host}.
Import PyStr PyStrFacts PyStrMore.

(** ** convert_tw_to_gcal *)

(** X5.  A task without [description], [status] or [uuid] fails the assertion
    of [convert_tw_to_gcal]; a task that has the three, and annotations
    that can be iterated if any, but no [entry], raises [KeyError]. *)
Theorem convert_tw_to_gcal_missing_key :
  (forall (t : item) k,
      k ∈ ["description"; "status"; "uuid"] -> t !! k = None ->
      convert_tw_to_gcal t = Raise AssertionError)
  /\ (forall (t : item) x,
        is_Some (t !! "description") -> is_Some (t !! "status") ->
        is_Some (t !! "uuid") -> annotation_text t = Ok x ->
        t !! "entry" = None ->
        convert_tw_to_gcal t = Raise (KeyError "entry")).
Proof.
  split.
  - intros t k Hk Hnone. unfold convert_tw_to_gcal. cbn [forallb].
    repeat (apply elem_of_cons in Hk as [->|Hk]);
      [| | | by apply elem_of_nil in Hk];
      rewrite Hnone;
      rewrite (bool_decide_eq_false_2 (is_Some None)) by (by intros [? ?]);
      by rewrite ?andb_false_r.
  - intros t x [d Hd] [st Hst] [uu Hu] Hx He.
    unfold convert_tw_to_gcal, getitem. cbn [forallb].
    rewrite Hd, Hst, Hu, He.
    rewrite !bool_decide_eq_true_2 by done. simpl.
    unfold annotation_text in Hx.
    destruct (t !! "annotations") as [anns|]; [| done].
    by destruct (iter anns).
Qed.

Lemma event_of_task (t g : item) :
  convert_tw_to_gcal t = Ok g ->
  exists d st uu e x fin,
    t !! "description" = Some d /\ t !! "status" = Some st
    /\ t !! "uuid" = Some uu /\ t !! "entry" = Some (PTime e)
    /\ annotation_text t = Ok x /\ end_instant t e = Some fin
    /\ g = <["end" := date_time fin]>
           (<["start" := date_time e]>
           (<["description" := PStr (task_description x st uu)]>
           (<["summary" := d]> ∅))).
Proof.
  intros Hc.
  assert (exists d st uu e x fin,
    t !! "description" = Some d /\ t !! "status" = Some st
    /\ t !! "uuid" = Some uu /\ t !! "entry" = Some (PTime e)
    /\ annotation_text t = Ok x /\ end_instant t e = Some fin)
    as (d & st & uu & e & x & fin & Hd & Hst & Huu & He & Hx & Hfin).
  { unfold convert_tw_to_gcal, getitem, annotation_text, end_instant in *.
    destruct (negb _); [done |].
    destruct (t !! "description") as [d|]; [| done].
    destruct (t !! "annotations") as [v|].
    - destruct (iter v) as [l|]; [| done].
      destruct (t !! "status") as [st|]; [| done].
      destruct (t !! "uuid") as [uu|]; [| done].
      destruct (t !! "entry") as [[| |  |e| |]|]; try done.
      destruct (t !! "due") as [[| | |fin| |]|]; try done;
        by eexists _, _, _, _, _, _.
    - destruct (t !! "status") as [st|]; [| done].
      destruct (t !! "uuid") as [uu|]; [| done].
      destruct (t !! "entry") as [[| |  |e| |]|]; try done.
      destruct (t !! "due") as [[| | |fin| |]|]; try done;
        by eexists _, _, _, _, _, _. }
  exists d, st, uu, e, x, fin. repeat (split; [done |]).
  rewrite (convert_tw_to_gcal_ok t d st uu e x fin) in Hc by done.
  congruence.
Qed.

(** X6.  The event that [convert_tw_to_gcal] returns holds the four keys
    summary, description, start and end, and nothing else; the summary is
    the description of the task as it is, and the text of the description
    opens with the title line. *)
Theorem event_has_four_keys (t g : item) :
  convert_tw_to_gcal t = Ok g ->
  dom g = {["summary"; "description"; "start"; "end"]}
  /\ g !! "summary" = t !! "description"
  /\ exists body,
       g !! "description"
       = Some (PStr ("IMPORTED FROM TASKWARRIOR" +:+ String LF body)).
Proof.
  intros Hg.
  destruct (event_of_task t g Hg)
    as (d & st & uu & e & x & fin & Hd & _ & _ & _ & _ & _ & ->).
  split; [| split].
  - rewrite !dom_insert_L, dom_empty_L.
    apply set_eq. intros k.
    rewrite !elem_of_union, !elem_of_singleton, elem_of_empty. tauto.
  - rewrite !lookup_insert_ne by done. by rewrite lookup_insert_eq, Hd.
  - eexists. rewrite !lookup_insert_ne by done. rewrite lookup_insert_eq.
    reflexivity.
Qed.

(** X7.  [convert_tw_to_gcal] reads six keys of the task: two tasks that agree
    on them convert alike.  The id, the tags and the urgency of a task
    never reach the event. *)
Theorem convert_tw_to_gcal_reads_six_keys (t1 t2 : item) :
  (forall k,
      k ∈ ["description"; "status"; "uuid"; "annotations"; "entry"; "due"] ->
      t1 !! k = t2 !! k) ->
  convert_tw_to_gcal t1 = convert_tw_to_gcal t2.
Proof.
  intros Hk.
  assert (t1 !! "description" = t2 !! "description") as Hd
    by (apply Hk; apply list_elem_of_In; simpl; tauto).
  assert (t1 !! "status" = t2 !! "status") as Hs by (apply Hk; apply list_elem_of_In; simpl; tauto).
  assert (t1 !! "uuid" = t2 !! "uuid") as Hu by (apply Hk; apply list_elem_of_In; simpl; tauto).
  assert (t1 !! "annotations" = t2 !! "annotations") as Ha
    by (apply Hk; apply list_elem_of_In; simpl; tauto).
  assert (t1 !! "entry" = t2 !! "entry") as He by (apply Hk; apply list_elem_of_In; simpl; tauto).
  assert (t1 !! "due" = t2 !! "due") as Hdue by (apply Hk; apply list_elem_of_In; simpl; tauto).
  unfold convert_tw_to_gcal, getitem. cbn [forallb].
  by rewrite Hd, Hs, Hu, Ha, He, Hdue.
Qed.

(** ** convert_gcal_to_tw *)

(** X8.  An event whose description is absent or a string, and that lacks
    [summary], or [start], or the [dateTime] of its [start] as an
    all-day event does, makes [convert_gcal_to_tw] raise [KeyError] on
    that key. *)
Theorem convert_gcal_to_tw_missing_key (g : item) :
  g !! "description" = None \/ (exists s, g !! "description" = Some (PStr s)) ->
  exists lg,
    (g !! "summary" = None ->
     convert_gcal_to_tw g = (Raise (KeyError "summary"), lg))
    /\ (is_Some (g !! "summary") -> g !! "start" = None ->
        convert_gcal_to_tw g = (Raise (KeyError "start"), lg))
    /\ (is_Some (g !! "summary") ->
        forall d, g !! "start" = Some (PDict d) -> assoc "dateTime" d = None ->
        convert_gcal_to_tw g = (Raise (KeyError "dateTime"), lg)).
Proof.
  intros Hdesc.
  destruct (parse_never_raises g Hdesc) as (anns & st & uu & lg0 & Hp).
  unfold convert_gcal_to_tw. rewrite Hp.
  destruct (negb (bool_decide (st ∈ valid_statuses)));
    eexists; (split; [| split]).
  all: unfold getitem, read_time, getitem, subscript.
  all: try (intros ->; reflexivity).
  all: try (intros [s ->] ->; reflexivity).
  all: intros [s ->] d -> ->; reflexivity.
Qed.

Lemma read_time_inv (g : item) k v :
  read_time g k = Ok v -> exists t, v = PTime t.
Proof.
  unfold read_time, parse_time.
  destruct (getitem g k) as [d|]; [| done].
  destruct (subscript d "dateTime") as [x|]; [| done].
  destruct (parse_datetime x) as [t|]; [| done].
  intros [= <-]. by eexists.
Qed.

Lemma convert_gcal_to_tw_inv (g t : item) lg :
  convert_gcal_to_tw g = (Ok t, lg) ->
  exists anns st uu lg0 summary e d,
    _parse_gcal_item_desc g = (Ok (anns, st, uu), lg0)
    /\ g !! "summary" = Some summary
    /\ read_time g "start" = Ok (PTime e)
    /\ read_time g "end" = Ok (PTime d)
    /\ (((st ∈ valid_statuses) /\ lg = lg0
         /\ t = <["due" := PTime d]>
                (<["entry" := PTime e]>
                (<["description" := summary]>
                (with_uuid uu
                (<["status" := PStr st]>
                (<["annotations" := PList (PStr <$> anns)]> ∅))))))
        \/ ((st ∉ valid_statuses) /\ lg = lg0 ++ [status_warning st]
            /\ t = <["due" := PTime d]>
                   (<["entry" := PTime e]>
                   (<["description" := summary]>
                   (with_uuid uu
                   (<["annotations" := PList (PStr <$> anns)]> ∅)))))).
Proof.
  intros Hc.
  destruct (_parse_gcal_item_desc g) as [[[[anns st] uu]|err] lg0] eqn:Hp.
  2:{ unfold convert_gcal_to_tw in Hc. by rewrite Hp in Hc. }
  destruct (g !! "summary") as [summary|] eqn:Hsum.
  2:{ unfold convert_gcal_to_tw, getitem in Hc. rewrite Hp, Hsum in Hc.
      by destruct (negb _). }
  destruct (read_time g "start") as [e|?] eqn:Hstart.
  2:{ unfold convert_gcal_to_tw, getitem in Hc. rewrite Hp, Hsum, Hstart in Hc.
      by destruct (negb _). }
  destruct (read_time g "end") as [d|?] eqn:Hend.
  2:{ unfold convert_gcal_to_tw, getitem in Hc.
      rewrite Hp, Hsum, Hstart, Hend in Hc. by destruct (negb _). }
  destruct (read_time_inv _ _ _ Hstart) as [e' ->].
  destruct (read_time_inv _ _ _ Hend) as [d' ->].
  exists anns, st, uu, lg0, summary, e', d'.
  repeat (split; [done |]).
  destruct (decide (st ∈ valid_statuses)) as [Hv|Hv].
  - left. rewrite (convert_gcal_to_tw_valid g anns st uu lg0 summary _ _) in Hc
      by done.
    by injection Hc as <- <-.
  - right. rewrite (convert_gcal_to_tw_invalid g anns st uu lg0 summary _ _) in Hc
      by done.
    by injection Hc as <- <-.
Qed.

(** X9.  The task that [convert_gcal_to_tw] returns: it holds annotations,
    description, entry and due, and beyond them at most status and uuid;
    the description is the summary of the event; a status, when there is
    one, is one of the five statuses, and a task comes back without status
    exactly when a warning was logged. *)
Theorem converted_task_shape (g t : item) lg :
  convert_gcal_to_tw g = (Ok t, lg) ->
  ({["annotations"; "description"; "entry"; "due"]} : gset string) ⊆ dom t
  /\ dom t ⊆ written_keys
  /\ t !! "description" = g !! "summary"
  /\ (exists anns, t !! "annotations" = Some (PList (PStr <$> anns)))
  /\ (exists e d, t !! "entry" = Some (PTime e) /\ t !! "due" = Some (PTime d))
  /\ (forall v, t !! "status" = Some v ->
        exists s, v = PStr s /\ s ∈ valid_statuses)
  /\ (forall v, t !! "uuid" = Some v ->
        exists u, v = PUuid u /\ (u < 2 ^ 128)%N)
  /\ (t !! "status" = None <-> (exists msg, Log WARNING msg ∈ lg)).
Proof.
  intros Hc.
  destruct (convert_gcal_to_tw_inv g t lg Hc)
    as (anns & st & uu & lg0 & summary & e & d & Hp & Hsum & _ & _ & Hcase).
  destruct (parsed_fields_ok g anns st uu lg0 Hp) as (_ & _ & _ & Hu & Hlg).
  simpl in Hu, Hlg.
  destruct Hcase as [(Hv & -> & ->)|(Hv & -> & ->)]; destruct uu as [u|]; simpl.
  all: split;
    [rewrite !dom_insert_L, dom_empty_L; intros k;
     rewrite !elem_of_union, !elem_of_singleton, elem_of_empty; tauto |].
  all: split;
    [rewrite !dom_insert_L, dom_empty_L; unfold written_keys; intros k;
     rewrite !elem_of_union, !elem_of_singleton, elem_of_empty; tauto |].
  all: repeat split.
  all: rewrite ?lookup_insert_ne by done.
  all: rewrite ?lookup_insert_eq.
  all: try done.
  all: try (by eexists).
  all: try (by eexists _, _).
  all: try (intros v [= <-]; by eexists).
  all: try (intros v [= <-]; eexists; split; [done |]; by apply Hu).
  all: try (intros [msg Hin]; by apply no_warning_in_errors in Hin).
  all: try (intros _; eexists; apply elem_of_app; right; by left).
Qed.

(** X10.  [convert_gcal_to_tw] reads four keys of the event: two events that
    agree on description, summary, start and end convert alike. *)
Theorem convert_gcal_to_tw_reads_four_keys (g1 g2 : item) :
  (forall k, k ∈ ["description"; "summary"; "start"; "end"] ->
             g1 !! k = g2 !! k) ->
  convert_gcal_to_tw g1 = convert_gcal_to_tw g2.
Proof.
  intros Hk.
  assert (g1 !! "description" = g2 !! "description") as Hd
    by (apply Hk; apply list_elem_of_In; simpl; tauto).
  assert (g1 !! "summary" = g2 !! "summary") as Hs by (apply Hk; apply list_elem_of_In; simpl; tauto).
  assert (g1 !! "start" = g2 !! "start") as Hb by (apply Hk; apply list_elem_of_In; simpl; tauto).
  assert (g1 !! "end" = g2 !! "end") as He by (apply Hk; apply list_elem_of_In; simpl; tauto).
  unfold convert_gcal_to_tw, _parse_gcal_item_desc, read_time, getitem.
  by rewrite Hd, Hs, Hb, He.
Qed.

End ConverterTheorems.

Section AnnotationRun.
Context `{Host}.
Import PyStr PyStrFacts.

Lemma annotation_run_only l anns idx i acc :
  Forall2 (fun y a => annotation_of y = Some a) l anns ->
  annotation_run idx i l acc
  = (match l with [] => i | _ => (idx + List.length l - 1)%nat end, acc ++ anns).
Proof.
  intros Hl. revert idx i acc.
  induction Hl as [|y a l anns Hy Hl IH]; intros idx i acc; simpl.
  - by rewrite app_nil_r.
  - rewrite Hy, IH, <- app_assoc. simpl. f_equal.
    destruct l; simpl; lia.
Qed.

(** X11.  The annotations that the parser returns are those of the run of
    annotation lines that opens the description after its first line:
    what follows the first line that is no annotation adds none, and a
    description of annotation lines only leaves status and UUID at their
    defaults. *)
Theorem annotations_are_the_leading_run (g : item) desc :
  g !! "description" = Some (PStr desc) ->
  (forall pre x post anns,
      desc_lines desc = pre ++ x :: post ->
      Forall2 (fun y a => annotation_of y = Some a) pre anns ->
      annotation_of x = None ->
      exists st uu lg, _parse_gcal_item_desc g = (Ok (anns, st, uu), lg))
  /\ (forall anns,
        Forall2 (fun y a => annotation_of y = Some a) (desc_lines desc) anns ->
        _parse_gcal_item_desc g = (Ok (anns, "pending", None), [])).
Proof.
  intros Hg. split.
  - intros pre x post anns Hlines Hpre Hx.
    unfold _parse_gcal_item_desc. rewrite Hg, Hlines.
    rewrite (annotation_run_all pre anns x post 0 0 [] Hpre Hx). simpl.
    destruct (_ =? _); [by eexists _, _, _ |].
    destruct (foldl _ _ _) as [[st uu] lg]. by eexists _, _, _.
  - intros anns Hall.
    unfold _parse_gcal_item_desc. rewrite Hg.
    rewrite (annotation_run_only _ anns 0 0 [] Hall). simpl.
    destruct (desc_lines desc) as [|y l] eqn:Hl; simpl.
    + by apply Forall2_nil_inv_l in Hall as ->.
    + rewrite Nat.sub_0_r.
      destruct (Z.eqb_spec (Z.of_nat (List.length l))
                           (Z.of_nat (S (List.length l)) - 1)) as [_|Hne];
        [done | lia].
Qed.

(** X12.  When one line only follows the run of annotation lines, the parser
    returns before it scans that line: status and UUID keep their
    defaults whatever the line holds, and nothing is logged. *)
Theorem lone_last_line_is_not_scanned (g : item) desc pre x anns :
  g !! "description" = Some (PStr desc) ->
  desc_lines desc = pre ++ [x] ->
  Forall2 (fun y a => annotation_of y = Some a) pre anns ->
  annotation_of x = None ->
  _parse_gcal_item_desc g = (Ok (anns, "pending", None), []).
Proof.
  intros Hg Hlines Hpre Hx.
  unfold _parse_gcal_item_desc. rewrite Hg, Hlines.
  rewrite (annotation_run_all pre anns x [] 0 0 [] Hpre Hx). simpl.
  rewrite length_app. simpl.
  destruct (Z.eqb_spec (Z.of_nat (List.length pre))
                       (Z.of_nat (List.length pre + 1) - 1)) as [_|Hne];
    [done | lia].
Qed.

(** ** The layout of a synthesized description *)

Lemma split_annotation_lines i texts :
  Forall (fun s => LF ∉ chars s) texts ->
  split LF (annotation_lines i (PStr <$> texts)) = "" :: numbered i texts.
Proof.
  intros Hl. revert i. induction Hl as [|s r Hs Hr IH]; intros i; [done |].
  rewrite fmap_cons, annotation_lines_cons, split_LF_cons. f_equal.
  cbn [numbered].
  pose proof (annotation_line_LF i s Hs) as Hline.
  specialize (IH (S i)).
  destruct (annotation_lines_shape (S i) (PStr <$> r)) as [Hnil|[w Hw]].
  - rewrite Hnil in IH |- *. rewrite append_nil_r.
    rewrite (split_none _ _ Hline). f_equal.
    simpl in IH. by injection IH as <-.
  - rewrite Hw in IH |- *. rewrite split_LF_cons in IH. injection IH as IH.
    by rewrite split_app, (split_none _ _ Hline), IH.
Qed.

(** X13.  The description of the event of a task, line by line: the title, an
    empty line, the annotations in their order, numbered from one, an
    empty line, the status and the UUID. *)
Theorem description_layout (t g : item) s u texts :
  convert_tw_to_gcal t = Ok g ->
  t !! "status" = Some (PStr s) -> LF ∉ chars s ->
  t !! "uuid" = Some (PUuid u) ->
  default (PList []) (t !! "annotations") = PList (PStr <$> texts) ->
  Forall (fun a => LF ∉ chars a) texts ->
  exists desc,
    g !! "description" = Some (PStr desc)
    /\ split LF desc
       = "IMPORTED FROM TASKWARRIOR" :: "" :: numbered 0 texts
         ++ [""; "* status: " +:+ s; "* uuid: " +:+ Uuid.to_string u].
Proof.
  intros Hg Hs Hlf Hu Hann Htexts.
  destruct (event_of_task t g Hg)
    as (d & st & uu & e & x & fin & _ & Hst & Huu & _ & Hx & _ & ->).
  assert (st = PStr s) as -> by congruence.
  assert (uu = PUuid u) as -> by congruence.
  assert (x = annotation_lines 0 (PStr <$> texts)) as ->.
  { unfold annotation_text in Hx.
    destruct (t !! "annotations") as [v|]; simpl in Hann.
    - subst v. simpl in Hx. by injection Hx as <-.
    - injection Hx as <-. injection Hann as Hann.
      symmetry in Hann. apply fmap_nil_inv in Hann. by subst texts. }
  eexists. split.
  { rewrite !lookup_insert_ne by done. by rewrite lookup_insert_eq. }
  rewrite split_task_description.
  - by rewrite (split_annotation_lines 0 texts Htexts).
  - unfold status_line. cbn [py_str]. rewrite chars_app.
    apply not_elem_of_app. split; [by apply not_in_chars | done].
  - apply uuid_line_plain.
Qed.

End AnnotationRun.

Section RegisterMore.
Context `{Host} `{Stores}.
Import Bidict BidictFacts.

Lemma setitem_new k v b :
  hashable k = true -> hashable v = true ->
  k ∉ b.*1 -> v ∉ b.*2 -> setitem k v b = Ok (b ++ [(k, v)]).
Proof.
  intros Hk Hv Hkb Hvb. unfold setitem. rewrite Hk, Hv. simpl.
  rewrite bool_decide_eq_false_2.
  2:{ intros Hin. apply Hkb. apply list_elem_of_fmap. by exists (k, v). }
  rewrite (proj2 (has_value_false v b)) by done.
  by rewrite (proj2 (has_key_false k b)).
Qed.

(** The body of the loop on an item that is new and whose addition
    succeeds. *)
Lemma register_item_new ty tk otk (it : item) a v conv l reg g new_id :
  it !! tk = Some v ->
  has_key (PStr (py_str v)) (view ty (tw_gcal_ids a)) = false ->
  convert_fun ty it = (Ok conv, l) ->
  gcal_add_item conv (gcal_side a) = (Ok reg, g) ->
  reg !! otk = Some new_id ->
  hashable new_id = true ->
  new_id ∉ (view ty (tw_gcal_ids a)).*2 ->
  register_item ty GcalSide tk otk it a
  = (Ok tt,
     {| config := config a; tw_side := tw_side a; gcal_side := g;
        tw_gcal_ids :=
          view ty (view ty (tw_gcal_ids a) ++ [(PStr (py_str v), new_id)]);
        logs := (logs a ++ [Log INFO ("Inserting item, [" +:+ ty +:+ "] id: "
                                      +:+ py_str v +:+ "...")]) ++ l;
        journal := journal a ++ [EvAdd GcalSide conv] |}).
Proof.
  intros Hit Hk Hconv Hadd Hreg Hh Hfresh.
  unfold register_item, bind, lift, getitem, registered_ids, gets.
  rewrite Hit. simpl. rewrite Hk. simpl.
  unfold convert, log, log_all, modify, bind, lift. rewrite Hconv. simpl.
  rewrite Hadd. simpl. rewrite Hreg. simpl.
  unfold registered_ids_set, registered_ids, set_ids, gets, modify, bind, lift.
  simpl.
  rewrite (setitem_new (PStr (py_str v)) new_id) by (done || by apply has_key_false).
  done.
Qed.

(** The body of the loop on an item that is new, when the store added it
    and the table cannot take the identifier of the stored item. *)
Lemma register_item_orphan ty tk otk (it : item) a v conv l reg g e :
  it !! tk = Some v ->
  has_key (PStr (py_str v)) (view ty (tw_gcal_ids a)) = false ->
  convert_fun ty it = (Ok conv, l) ->
  gcal_add_item conv (gcal_side a) = (Ok reg, g) ->
  match reg !! otk with
  | None => e = KeyError otk
  | Some new_id =>
      setitem (PStr (py_str v)) new_id (view ty (tw_gcal_ids a)) = Raise e
  end ->
  register_item ty GcalSide tk otk it a
  = (Raise e,
     {| config := config a; tw_side := tw_side a; gcal_side := g;
        tw_gcal_ids := tw_gcal_ids a;
        logs := (logs a ++ [Log INFO ("Inserting item, [" +:+ ty +:+ "] id: "
                                      +:+ py_str v +:+ "...")]) ++ l;
        journal := journal a ++ [EvAdd GcalSide conv] |}).
Proof.
  intros Hit Hk Hconv Hadd Hreg.
  unfold register_item, bind, lift, getitem, registered_ids, gets.
  rewrite Hit. simpl. rewrite Hk. simpl.
  unfold convert, log, log_all, modify, bind, lift. rewrite Hconv. simpl.
  rewrite Hadd. simpl.
  destruct (reg !! otk) as [new_id|]; simpl; [| by subst].
  unfold registered_ids_set, registered_ids, set_ids, gets, modify, bind, lift.
  simpl. by rewrite Hreg.
Qed.

(** How many calls and how many entries one round of the loop adds. *)
Lemma register_item_count ty tk otk (it : item) a r a' :
  register_item ty GcalSide tk otk it a = (r, a') ->
  exists evs new,
    journal a' = journal a ++ evs
    /\ view ty (tw_gcal_ids a') = view ty (tw_gcal_ids a) ++ new
    /\ (length evs <= 1)%nat
    /\ ((r = Ok tt /\ length evs = length new)
        \/ (exists e, r = Raise e /\ new = [])).
Proof.
  unfold register_item, bind, lift, getitem, registered_ids, gets.
  destruct (it !! tk) as [v|] eqn:Hit.
  2:{ intros [= <- <-]. exists [], []. rewrite !app_nil_r.
      split; [done |]. split; [done |]. split; [simpl; lia |].
      right. by eexists. }
  simpl. destruct (has_key _ _) eqn:Hk; simpl.
  { intros [= <- <-]. exists [], []. rewrite !app_nil_r.
    split; [done |]. split; [done |]. split; [simpl; lia |]. by left. }
  unfold convert, log, log_all, modify, bind, lift. simpl.
  destruct (convert_fun ty it) as [[conv|e] l]; simpl.
  2:{ intros [= <- <-]. exists [], []. simpl. rewrite !app_nil_r.
      split; [done |]. split; [done |]. split; [lia |].
      right. by eexists. }
  destruct (gcal_add_item conv _) as [[reg|e] g] eqn:Hadd; simpl.
  2:{ intros [= <- <-]. exists [EvAdd GcalSide conv], []. simpl.
      rewrite !app_nil_r.
      split; [done |]. split; [done |]. split; [lia |].
      right. by eexists. }
  destruct (reg !! otk) as [new_id|]; simpl.
  2:{ intros [= <- <-]. exists [EvAdd GcalSide conv], []. simpl.
      rewrite !app_nil_r.
      split; [done |]. split; [done |]. split; [lia |].
      right. by eexists. }
  unfold registered_ids_set, registered_ids, set_ids, gets, modify, bind, lift.
  simpl.
  destruct (setitem _ new_id _) as [b'|e] eqn:Hset; simpl.
  2:{ intros [= <- <-]. exists [EvAdd GcalSide conv], []. simpl.
      rewrite !app_nil_r.
      split; [done |]. split; [done |]. split; [lia |].
      right. by eexists. }
  intros [= <- <-]. simpl.
  apply has_key_false in Hk.
  destruct (setitem_fresh _ _ _ _ Hk Hset) as [-> Hfresh].
  eexists _, _. split; [done |]. rewrite view_involutive.
  split; [done |]. split; [simpl; lia |]. by left.
Qed.

Lemma register_loop_count ty tk otk items a r a' :
  register_loop ty GcalSide tk otk items a = (r, a') ->
  exists evs new,
    journal a' = journal a ++ evs
    /\ view ty (tw_gcal_ids a') = view ty (tw_gcal_ids a) ++ new
    /\ (length evs <= length items)%nat
    /\ (length new <= length evs <= length new + 1)%nat
    /\ (r = Ok tt -> length evs = length new).
Proof.
  revert a. induction items as [|it items IH]; intros a.
  - intros [= <- <-]. exists [], []. rewrite !app_nil_r. simpl.
    repeat split; (done || lia).
  - rewrite register_loop_cons.
    destruct (register_item ty GcalSide tk otk it a) as [r1 a1] eqn:H1.
    destruct (register_item_count _ _ _ _ _ _ _ H1)
      as (evs1 & new1 & Hj1 & Hn1 & Hone & Hcase).
    destruct Hcase as [[-> Hlen]|(e & -> & ->)].
    + intros Hrest.
      destruct (IH a1 Hrest) as (evs & new & Hj & Hn & Hle & Hb & Hok).
      exists (evs1 ++ evs), (new1 ++ new).
      rewrite Hj, Hj1, Hn, Hn1, <- !app_assoc, !length_app. simpl.
      repeat split; (done || lia || idtac).
      intros Hr. specialize (Hok Hr). lia.
    + intros [= <- <-]. exists evs1, [].
      rewrite app_nil_r in *. simpl.
      repeat split; (done || lia).
Qed.

End RegisterMore.

Section RegisterMoreTheorems.
Context `{Host} `{Stores}.
Import Bidict BidictFacts.

(** X14.  [register_items] never calls the task store: whichever side the
    items come from, the task side and the configuration are left as they
    are and every call that reaches a store is an [add_item] on the
    calendar side. *)
Theorem register_items_never_calls_the_task_store items ty a r a' :
  register_items items ty a = (r, a') ->
  tw_side a' = tw_side a /\ config a' = config a
  /\ exists evs, journal a' = journal a ++ evs /\ Forall is_gcal_add evs.
Proof.
  intros [[-> _]|(tk & otk & _ & _ & _ & Hloop)]%register_items_inv.
  - split; [done |]. split; [done |]. exists []. by rewrite app_nil_r.
  - by destruct (register_loop_inv _ _ _ _ _ _ _ Hloop) as (? & ? & ? & _).
Qed.

(** X15.  An item that is not in the table, that converts, that the calendar
    stores and whose stored form carries an identifier that the table
    does not hold yet: one call to the calendar, one entry at the end of
    the table, one log record ahead of those of the conversion. *)
Theorem new_item_is_added_and_recorded
    items (it : item) ty a a1 tk otk v conv l reg g new_id :
  register_items items ty a = (Ok tt, a1) ->
  config a !! (ty +:+ "_id_key") = Some tk ->
  config a !! (opposite ty +:+ "_id_key") = Some otk ->
  it !! tk = Some v ->
  has_key (PStr (py_str v)) (view ty (tw_gcal_ids a1)) = false ->
  convert_fun ty it = (Ok conv, l) ->
  gcal_add_item conv (gcal_side a1) = (Ok reg, g) ->
  reg !! otk = Some new_id ->
  hashable new_id = true ->
  new_id ∉ (view ty (tw_gcal_ids a1)).*2 ->
  exists a',
    register_items (items ++ [it]) ty a = (Ok tt, a')
    /\ view ty (tw_gcal_ids a')
       = view ty (tw_gcal_ids a1) ++ [(PStr (py_str v), new_id)]
    /\ journal a' = journal a1 ++ [EvAdd GcalSide conv]
    /\ logs a'
       = (logs a1 ++ [Log INFO ("Inserting item, [" +:+ ty +:+ "] id: "
                                +:+ py_str v +:+ "...")]) ++ l
    /\ gcal_side a' = g /\ tw_side a' = tw_side a1.
Proof.
  intros Hrun Htk Hotk Hit Hk Hconv Hadd Hreg Hh Hfresh.
  apply register_items_inv in Hrun
    as [[_ [e' ?]]|(tk' & otk' & Hty & Htk' & Hotk' & Hloop)]; [done |].
  assert (tk' = tk) as -> by congruence.
  assert (otk' = otk) as -> by congruence.
  rewrite (register_items_eq _ ty a tk otk) by done.
  rewrite register_loop_app, Hloop, register_loop_cons.
  rewrite (register_item_new ty tk otk it a1 v conv l reg g new_id) by done.
  eexists. split; [done |]. simpl. by rewrite view_involutive.
Qed.

(** X16.  The store has added the item and the table then refuses its
    identifier, because the stored item has none under the key of the
    other side or because the table binds it already: the error leaves
    [register_items], the item stays in the store and the table has no
    entry for it. *)
Theorem refused_identifier_leaves_an_orphan
    items (it : item) rest ty a a1 tk otk v conv l reg g e :
  register_items items ty a = (Ok tt, a1) ->
  config a !! (ty +:+ "_id_key") = Some tk ->
  config a !! (opposite ty +:+ "_id_key") = Some otk ->
  it !! tk = Some v ->
  has_key (PStr (py_str v)) (view ty (tw_gcal_ids a1)) = false ->
  convert_fun ty it = (Ok conv, l) ->
  gcal_add_item conv (gcal_side a1) = (Ok reg, g) ->
  match reg !! otk with
  | None => e = KeyError otk
  | Some new_id =>
      setitem (PStr (py_str v)) new_id (view ty (tw_gcal_ids a1)) = Raise e
  end ->
  exists a',
    register_items (items ++ it :: rest) ty a = (Raise e, a')
    /\ tw_gcal_ids a' = tw_gcal_ids a1
    /\ journal a' = journal a1 ++ [EvAdd GcalSide conv]
    /\ gcal_side a' = g.
Proof.
  intros Hrun Htk Hotk Hit Hk Hconv Hadd Hreg.
  apply register_items_inv in Hrun
    as [[_ [e' ?]]|(tk' & otk' & Hty & Htk' & Hotk' & Hloop)]; [done |].
  assert (tk' = tk) as -> by congruence.
  assert (otk' = otk) as -> by congruence.
  rewrite (register_items_eq _ ty a tk otk) by done.
  rewrite register_loop_app, Hloop, register_loop_cons.
  rewrite (register_item_orphan ty tk otk it a1 v conv l reg g e) by done.
  by eexists.
Qed.

(** X17.  The calls that reach the calendar and the entries that the table
    gains: as many of each when [register_items] returns, at most one
    call more than entries when it raises, and never more calls than
    items. *)
Theorem calls_and_entries_match items ty a r a' :
  register_items items ty a = (r, a') ->
  exists calls entries,
    journal a' = journal a ++ calls
    /\ view ty (tw_gcal_ids a') = view ty (tw_gcal_ids a) ++ entries
    /\ (length calls <= length items)%nat
    /\ (length entries <= length calls <= length entries + 1)%nat
    /\ (r = Ok tt -> length calls = length entries).
Proof.
  intros [[-> _]|(tk & otk & _ & _ & _ & Hloop)]%register_items_inv.
  - exists [], []. rewrite !app_nil_r. simpl. repeat split; (done || lia).
  - by apply (register_loop_count ty tk otk).
Qed.

(** X18.  After a run that returned, items whose identifiers occurred in the
    run are skipped: appending them to the list changes neither the
    result nor the state. *)
Theorem repeated_identifiers_are_skipped items more ty a a' tk :
  register_items items ty a = (Ok tt, a') ->
  config a !! (ty +:+ "_id_key") = Some tk ->
  (forall it, it ∈ more ->
     exists it0, it0 ∈ items /\ is_Some (it !! tk)
                 /\ py_str <$> it !! tk = py_str <$> it0 !! tk) ->
  register_items (items ++ more) ty a = (Ok tt, a').
Proof.
  intros Hrun Htk Hmore.
  apply register_items_inv in Hrun
    as [[_ [e' ?]]|(tk' & otk & Hty & Htk' & Hotk & Hloop)]; [done |].
  assert (tk' = tk) as -> by congruence.
  rewrite (register_items_eq _ ty a tk otk) by done.
  rewrite register_loop_app, Hloop.
  destruct (register_loop_inv _ _ _ _ _ _ _ Hloop) as (_ & _ & _ & _ & _ & Hk).
  apply register_loop_skip. intros it Hin.
  destruct (Hmore it Hin) as (it0 & Hin0 & [v Hv] & Heq).
  destruct (Hk eq_refl it0 Hin0) as (v0 & Hv0 & Hkey).
  exists v. split; [done |].
  rewrite Hv, Hv0 in Heq. simpl in Heq. injection Heq as ->. done.
Qed.

(** X19.  [register_items] refuses a side other than "tw" and "gcal" by its
    assertion, and stops with [KeyError] at the first item that lacks the
    identifier key of its side, the items before it being registered. *)
Theorem register_items_rejects :
  (forall items ty a,
      ty ∉ ["tw"; "gcal"] ->
      register_items items ty a = (Raise AssertionError, a))
  /\ (forall items (it : item) rest ty a a1 tk,
        register_items items ty a = (Ok tt, a1) ->
        config a !! (ty +:+ "_id_key") = Some tk ->
        it !! tk = None ->
        register_items (items ++ it :: rest) ty a = (Raise (KeyError tk), a1)).
Proof.
  split.
  - intros items ty a Hty. unfold register_items, raise.
    by rewrite (bool_decide_eq_false_2 _ Hty).
  - intros items it rest ty a a1 tk Hrun Htk Hit.
    apply register_items_inv in Hrun
      as [[_ [e' ?]]|(tk' & otk & Hty & Htk' & Hotk & Hloop)]; [done |].
    assert (tk' = tk) as -> by congruence.
    rewrite (register_items_eq _ ty a tk otk) by done.
    rewrite register_loop_app, Hloop, register_loop_cons.
    unfold register_item, bind, lift, getitem. by rewrite Hit.
Qed.

End RegisterMoreTheorems.

Section SidesTheorems.
Context `{Host} `{Stores}.

Lemma union_default_present (kargs : gmap string pyval) k v d :
  kargs !! k = Some v -> kargs ∪ {[k := d]} = kargs.
Proof.
  intros Hk. apply map_eq. intros i. rewrite lookup_union.
  destruct (decide (i = k)) as [->|Hne].
  - by rewrite Hk, lookup_singleton_eq.
  - rewrite lookup_singleton_ne by done. by destruct (kargs !! i).
Qed.

Lemma TaskWarriorSide_init_cases (kargs : gmap string pyval) :
  (kargs !! "tags" = None ->
   TaskWarriorSide_init kargs
   = (Ok {| tws_config := <["tags" := PStr ""]> kargs; tw := TaskWarrior |}, []))
  /\ (forall tag, kargs !! "tags" = Some (PStr tag) ->
      TaskWarriorSide_init kargs
      = (Ok {| tws_config := kargs; tw := TaskWarrior |}, []))
  /\ (forall v, kargs !! "tags" = Some v -> (forall tag, v <> PStr tag) ->
      exists msg,
        TaskWarriorSide_init kargs = (Raise RuntimeError, [Log FATAL msg])).
Proof.
  unfold TaskWarriorSide_init. split; [| split].
  - intros Hk. rewrite <- insert_union_singleton_r by done.
    by rewrite lookup_insert_eq.
  - intros tag Hk. rewrite (union_default_present _ _ _ _ Hk). by rewrite Hk.
  - intros v Hk Hv. rewrite (union_default_present _ _ _ _ Hk). rewrite Hk.
    destruct v as [s| | | | |]; try by eexists.
    by destruct (Hv s).
Qed.

Lemma TaskWarriorSide_init_inv (kargs : gmap string pyval) s l :
  TaskWarriorSide_init kargs = (Ok s, l) ->
  l = [] /\ tw s = TaskWarrior
  /\ exists tag,
       tws_config s !! "tags" = Some (PStr tag)
       /\ (kargs !! "tags" = Some (PStr tag)
           \/ kargs !! "tags" = None /\ tag = "").
Proof.
  destruct (TaskWarriorSide_init_cases kargs) as (Hnone & Hstr & Hbad).
  destruct (kargs !! "tags") as [v|] eqn:Hk.
  - destruct v as [tag| | | | |];
      try (destruct (Hbad _ eq_refl) as [msg ->]; done).
    rewrite (Hstr tag eq_refl). intros [= <- <-].
    split; [done |]. split; [done |]. exists tag. simpl. split; [done |].
    by left.
  - rewrite (Hnone eq_refl). intros [= <- <-].
    split; [done |]. split; [done |]. exists "". simpl.
    split; [apply lookup_insert_eq |]. by right.
Qed.

(** X20.  The constructor of [TaskWarriorSide] takes no tag, which leaves the
    default empty tag, or one tag that is a string; its configuration is
    then the arguments it was given.  A tag of any other type, a list of
    tags for one, raises [RuntimeError] after one fatal log record.  It
    never raises [KeyError]. *)
Theorem tw_side_takes_a_string_tag (kargs : gmap string pyval) :
  (kargs !! "tags" = None ->
   TaskWarriorSide_init kargs
   = (Ok {| tws_config := <["tags" := PStr ""]> kargs; tw := TaskWarrior |}, []))
  /\ (forall tag, kargs !! "tags" = Some (PStr tag) ->
      TaskWarriorSide_init kargs
      = (Ok {| tws_config := kargs; tw := TaskWarrior |}, []))
  /\ (forall v, kargs !! "tags" = Some v -> (forall tag, v <> PStr tag) ->
      exists msg,
        TaskWarriorSide_init kargs = (Raise RuntimeError, [Log FATAL msg])).
Proof. exact (TaskWarriorSide_init_cases kargs). Qed.

(** X21.  [add_item] on an item without [description] fails its assertion and
    does nothing else.  On an item whose [description] and [desscription]
    are strings it logs one record and calls the task store once, with
    the description and with the other fields of the item, the
    misspelled one among them; what the store returns or raises is what
    [add_item] returns or raises. *)
Theorem tw_add_item_adds_the_task :
  (forall (it : item) st,
      it !! "description" = None ->
      TaskWarriorSide_add_item it st = (Raise AssertionError, st))
  /\ (forall (it : item) text d s lg evs,
        it !! "description" = Some (PStr text) ->
        it !! "desscription" = Some (PStr d) ->
        let rest := delete "description" it in
        rest !! "description" = None
        /\ rest !! "desscription" = Some (PStr d)
        /\ exists msg,
             TaskWarriorSide_add_item it (s, lg, evs)
             = ((task_add (PStr text) rest (tw s)).1,
                ({| tws_config := tws_config s;
                    tw := (task_add (PStr text) rest (tw s)).2 |},
                 lg ++ [Log INFO msg],
                 evs ++ [EvAdd TwSide it]))).
Proof.
  split.
  - intros it st Hnone. unfold TaskWarriorSide_add_item, raise.
    rewrite Hnone. rewrite bool_decide_eq_false_2; [done |]. by intros [? ?].
  - intros it text d s lg evs Htext Hd rest.
    split; [apply lookup_delete_eq |].
    split; [unfold rest; by rewrite lookup_delete_ne |].
    eexists.
    unfold TaskWarriorSide_add_item, bind, lift, getitem, modify.
    rewrite Htext, Hd. rewrite bool_decide_eq_true_2 by done. simpl.
    fold rest. by destruct (task_add (PStr text) rest (tw s)).
Qed.

(** X22.  A [TWGCalAggregator] that its constructor built: the identifier keys
    are [uuid] and [htmlLink], the table is the one of the preferences or
    an empty one, nothing was logged and no store was called.  The
    calendar side was built from the configuration of the task side and
    the directory of the preferences: the configuration given for the
    calendar is not read. *)
Theorem aggregator_init_result
    (tw_config gcal_config : gmap string pyval) stored dir a l :
  TWGCalAggregator_init tw_config gcal_config stored dir = (Ok a, l) ->
  config a !! "tw_id_key" = Some "uuid"
  /\ config a !! "gcal_id_key" = Some "htmlLink"
  /\ tw_gcal_ids a = default [] stored
  /\ l = [] /\ logs a = [] /\ journal a = []
  /\ TaskWarriorSide_init tw_config = (Ok (tw_side a), [])
  /\ GCalSide (tw_config ∪ {["credentials_dir" := PStr dir]}) = Ok (gcal_side a)
  /\ (forall other,
        TWGCalAggregator_init tw_config other stored dir = (Ok a, l)).
Proof.
  unfold TWGCalAggregator_init.
  destruct (TaskWarriorSide_init tw_config) as [[s|e] l0] eqn:Hs; [| done].
  destruct (TaskWarriorSide_init_inv _ _ _ Hs) as (-> & _).
  destruct (GCalSide _) as [g|e] eqn:Hg; [| done].
  intros [= <- <-]. simpl. by repeat split.
Qed.

End SidesTheorems.

Section ListingTheorems.
Context `{Host} `{Stores}.
Variable filter_tasks :
  gmap string pyval -> tw_client -> result (list item) * tw_client.

(** X23.  On a side that its constructor built, [get_items] finds the tag in
    the configuration and asks the task store for the tasks under a
    filter that holds this tag and nothing else. *)
Theorem get_items_filters_by_the_tag (kargs : gmap string pyval) s l :
  TaskWarriorSide_init kargs = (Ok s, l) ->
  exists tag,
    (kargs !! "tags" = Some (PStr tag) \/ kargs !! "tags" = None /\ tag = "")
    /\ TaskWarriorSide_get_items filter_tasks s
       = ((filter_tasks {["tags" := PStr tag]} (tw s)).1,
          {| tws_config := tws_config s;
             tw := (filter_tasks {["tags" := PStr tag]} (tw s)).2 |}).
Proof.
  intros Hinit.
  destruct (TaskWarriorSide_init_inv kargs s l Hinit)
    as (_ & _ & tag & Htag & Hk).
  exists tag. split; [done |].
  unfold TaskWarriorSide_get_items, getitem. rewrite Htag.
  change (<["tags" := PStr tag]> (∅ : gmap string pyval))
    with ({["tags" := PStr tag]} : gmap string pyval).
  by destruct (filter_tasks _ _).
Qed.

End ListingTheorems.

Section MainMore.
Context `{Host} `{Stores}.
Variable start : M aggregator unit.
Variable get_all_items : side_ref -> option string -> bool -> M aggregator (list item).
Variable synchronise_deleted_items : string -> M aggregator unit.
Variable stored_ids : option Bidict.t.
Variable prefs_dir : string.

(** X24.  [main] raises [RuntimeError] whatever it is given, and no call
    reaches a store: no tags and several tags stop at the first check,
    one tag stops in the constructor of the task side. *)
Theorem main_never_reaches_a_store gcal_calendar tw_tags order_by ascending_order :
  exists l,
    main start get_all_items synchronise_deleted_items stored_ids prefs_dir
         gcal_calendar tw_tags order_by ascending_order
    = (Raise RuntimeError, l, []).
Proof.
  destruct tw_tags as [|t1 [|t2 rest]]; by eexists.
Qed.

End MainMore.

(* ===================================================================== *)
(** * Comparison of a task with an event *)
(* ===================================================================== *)

Section CompareFacts.
Context `{Host}.

Lemma py_eqb_str a s : py_eqb a (PStr s) = true -> a = PStr s.
Proof. destruct a; simpl; try done. by intros ->%String.eqb_eq. Qed.

Lemma py_eqb_plain a b : plain b = true -> py_eqb a b = true <-> a = b.
Proof.
  intros Hb. destruct b as [s|n|u|t|l'|d']; try done.
  - split; [apply py_eqb_str | intros ->; simpl; apply String.eqb_refl].
  - destruct a; simpl; try (split; [done | congruence]).
    rewrite Z.eqb_eq. split; congruence.
  - destruct a; simpl; try (split; [done | congruence]).
    rewrite N.eqb_eq. split; congruence.
  - destruct a; simpl; try (split; [done | congruence]).
    rewrite Z.eqb_eq. split; congruence.
  - destruct a as [| | | |l|]; try (split; [done | congruence]).
    simpl in Hb. cbn [py_eqb].
    enough ((fix go (l l' : list pyval) {struct l} : bool :=
               match l, l' with
               | [], [] => true
               | x :: r, y :: r' => py_eqb x y && go r r'
               | _, _ => false
               end) l l' = true <-> l = l') as ->
      by (split; congruence).
    revert l' Hb. induction l as [|x l IH]; intros [|y l'] Hb; try done.
    simpl in Hb. apply andb_true_iff in Hb as [Hy Hl'].
    destruct y as [s| | | | |]; try done.
    rewrite andb_true_iff, (IH l' Hl'). split.
    + intros [->%py_eqb_str ->]. done.
    + intros [= -> ->]. split; [| done]. simpl. apply String.eqb_refl.
Qed.

Lemma lookup_changes (t out : item) k :
  changes t out !! k
  = match t !! k, out !! k with
    | Some a, Some b => if py_eqb a b then None else Some (a, b)
    | _, _ => None
    end.
Proof.
  unfold changes. rewrite lookup_merge.
  by destruct (t !! k), (out !! k).
Qed.

Lemma diff_keys_empty (t out : item) : diff_keys t out = ∅ <-> dom t = dom out.
Proof.
  unfold diff_keys. split.
  - intros Hd. apply set_eq. intros k.
    destruct (decide (k ∈ dom t)) as [Ht|Ht], (decide (k ∈ dom out)) as [Ho|Ho];
      try tauto; exfalso.
    + assert (k ∈ (∅ : gset string)) as Hk; [| by apply elem_of_empty in Hk].
      rewrite <- Hd. apply elem_of_union. left. by apply elem_of_difference.
    + assert (k ∈ (∅ : gset string)) as Hk; [| by apply elem_of_empty in Hk].
      rewrite <- Hd. apply elem_of_union. right. by apply elem_of_difference.
  - intros ->. apply set_eq. intros k.
    rewrite elem_of_union, !elem_of_difference, elem_of_empty. tauto.
Qed.

(** Every value of a task that [convert_gcal_to_tw] built out of an event
    whose summary is a string is plain. *)
Lemma converted_values_plain (g out : item) lg s :
  g !! "summary" = Some (PStr s) ->
  convert_gcal_to_tw g = (Ok out, lg) ->
  forall k v, out !! k = Some v -> plain v = true.
Proof.
  intros Hs Hc.
  destruct (convert_gcal_to_tw_inv g out lg Hc)
    as (anns & st & uu & lg0 & summary & e & d & _ & Hsum & _ & _ & Hcase).
  assert (summary = PStr s) as -> by congruence.
  assert (plain (PList (PStr <$> anns)) = true) as Hanns.
  { simpl. clear. induction anns; simpl; done. }
  intros k v.
  destruct Hcase as [(_ & _ & ->)|(_ & _ & ->)]; destruct uu as [u|]; simpl.
  all: rewrite ?lookup_insert_Some, lookup_empty.
  all: intros Hk; repeat (destruct Hk as [[_ <-]|[_ Hk]]; [done |]); try done.
  all: rewrite ?lookup_insert_Some, ?lookup_empty in Hk.
  all: repeat (destruct Hk as [[_ <-]|[_ Hk]]; [done |]); done.
Qed.

Lemma compare_nothing_iff (t g : item) lg s :
  g !! "summary" = Some (PStr s) ->
  compare_tw_gcal_items t g = (Ok (∅, ∅), lg) <-> convert_gcal_to_tw g = (Ok t, lg).
Proof.
  intros Hs. unfold compare_tw_gcal_items.
  destruct (convert_gcal_to_tw g) as [[out|e] lg'] eqn:Hc; [| split; done].
  pose proof (converted_values_plain g out lg' s Hs Hc) as Hplain.
  split.
  - intros [= Hd Hch <-]. f_equal. f_equal. symmetry.
    apply diff_keys_empty in Hd.
    apply map_eq. intros k.
    pose proof (lookup_changes t out k) as Hk. rewrite Hch, lookup_empty in Hk.
    destruct (out !! k) as [b|] eqn:Hb.
    + assert (is_Some (t !! k)) as [a Ha].
      { apply elem_of_dom. rewrite Hd. apply elem_of_dom. by eexists. }
      rewrite Ha in Hk |- *.
      destruct (py_eqb a b) eqn:Hab; [| done].
      apply (py_eqb_plain a b (Hplain k b Hb)) in Hab. by subst.
    + apply not_elem_of_dom. rewrite Hd. by apply not_elem_of_dom.
  - intros [= -> <-].
    assert (diff_keys t t = ∅) as -> by (by apply diff_keys_empty).
    assert (changes t t = ∅) as ->; [| done].
    apply map_eq. intros k. rewrite lookup_changes, lookup_empty.
    destruct (t !! k) as [a|] eqn:Ha; [| done].
    by rewrite (proj2 (py_eqb_plain a a (Hplain k a Ha)) eq_refl).
Qed.

End CompareFacts.

Section CompareTheorems.
Context `{Host}.

(** X25.  [compare_tw_gcal_items] reports a key as changed only when both the
    task and the converted event hold it with values that differ; such a
    key is never among the keys reported as held on one side only. *)
Theorem reported_changes_are_real (t g : item) dk ch lg :
  compare_tw_gcal_items t g = (Ok (dk, ch), lg) ->
  exists out,
    convert_gcal_to_tw g = (Ok out, lg)
    /\ dk = diff_keys t out
    /\ (forall k, k ∈ dk <-> (is_Some (t !! k) /\ out !! k = None)
                             \/ (t !! k = None /\ is_Some (out !! k)))
    /\ (forall k a b, ch !! k = Some (a, b) <->
          t !! k = Some a /\ out !! k = Some b /\ py_eqb a b = false)
    /\ dom ch ## dk.
Proof.
  unfold compare_tw_gcal_items.
  destruct (convert_gcal_to_tw g) as [[out|e] lg'] eqn:Hc; [| done].
  intros [= <- <- <-]. exists out. split; [done |]. split; [done |].
  assert (forall k a b, changes t out !! k = Some (a, b) <->
            t !! k = Some a /\ out !! k = Some b /\ py_eqb a b = false) as Hch.
  { intros k a b. rewrite lookup_changes.
    destruct (t !! k) as [x|], (out !! k) as [y|];
      try (split; [done | by intros (? & ? & ?)]).
    destruct (py_eqb x y) eqn:Hxy.
    - split; [done |]. intros ([= ->] & [= ->] & ?). congruence.
    - split; [by intros [= -> ->] | by intros ([= ->] & [= ->] & _)]. }
  assert (forall k, k ∈ diff_keys t out <->
            (is_Some (t !! k) /\ out !! k = None)
            \/ (t !! k = None /\ is_Some (out !! k))) as Hdk.
  { intros k. unfold diff_keys.
    rewrite elem_of_union, !elem_of_difference, !elem_of_dom.
    rewrite <- !eq_None_not_Some. tauto. }
  split; [done |]. split; [done |].
  intros k [[a b] Hk]%elem_of_dom Hin.
  apply Hch in Hk as (Ha & Hb & _). apply Hdk in Hin.
  destruct Hin as [[_ Hn]|[Hn _]]; congruence.
Qed.

(** X26.  For an event whose summary is a string, [compare_tw_gcal_items]
    reports no key at all exactly when the task is the one that
    [convert_gcal_to_tw] makes of the event. *)
Theorem nothing_reported_iff_same_task (t g : item) lg s :
  g !! "summary" = Some (PStr s) ->
  compare_tw_gcal_items t g = (Ok (∅, ∅), lg) <-> convert_gcal_to_tw g = (Ok t, lg).
Proof. apply compare_nothing_iff. Qed.

End CompareTheorems.

(* ===================================================================== *)
(** * Conversions in a row *)
(* ===================================================================== *)

Section BackConversion.
Context `{Host}.
Import PyStr PyStrFacts.

Lemma annotation_text_of_strings (t : item) anns :
  t !! "annotations" = Some (PList (PStr <$> anns)) ->
  annotation_text t = Ok (annotation_lines 0 (PStr <$> anns)).
Proof. intros Ha. unfold annotation_text. by rewrite Ha. Qed.

(** X27.  An event converted to a task and back.  Without a description, as an
    event made in the calendar has none, the task has no UUID and the
    conversion back fails its assertion.  When the task has both status
    and UUID the conversion back succeeds, keeps the summary and renders
    the two instants that were parsed. *)
Theorem event_to_task_and_back (g t : item) lg :
  convert_gcal_to_tw g = (Ok t, lg) ->
  (g !! "description" = None -> convert_tw_to_gcal t = Raise AssertionError)
  /\ (t !! "uuid" = None \/ t !! "status" = None ->
      convert_tw_to_gcal t = Raise AssertionError)
  /\ (is_Some (t !! "uuid") -> is_Some (t !! "status") ->
      exists g' e d,
        convert_tw_to_gcal t = Ok g'
        /\ g' !! "summary" = g !! "summary"
        /\ read_time g "start" = Ok (PTime e)
        /\ g' !! "start" = Some (date_time e)
        /\ read_time g "end" = Ok (PTime d)
        /\ g' !! "end" = Some (date_time d)).
Proof.
  intros Hc.
  assert (forall k, k ∈ ["description"; "status"; "uuid"] -> t !! k = None ->
                    convert_tw_to_gcal t = Raise AssertionError) as Hmiss.
  { intros k Hk Hnone. unfold convert_tw_to_gcal. cbn [forallb].
    repeat (apply elem_of_cons in Hk as [->|Hk]);
      [| | | by apply elem_of_nil in Hk];
      rewrite Hnone;
      rewrite (bool_decide_eq_false_2 (is_Some None)) by (by intros [? ?]);
      by rewrite ?andb_false_r. }
  destruct (convert_gcal_to_tw_inv g t lg Hc)
    as (anns & st & uu & lg0 & summary & e & d & Hp & Hsum & Hstart & Hend & Hcase).
  split; [| split].
  - intros Hnone. apply (Hmiss "uuid"); [apply list_elem_of_In; simpl; tauto |].
    unfold _parse_gcal_item_desc in Hp. rewrite Hnone in Hp.
    injection Hp as <- <- <- <-.
    destruct Hcase as [(_ & _ & ->)|(_ & _ & ->)]; simpl;
      by rewrite !lookup_insert_ne by done.
  - intros [Hn|Hn]; [apply (Hmiss "uuid") | apply (Hmiss "status")];
      (done || (apply list_elem_of_In; simpl; tauto)).
  - intros [u Hu] [s Hs].
    assert (t !! "description" = Some summary
            /\ t !! "entry" = Some (PTime e) /\ t !! "due" = Some (PTime d)
            /\ t !! "annotations" = Some (PList (PStr <$> anns)))
      as (Hd & He & Hdue & Hann).
    { destruct Hcase as [(_ & _ & ->)|(_ & _ & ->)]; destruct uu; simpl;
        repeat split;
        rewrite ?lookup_insert_ne by done; by rewrite lookup_insert_eq. }
    eexists _, e, d. split.
    { apply (convert_tw_to_gcal_ok t summary s u e
               (annotation_lines 0 (PStr <$> anns)) d); try done.
      - by apply annotation_text_of_strings.
      - unfold end_instant. by rewrite Hdue. }
    split; [by rewrite !lookup_insert_ne by done; rewrite lookup_insert_eq |].
    split; [done |].
    split; [by rewrite lookup_insert_ne by done; rewrite lookup_insert_eq |].
    split; [done |]. by rewrite lookup_insert_eq.
Qed.

End BackConversion.

Section RoundTripMore.
Context `{Host}.
Hypothesis parse_format :
  forall t, parse_datetime (PStr (format_datetime t)) = Some t.
Import PyStr PyStrFacts.

(** The task that the round trip of a valid task returns. *)
Lemma round_trip_explicit (t : item) :
  valid_task t = true ->
  exists d s u e texts fin,
    t !! "description" = Some d
    /\ t !! "status" = Some (PStr s) /\ s ∈ valid_statuses
    /\ t !! "uuid" = Some (PUuid u) /\ (u < 2 ^ 128)%N
    /\ t !! "entry" = Some (PTime e)
    /\ default (PList []) (t !! "annotations") = PList (PStr <$> texts)
    /\ Forall (fun s => strip s = s) texts
    /\ Forall (fun s => LF ∉ chars s) texts
    /\ (is_Some (t !! "due") -> t !! "due" = Some (PTime fin))
    /\ round_trip t
       = (Ok (<["due" := PTime fin]>
              (<["entry" := PTime e]>
              (<["description" := d]>
              (<["uuid" := PUuid u]>
              (<["status" := PStr s]>
              (<["annotations" := PList (PStr <$> texts)]> ∅)))))), []).
Proof using parse_format.
  unfold valid_task. intros Hv.
  destruct (t !! "description") as [d|] eqn:Hd; [| done].
  destruct (t !! "status") as [[s| | | | |]|] eqn:Hs; try done.
  destruct (t !! "uuid") as [[| |u| | |]|] eqn:Hu; try done.
  destruct (t !! "entry") as [[| | |e| |]|] eqn:He; try done.
  apply andb_true_iff in Hv as [Hv Hann].
  apply andb_true_iff in Hv as [Hv Hdue].
  apply andb_true_iff in Hv as [Hsv Hu128].
  apply bool_decide_eq_true_1 in Hsv. apply N.ltb_lt in Hu128.
  assert (exists texts,
             default (PList []) (t !! "annotations") = PList (PStr <$> texts)
             /\ annotation_text t = Ok (annotation_lines 0 (PStr <$> texts))
             /\ Forall (fun s => strip s = s) texts
             /\ Forall (fun s => LF ∉ chars s) texts)
    as (texts & Hdef & Hx & Hclean & Hline).
  { unfold annotation_text.
    destruct (t !! "annotations") as [[| | | |l|]|]; try done.
    - destruct (clean_texts l Hann) as (texts & -> & ? & ?). by exists texts.
    - by exists []. }
  assert (exists fin, end_instant t e = Some fin
                      /\ (is_Some (t !! "due") -> t !! "due" = Some (PTime fin)))
    as (fin & Hfin & Hdue').
  { unfold end_instant.
    destruct (t !! "due") as [[| | |due| |]|]; try done.
    - by exists due.
    - exists (e + day). split; [done |]. by intros [? ?]. }
  pose proof (lines_of_annotations 0 texts Hline) as Hbody.
  pose proof (numbered_annotations 0 texts Hclean) as Hnum.
  pose proof (annotation_run_all _ _ (status_line (PStr s))
                [uuid_line (PUuid u)] 0 0 [] Hnum
                (status_is_no_annotation s Hsv)) as Hrun.
  rewrite <- Hbody in Hrun.
  destruct (round_trip_ok parse_format t d s u e _ fin _ _
              Hd Hs Hsv Hu Hu128 He Hx Hfin Hrun)
    as (lg & Hrt & Hlg).
  rewrite (Hlg eq_refl) in Hrt. simpl app in Hrt.
  exists d, s, u, e, texts, fin. by repeat (split; [done |]).
Qed.

Lemma clean_texts_forallb texts :
  Forall (fun s => strip s = s) texts ->
  Forall (fun s => LF ∉ chars s) texts ->
  forallb clean_text (PStr <$> texts) = true.
Proof.
  induction texts as [|s texts IH]; intros Hs Hl; [done |].
  apply Forall_cons in Hs as [Hs1 Hs]. apply Forall_cons in Hl as [Hl1 Hl].
  rewrite fmap_cons. cbn [forallb]. rewrite (IH Hs Hl), andb_true_r.
  cbn [clean_text]. unfold is_clean. rewrite bool_decide_eq_true_2 by done.
  by rewrite bool_decide_eq_false_2.
Qed.

Lemma round_trip_fixed (t out : item) lg :
  valid_task t = true -> round_trip t = (Ok out, lg) ->
  lg = [] /\ valid_task out = true /\ round_trip out = (Ok out, []).
Proof using parse_format.
  intros Hv Hrt.
  destruct (round_trip_explicit t Hv)
    as (d & s & u & e & texts & fin & _ & _ & Hsv & _ & Hu128 & _ & _
        & Hclean & Hline & _ & Hout).
  rewrite Hout in Hrt. injection Hrt as <- <-. split; [done |].
  set (out := <["due" := PTime fin]> _) in *.
  assert (out !! "description" = Some d) as Hd by done.
  assert (out !! "status" = Some (PStr s)) as Hs by done.
  assert (out !! "uuid" = Some (PUuid u)) as Hu by done.
  assert (out !! "entry" = Some (PTime e)) as He by done.
  assert (out !! "due" = Some (PTime fin)) as Hdue by done.
  assert (out !! "annotations" = Some (PList (PStr <$> texts))) as Hann by done.
  assert (valid_task out = true) as Hvo.
  { unfold valid_task. rewrite Hd, Hs, Hu, He, Hdue, Hann.
    rewrite bool_decide_eq_true_2 by done.
    rewrite (proj2 (N.ltb_lt _ _) Hu128). simpl.
    by apply clean_texts_forallb. }
  split; [done |].
  destruct (round_trip_explicit out Hvo)
    as (d' & s' & u' & e' & texts' & fin' & Hd' & Hs' & _ & Hu' & _ & He' & Hdef'
        & _ & _ & Hdue' & Hout').
  rewrite Hout'.
  rewrite Hd in Hd'. rewrite Hs in Hs'. rewrite Hu in Hu'. rewrite He in He'.
  rewrite Hann in Hdef'. simpl in Hdef'.
  specialize (Hdue' (ltac:(by eexists))). rewrite Hdue in Hdue'.
  injection Hd' as <-. injection Hs' as <-. injection Hu' as <-.
  injection He' as <-. injection Hdue' as <-. injection Hdef' as Hdef'.
  by rewrite <- Hdef'.
Qed.

Lemma own_event_compare (t g : item) text :
  valid_task t = true -> t !! "description" = Some (PStr text) ->
  convert_tw_to_gcal t = Ok g ->
  exists dk,
    compare_tw_gcal_items t g = (Ok (dk, ∅), [])
    /\ dk ⊆ {["due"; "annotations"]} ∪ (dom t ∖ written_keys).
Proof using parse_format.
  intros Hv Htext Hg.
  destruct (round_trip_explicit t Hv)
    as (d & s & u & e & texts & fin & Hd & Hs & _ & Hu & _ & He & Hdef
        & _ & _ & Hdue & Hout).
  unfold round_trip in Hout. rewrite Hg in Hout.
  unfold compare_tw_gcal_items. rewrite Hout.
  set (out := <["due" := PTime fin]> _) in *.
  exists (diff_keys t out). split.
  - assert (changes t out = ∅) as ->; [| done].
    apply map_eq. intros k. rewrite lookup_changes, lookup_empty.
    destruct (t !! k) as [a|] eqn:Ha; [| done].
    destruct (out !! k) as [b|] eqn:Hb; [| done].
    enough (a = b /\ plain b = true) as [-> Hpl]
      by (by rewrite (proj2 (py_eqb_plain b b Hpl) eq_refl)).
    assert (plain (PList (PStr <$> texts)) = true) as Hpt.
    { simpl. clear. induction texts; simpl; done. }
    unfold out in Hb.
    rewrite !lookup_insert_Some, lookup_empty in Hb.
    destruct Hb as [[<- <-]|[_ Hb]].
    { rewrite Hdue in Ha by (by eexists). by injection Ha as <-. }
    destruct Hb as [[<- <-]|[_ Hb]]; [split; [congruence | done] |].
    destruct Hb as [[<- <-]|[_ Hb]]; [split; [congruence | by rewrite Hd in Htext; injection Htext as -> ] |].
    destruct Hb as [[<- <-]|[_ Hb]]; [split; [congruence | done] |].
    destruct Hb as [[<- <-]|[_ Hb]]; [split; [congruence | done] |].
    destruct Hb as [[<- <-]|[_ Hb]]; [| done].
    rewrite Ha in Hdef. simpl in Hdef. by subst a.
  - unfold diff_keys.
    assert (dom out = written_keys) as Hdom.
    { unfold out, written_keys. rewrite !dom_insert_L, dom_empty_L.
      apply set_eq. intros k. rewrite !elem_of_union, !elem_of_singleton.
      rewrite elem_of_empty. tauto. }
    rewrite Hdom. intros k.
    rewrite !elem_of_union, !elem_of_difference.
    intros [[Hk Hn]|[Hk Hn]]; [by right |]. left.
    unfold written_keys in Hk.
    rewrite !elem_of_union, !elem_of_singleton in Hk.
    rewrite elem_of_dom in Hn.
    rewrite !elem_of_singleton.
    destruct Hk as [[[[[->| ->]| ->]| ->]| ->]| ->];
      try (by right); try (by left); exfalso; apply Hn; eauto.
Qed.

(** X28.  The round trip of a valid task returns a valid task that the round
    trip leaves as it is: what a second round trip could still change,
    the first has changed already. *)
Theorem round_trip_is_idempotent (t out : item) lg :
  valid_task t = true -> round_trip t = (Ok out, lg) ->
  lg = [] /\ valid_task out = true /\ round_trip out = (Ok out, []).
Proof using parse_format. apply round_trip_fixed. Qed.

(** X29.  A valid task whose description is a string, compared with the event
    that [convert_tw_to_gcal] makes of it: no shared key is reported as
    changed, and the keys reported as held on one side only are among
    due, annotations and the keys that the converter does not carry. *)
Theorem task_matches_its_own_event (t g : item) text :
  valid_task t = true -> t !! "description" = Some (PStr text) ->
  convert_tw_to_gcal t = Ok g ->
  exists dk,
    compare_tw_gcal_items t g = (Ok (dk, ∅), [])
    /\ dk ⊆ {["due"; "annotations"]} ∪ (dom t ∖ written_keys).
Proof using parse_format. apply own_event_compare. Qed.

End RoundTripMore.

(* ===================================================================== *)
(** * The further properties on the stand-ins *)
(* ===================================================================== *)

Module SampleChecks.
Import Sample SampleFacts.

Lemma in_list_dec {A} `{EqDecision A} (x : A) (l : list A) :
  bool_decide (x ∈ l) = true -> x ∈ l.
Proof. apply bool_decide_eq_true_1. Qed.

Lemma not_in_list_dec {A} `{EqDecision A} (x : A) (l : list A) :
  bool_decide (x ∈ l) = false -> x ∉ l.
Proof. apply bool_decide_eq_false_1. Qed.

(** The event of the sample task, and the tasks of the sample events. *)
Lemma buy_milk_event :
  @convert_tw_to_gcal host buy_milk
  = Ok buy_milk_as_event.
Proof. by apply (@convert_tw_to_gcal_ok host buy_milk). Qed.

Lemma edited_event_parsed :
  @_parse_gcal_item_desc edited_event
  = (Ok ([], "completed", Some u1),
     [Log ERROR
        ("Invalid UUID badly formed hexadecimal UUID string" +:+
         " provided during GCal -> TW conversion, Using None...")]).
Proof. vm_compute. reflexivity. Qed.

Lemma dentist_parsed :
  @_parse_gcal_item_desc dentist = (Ok ([], "pending", None), []).
Proof. vm_compute. reflexivity. Qed.

Lemma event_times link d :
  @read_time host (event_with link d) "start" = Ok (PTime 5)
  /\ @read_time host (event_with link d) "end" = Ok (PTime 7).
Proof. split; reflexivity. Qed.

Lemma dentist_task :
  @convert_gcal_to_tw host dentist
  = (Ok dentist_converted, []).
Proof.
  apply (@convert_gcal_to_tw_valid host dentist [] "pending" None []
           (PStr "Dentist") (PTime 5) (PTime 7)).
  - exact dentist_parsed.
  - by apply in_list_dec.
  - reflexivity.
  - apply event_times.
  - apply event_times.
Qed.

Lemma edited_event_task :
  @convert_gcal_to_tw host edited_event
  = (Ok edited_event_converted,
     [Log ERROR
        ("Invalid UUID badly formed hexadecimal UUID string" +:+
         " provided during GCal -> TW conversion, Using None...")]).
Proof.
  apply (@convert_gcal_to_tw_valid host edited_event [] "completed" (Some u1) _
           (PStr "Dentist") (PTime 5) (PTime 7)).
  - exact edited_event_parsed.
  - by apply in_list_dec.
  - reflexivity.
  - apply event_times.
  - apply event_times.
Qed.

Lemma edited_event_lines :
  exists desc,
    edited_event !! "description" = Some (PStr desc)
    /\ @desc_lines desc
       = ["* status: waiting"; "* uuid: 123e4567-e89b-12d3-a456-426614174000";
          "* STATUS: Completed"; "* uuid: none"].
Proof. eexists. split; [reflexivity |]. vm_compute. reflexivity. Qed.

(** ** The parser *)

Lemma parsed_fields_are_normalised_witness :
  exists anns st uu lg,
    @_parse_gcal_item_desc edited_event = (Ok (anns, st, uu), lg)
    /\ Forall (fun a => PyStr.strip a = a) anns
    /\ PyStr.lower st = st /\ PyStr.strip st = st
    /\ (forall u, uu = Some u -> (u < 2 ^ 128)%N)
    /\ Forall (fun r => exists msg, r = Log ERROR msg) lg.
Proof.
  eexists _, _, _, _. split; [exact edited_event_parsed |].
  apply (@parsed_fields_are_normalised edited_event).
  exact edited_event_parsed.
Defined.

Lemma header_line_is_never_parsed_witness :
  @convert_gcal_to_tw host
    (<["description" :=
         PStr ("IMPORTED FROM TASKWARRIOR" +:+
               String PyStr.LF "* status: completed")]> dentist)
  = @convert_gcal_to_tw host
      (<["description" :=
           PStr ("* status: deleted" +:+
                 String PyStr.LF "* status: completed")]> dentist).
Proof.
  apply (@header_line_is_never_parsed host dentist).
  - discriminate.
  - by apply not_in_list_dec.
  - discriminate.
  - by apply not_in_list_dec.
Defined.

Lemma last_status_line_decides_witness :
  exists out lg,
    @convert_gcal_to_tw host edited_event = (Ok out, lg)
    /\ out !! "status" = Some (PStr "completed")
    /\ (forall msg, Log WARNING msg ∉ lg).
Proof.
  destruct edited_event_lines as (desc & Hdesc & Hlines).
  apply (@last_status_line_decides host edited_event desc
           ["* status: waiting"; "* uuid: 123e4567-e89b-12d3-a456-426614174000"]
           "* STATUS: Completed" ["* uuid: none"] "completed"
           (PStr "Dentist") (PTime 5) (PTime 7)).
  - exact Hdesc.
  - exact Hlines.
  - reflexivity.
  - by repeat constructor.
  - by left.
  - by apply in_list_dec.
  - reflexivity.
  - apply event_times.
  - apply event_times.
Defined.

Lemma last_good_uuid_line_decides_witness :
  exists anns st lg,
    @_parse_gcal_item_desc edited_event = (Ok (anns, st, Some u1), lg).
Proof.
  destruct edited_event_lines as (desc & Hdesc & Hlines).
  apply (@last_good_uuid_line_decides edited_event desc
           ["* status: waiting"]
           "* uuid: 123e4567-e89b-12d3-a456-426614174000"
           ["* STATUS: Completed"; "* uuid: none"]
           "123e4567-e89b-12d3-a456-426614174000" u1).
  - exact Hdesc.
  - exact Hlines.
  - reflexivity.
  - vm_compute. reflexivity.
  - repeat constructor.
    + intros s' Hs'. vm_compute in Hs'. discriminate.
    + intros s' Hs'. vm_compute in Hs'. injection Hs' as <-.
      vm_compute. reflexivity.
  - by left.
Defined.

(** ** The converters *)

Lemma convert_tw_to_gcal_missing_key_witness :
  @convert_tw_to_gcal host (delete "uuid" buy_milk) = Raise AssertionError
  /\ @convert_tw_to_gcal host (delete "entry" buy_milk) = Raise (KeyError "entry").
Proof.
  split.
  - apply (proj1 (@convert_tw_to_gcal_missing_key host)
             (delete "uuid" buy_milk) "uuid").
    + by apply in_list_dec.
    + reflexivity.
  - apply (proj2 (@convert_tw_to_gcal_missing_key host)
             (delete "entry" buy_milk) "").
    + by eexists.
    + by eexists.
    + by eexists.
    + reflexivity.
    + reflexivity.
Defined.

Lemma event_has_four_keys_witness :
  exists g,
    @convert_tw_to_gcal host buy_milk = Ok g
    /\ dom g = {["summary"; "description"; "start"; "end"]}
    /\ g !! "summary" = buy_milk !! "description"
    /\ exists body,
         g !! "description"
         = Some (PStr ("IMPORTED FROM TASKWARRIOR" +:+ String PyStr.LF body)).
Proof.
  eexists. split; [exact buy_milk_event |].
  apply (@event_has_four_keys host buy_milk). exact buy_milk_event.
Defined.

Lemma convert_tw_to_gcal_reads_six_keys_witness :
  @convert_tw_to_gcal host tagged_milk = @convert_tw_to_gcal host buy_milk.
Proof.
  apply (@convert_tw_to_gcal_reads_six_keys host tagged_milk buy_milk).
  intros k Hk.
  repeat (apply elem_of_cons in Hk as [->|Hk]; [reflexivity |]).
  by apply elem_of_nil in Hk.
Defined.

Lemma convert_gcal_to_tw_missing_key_witness :
  exists lg,
    (all_day_event !! "summary" = None ->
     @convert_gcal_to_tw host all_day_event = (Raise (KeyError "summary"), lg))
    /\ (is_Some (all_day_event !! "summary") -> all_day_event !! "start" = None ->
        @convert_gcal_to_tw host all_day_event = (Raise (KeyError "start"), lg))
    /\ (is_Some (all_day_event !! "summary") ->
        forall d, all_day_event !! "start" = Some (PDict d) ->
                  assoc "dateTime" d = None ->
        @convert_gcal_to_tw host all_day_event
        = (Raise (KeyError "dateTime"), lg)).
Proof.
  apply (@convert_gcal_to_tw_missing_key host all_day_event). by left.
Defined.

Lemma converted_task_shape_witness :
  exists t lg,
    @convert_gcal_to_tw host dentist = (Ok t, lg)
    /\ ({["annotations"; "description"; "entry"; "due"]} : gset string) ⊆ dom t
    /\ dom t ⊆ written_keys
    /\ t !! "description" = dentist !! "summary"
    /\ (exists anns, t !! "annotations" = Some (PList (PStr <$> anns)))
    /\ (exists e d, t !! "entry" = Some (PTime e) /\ t !! "due" = Some (PTime d))
    /\ (forall v, t !! "status" = Some v ->
          exists s, v = PStr s /\ s ∈ valid_statuses)
    /\ (forall v, t !! "uuid" = Some v ->
          exists u, v = PUuid u /\ (u < 2 ^ 128)%N)
    /\ (t !! "status" = None <-> (exists msg, Log WARNING msg ∈ lg)).
Proof.
  eexists _, _. split; [exact dentist_task |].
  apply (@converted_task_shape host dentist). exact dentist_task.
Defined.

Lemma convert_gcal_to_tw_reads_four_keys_witness :
  @convert_gcal_to_tw host (<["htmlLink" := PStr "https://cal/11"]> dentist)
  = @convert_gcal_to_tw host dentist.
Proof.
  apply (@convert_gcal_to_tw_reads_four_keys host).
  intros k Hk.
  repeat (apply elem_of_cons in Hk as [->|Hk]; [reflexivity |]).
  by apply elem_of_nil in Hk.
Defined.

(** ** Annotations and layout *)

Lemma annotations_are_the_leading_run_witness :
  exists st uu lg,
    @_parse_gcal_item_desc late_annotation_event
    = (Ok (["call first"], st, uu), lg).
Proof.
  eapply (proj1 (@annotations_are_the_leading_run late_annotation_event _
                   eq_refl)
            ["* Annotation 1: call first"] "* status: pending"
            ["* Annotation 2: bring the list";
             "* uuid: 123e4567-e89b-12d3-a456-426614174000"] ["call first"]).
  - vm_compute. reflexivity.
  - repeat constructor.
  - reflexivity.
Defined.

Lemma lone_last_line_is_not_scanned_witness :
  @_parse_gcal_item_desc lonely_status_event
  = (Ok (["call first"], "pending", None), []).
Proof.
  eapply (@lone_last_line_is_not_scanned lonely_status_event _
            ["* Annotation 1: call first"] "* status: completed" ["call first"]).
  - reflexivity.
  - vm_compute. reflexivity.
  - repeat constructor.
  - reflexivity.
Defined.

Lemma description_layout_witness :
  exists g desc,
    @convert_tw_to_gcal host noted_task = Ok g
    /\ g !! "description" = Some (PStr desc)
    /\ PyStr.split PyStr.LF desc
       = "IMPORTED FROM TASKWARRIOR" :: "" ::
         numbered 0 ["call first"; "bring the list"]
         ++ [""; "* status: " +:+ "pending"; "* uuid: " +:+ Uuid.to_string u1].
Proof.
  assert (@convert_tw_to_gcal host noted_task
          = Ok (<["end" := @date_time host (t0 + day)]>
                (<["start" := @date_time host t0]>
                (<["description" :=
                     PStr (@task_description host
                             (@annotation_lines host 0
                                [PStr "call first"; PStr "bring the list"])
                             (PStr "pending") (PUuid u1))]>
                (<["summary" := PStr "Buy milk"]> ∅))))) as Hg
    by (by apply (@convert_tw_to_gcal_ok host noted_task)).
  destruct (@description_layout host noted_task _ "pending" u1
              ["call first"; "bring the list"] Hg) as (desc & Hdesc);
    [reflexivity | by apply not_in_list_dec | reflexivity | reflexivity
     | repeat constructor; by apply not_in_list_dec |].
  eexists _, desc. split; [exact Hg |]. exact Hdesc.
Defined.

(** ** Registration *)

Lemma register_items_never_calls_the_task_store_witness :
  let run := @register_items host stores
               [buy_milk; task "Pay rent" u2] "tw" (fresh [] 2) in
  tw_side run.2 = tw_side (fresh [] 2) /\ config run.2 = config (fresh [] 2)
  /\ exists evs, journal run.2 = journal (fresh [] 2) ++ evs
                 /\ Forall is_gcal_add evs.
Proof.
  intros run.
  apply (@register_items_never_calls_the_task_store host stores
           [buy_milk; task "Pay rent" u2] "tw" (fresh [] 2) run.1 run.2).
  apply surjective_pairing.
Defined.

Lemma new_item_is_added_and_recorded_witness :
  let link := PStr ("https://cal/" +:+ PyStr.of_Z (Z.of_nat 0)) in
  let g := buy_milk_as_event in
  exists a',
    @convert_tw_to_gcal host buy_milk = Ok g
    /\ @register_items host stores ([] ++ [buy_milk]) "tw" (fresh [] 0)
       = (Ok tt, a')
    /\ view "tw" (tw_gcal_ids a')
       = view "tw" (tw_gcal_ids (fresh [] 0))
         ++ [(PStr (@py_str host (PUuid u1)), link)]
    /\ journal a' = journal (fresh [] 0) ++ [EvAdd GcalSide g]
    /\ logs a'
       = (logs (fresh [] 0)
          ++ [Log INFO ("Inserting item, [" +:+ "tw" +:+ "] id: "
                        +:+ @py_str host (PUuid u1) +:+ "...")]) ++ []
    /\ gcal_side a' = 1%nat /\ tw_side a' = tw_side (fresh [] 0).
Proof.
  intros link g.
  destruct (@new_item_is_added_and_recorded host stores
              [] buy_milk "tw" (fresh [] 0) (fresh [] 0) "uuid" "htmlLink"
              (PUuid u1) g [] (<["htmlLink" := link]> g) 1%nat link)
    as (a' & Ha');
    [reflexivity | reflexivity | reflexivity | reflexivity | reflexivity
     | unfold convert_fun; simpl; by rewrite buy_milk_event
     | reflexivity | apply lookup_insert_eq | reflexivity
     | apply not_elem_of_nil |].
  exists a'. split; [exact buy_milk_event |]. exact Ha'.
Defined.

Lemma refused_identifier_leaves_an_orphan_witness :
  let t := dentist_converted in
  exists a',
    @convert_gcal_to_tw host dentist = (Ok t, [])
    /\ @register_items host stores ([] ++ dentist :: [edited_event]) "gcal"
         (fresh [] 0)
       = (Raise (KeyError "uuid"), a')
    /\ tw_gcal_ids a' = tw_gcal_ids (fresh [] 0)
    /\ journal a' = journal (fresh [] 0) ++ [EvAdd GcalSide t]
    /\ gcal_side a' = 1%nat.
Proof.
  intros t.
  destruct (@refused_identifier_leaves_an_orphan host stores
              [] dentist [edited_event] "gcal" (fresh [] 0) (fresh [] 0)
              "htmlLink" "uuid" (PStr "https://cal/9") t []
              (<["htmlLink" := PStr ("https://cal/" +:+ PyStr.of_Z (Z.of_nat 0))]> t)
              1%nat (KeyError "uuid")) as (a' & Ha');
    [reflexivity | reflexivity | reflexivity | reflexivity | reflexivity
     | unfold convert_fun; simpl; by rewrite dentist_task
     | reflexivity | reflexivity |].
  exists a'. split; [exact dentist_task |]. exact Ha'.
Defined.

Lemma calls_and_entries_match_witness :
  let run := @register_items host stores
               [buy_milk; task "Pay rent" u2] "tw" (fresh [] 2) in
  exists calls entries,
    journal run.2 = journal (fresh [] 2) ++ calls
    /\ view "tw" (tw_gcal_ids run.2)
       = view "tw" (tw_gcal_ids (fresh [] 2)) ++ entries
    /\ (length calls <= length [buy_milk; task "Pay rent" u2])%nat
    /\ (length entries <= length calls <= length entries + 1)%nat
    /\ (run.1 = Ok tt -> length calls = length entries).
Proof.
  intros run.
  apply (@calls_and_entries_match host stores
           [buy_milk; task "Pay rent" u2] "tw" (fresh [] 2) run.1 run.2).
  apply surjective_pairing.
Defined.

Lemma repeated_identifiers_are_skipped_witness :
  let run := @register_items host stores [buy_milk] "tw" (fresh [] 0) in
  @register_items host stores ([buy_milk] ++ [tagged_milk; buy_milk]) "tw"
    (fresh [] 0)
  = (Ok tt, run.2).
Proof.
  intros run.
  apply (@repeated_identifiers_are_skipped host stores
           [buy_milk] [tagged_milk; buy_milk] "tw" (fresh [] 0) run.2 "uuid").
  - assert (run.1 = Ok tt) as Hok by (vm_compute; reflexivity).
    rewrite <- Hok. apply surjective_pairing.
  - reflexivity.
  - intros it Hin. exists buy_milk. split; [by left |].
    repeat (apply elem_of_cons in Hin as [->|Hin];
            [split; [by eexists | reflexivity] |]).
    by apply elem_of_nil in Hin.
Defined.

Lemma register_items_rejects_witness :
  @register_items host stores [buy_milk] "taskwarrior" (fresh [] 0)
  = (Raise AssertionError, fresh [] 0)
  /\ @register_items host stores ([] ++ buy_milk :: [dentist]) "gcal" (fresh [] 0)
     = (Raise (KeyError "htmlLink"), fresh [] 0).
Proof.
  split.
  - apply (proj1 (@register_items_rejects host stores)).
    by apply not_in_list_dec.
  - apply (proj2 (@register_items_rejects host stores)
             [] buy_milk [dentist] "gcal" (fresh [] 0) (fresh [] 0) "htmlLink");
      reflexivity.
Defined.

(** ** The sides, the aggregator *)

Lemma tw_side_takes_a_string_tag_witness :
  exists msg,
    @TaskWarriorSide_init stores {["tags" := PList [PStr "remindme"]]}
    = (Raise RuntimeError, [Log FATAL msg]).
Proof.
  apply (proj2 (proj2 (@tw_side_takes_a_string_tag stores
                         {["tags" := PList [PStr "remindme"]]}))
           (PList [PStr "remindme"])).
  - reflexivity.
  - discriminate.
Defined.

Lemma get_items_filters_by_the_tag_witness :
  let s := @Build_TaskWarriorSide stores {["tags" := PStr "remindme"]} 0%N in
  exists tag,
    (({["tags" := PStr "remindme"]} : gmap string pyval) !! "tags"
     = Some (PStr tag)
     \/ ({["tags" := PStr "remindme"]} : gmap string pyval) !! "tags" = None
        /\ tag = "")
    /\ @TaskWarriorSide_get_items stores no_tasks s
       = ((no_tasks {["tags" := PStr tag]} (tw s)).1,
          @Build_TaskWarriorSide stores (tws_config s)
            (no_tasks {["tags" := PStr tag]} (tw s)).2).
Proof.
  intros s.
  apply (@get_items_filters_by_the_tag stores no_tasks
           {["tags" := PStr "remindme"]} s []).
  apply (proj1 (proj2 (@TaskWarriorSide_init_cases stores
                         {["tags" := PStr "remindme"]})) "remindme").
  reflexivity.
Defined.

Lemma tw_add_item_adds_the_task_witness :
  let it : item := <["desscription" := PStr "Buy"]> buy_milk in
  let s := @Build_TaskWarriorSide stores {["tags" := PStr "remindme"]} 0%N in
  let rest := delete "description" it in
  @TaskWarriorSide_add_item host stores (delete "description" buy_milk)
    (s, [], [])
  = (Raise AssertionError, (s, [], []))
  /\ rest !! "description" = None
  /\ rest !! "desscription" = Some (PStr "Buy")
  /\ exists msg,
       @TaskWarriorSide_add_item host stores it (s, [], [])
       = ((task_add (PStr "Buy milk") rest (tw s)).1,
          (@Build_TaskWarriorSide stores (tws_config s)
             (task_add (PStr "Buy milk") rest (tw s)).2,
           [] ++ [Log INFO msg],
           [] ++ [EvAdd TwSide it])).
Proof.
  intros it s rest. split.
  - apply (proj1 (@tw_add_item_adds_the_task host stores)). reflexivity.
  - apply (proj2 (@tw_add_item_adds_the_task host stores) it "Buy milk" "Buy" s);
      reflexivity.
Defined.

Lemma aggregator_init_result_witness :
  exists a l,
    @TWGCalAggregator_init stores {["tags" := PStr "remindme"]}
      {["calendar_summary" := PStr "Tasks"]} None "prefs" = (Ok a, l)
    /\ config a !! "tw_id_key" = Some "uuid"
    /\ config a !! "gcal_id_key" = Some "htmlLink"
    /\ tw_gcal_ids a = default [] None
    /\ l = [] /\ logs a = [] /\ journal a = []
    /\ @TaskWarriorSide_init stores {["tags" := PStr "remindme"]}
       = (Ok (tw_side a), [])
    /\ GCalSide ({["tags" := PStr "remindme"]}
                 ∪ {["credentials_dir" := PStr "prefs"]}) = Ok (gcal_side a)
    /\ (forall other,
          @TWGCalAggregator_init stores {["tags" := PStr "remindme"]} other
            None "prefs" = (Ok a, l)).
Proof.
  eexists _, _. split; [reflexivity |].
  apply (@aggregator_init_result stores {["tags" := PStr "remindme"]}
           {["calendar_summary" := PStr "Tasks"]} None "prefs").
  reflexivity.
Defined.

(** ** Comparison, conversions in a row *)

Lemma reported_changes_are_real_witness :
  let run := @compare_tw_gcal_items host buy_milk dentist in
  exists dk ch out,
    run = (Ok (dk, ch), [])
    /\ @convert_gcal_to_tw host dentist = (Ok out, [])
    /\ dk = diff_keys buy_milk out
    /\ (forall k, k ∈ dk <-> (is_Some (buy_milk !! k) /\ out !! k = None)
                             \/ (buy_milk !! k = None /\ is_Some (out !! k)))
    /\ (forall k a b, ch !! k = Some (a, b) <->
          buy_milk !! k = Some a /\ out !! k = Some b /\ py_eqb a b = false)
    /\ dom ch ## dk.
Proof.
  intros run.
  assert (run = (Ok (diff_keys buy_milk dentist_converted,
                        changes buy_milk dentist_converted), [])) as Hrun.
  { unfold run, compare_tw_gcal_items. by rewrite dentist_task. }
  destruct (@reported_changes_are_real host buy_milk dentist _ _ [] Hrun)
    as (out & Hout).
  eexists _, _, out. split; [exact Hrun |]. exact Hout.
Defined.

Lemma nothing_reported_iff_same_task_witness :
  @compare_tw_gcal_items host dentist_converted dentist = (Ok (∅, ∅), [])
  <-> @convert_gcal_to_tw host dentist = (Ok dentist_converted, []).
Proof.
  apply (@nothing_reported_iff_same_task host dentist_converted dentist []
           "Dentist").
  reflexivity.
Defined.

Lemma event_to_task_and_back_witness :
  exists t lg,
    @convert_gcal_to_tw host edited_event = (Ok t, lg)
    /\ (edited_event !! "description" = None ->
        @convert_tw_to_gcal host t = Raise AssertionError)
    /\ (t !! "uuid" = None \/ t !! "status" = None ->
        @convert_tw_to_gcal host t = Raise AssertionError)
    /\ (is_Some (t !! "uuid") -> is_Some (t !! "status") ->
        exists g' e d,
          @convert_tw_to_gcal host t = Ok g'
          /\ g' !! "summary" = edited_event !! "summary"
          /\ @read_time host edited_event "start" = Ok (PTime e)
          /\ g' !! "start" = Some (@date_time host e)
          /\ @read_time host edited_event "end" = Ok (PTime d)
          /\ g' !! "end" = Some (@date_time host d)).
Proof.
  eexists _, _. split; [exact edited_event_task |].
  apply (@event_to_task_and_back host edited_event edited_event_converted
           [Log ERROR
        ("Invalid UUID badly formed hexadecimal UUID string" +:+
         " provided during GCal -> TW conversion, Using None...")]).
  exact edited_event_task.
Defined.

Lemma round_trip_is_idempotent_witness :
  let run := @round_trip host noted_task in
  exists out,
    run = (Ok out, [])
    /\ [] = ([] : list logrec) /\ valid_task out = true
    /\ @round_trip host out = (Ok out, []).
Proof.
  intros run.
  destruct (@round_trip_explicit host parse_format_law noted_task)
    as (d & s & u & e & texts & fin & _ & _ & _ & _ & _ & _ & _ & _ & _ & _ & Hrt);
    [vm_compute; reflexivity |].
  eexists. split; [exact Hrt |].
  apply (@round_trip_is_idempotent host parse_format_law noted_task _ []).
  - vm_compute. reflexivity.
  - exact Hrt.
Defined.

Lemma task_matches_its_own_event_witness :
  exists g dk,
    @convert_tw_to_gcal host buy_milk = Ok g
    /\ @compare_tw_gcal_items host buy_milk g = (Ok (dk, ∅), [])
    /\ dk ⊆ {["due"; "annotations"]} ∪ (dom buy_milk ∖ written_keys).
Proof.
  destruct (@task_matches_its_own_event host parse_format_law buy_milk
              buy_milk_as_event "Buy milk") as (dk & Hdk);
    [vm_compute; reflexivity | reflexivity | exact buy_milk_event |].
  eexists _, dk. split; [exact buy_milk_event |]. exact Hdk.
Defined.

End SampleChecks.
